(** * Aurora_Alert: the decision and normalisation engine of [aurora_alert.py]

    A shallow embedding of the functions of [src/aurora_alert.py] that decide
    whether an aurora alert is sent: the severity labels, the value coercion
    and the feed normaliser of the nowcast, the search of the best observation
    slot around a forecast peak, the cooldown ledger, the order of effects
    of [main], the readers of the NOAA tables ([kp_now],
    [parse_noaa_time_utc], [kp_forecast_max_next_hours]) and the helpers of
    the message ([parse_recipients], [html_escape], [meteo_gate_now], the
    priority of [build_email_pro]).

    Conventions.
    - A Python [float] is an IEEE binary64 value, modelled by the Standard
      Library's [spec_float] with precision 53 and maximal exponent 1024;
      comparisons are [SFleb]/[SFltb], conversions round to nearest even.
    - A Python [int] is a [Z].
    - A Python [str] read from a feed is a [string] whose characters are code
      points below 256; on these, [\d] is the class [0-9].
    - A Python [dict] used as a map is a [gmap]; [None] in an [Optional] is
      [None] of [option].
    - Code that can raise returns [res A]: [Ok a] or [Raise e].
    - What the outside world answers to a run (the feeds, the conversions
      to local time, the SMTP session, the steps of [save_state] on the
      disk) is an input of the run; every property holds for all answers. *)

From stdpp Require Import gmap strings list fin_maps.
From Stdlib Require Import ZArith Ascii String Lia.
From Stdlib Require Import Floats.SpecFloat.

Set Warnings "-register-all".
#[local] Open Scope string_scope.
#[local] Open Scope Z_scope.

(* ===================================================================== *)
(** * Python values *)
(* ===================================================================== *)

(** ** Floats *)

Abbreviation float := spec_float.

Module PyFloat.

Definition prec : Z := 53.
Definition emax : Z := 1024.

(** [float(z)] for an [int] that is in range, and the value of an integer
    literal such as [8] or [7.0] in a comparison. *)
Definition of_Z (z : Z) : float := binary_normalize prec emax z 0 false.

(** The binary64 nearest to [(-1)^neg * m / 10^k]: the value of the decimal
    numeral whose digits (without the dot) read [m] and that has [k] digits
    after the dot. *)
Definition of_decimal (neg : bool) (m : Z) (k : nat) : float :=
  match m with
  | Zpos p =>
      SFdiv prec emax (S754_finite neg p 0)
                      (S754_finite false (Z.to_pos (10 ^ Z.of_nat k)) 0)
  | _ => S754_zero neg
  end.

(** [x >= y] and [x < y] on floats; every comparison with a NaN is false.
    A comparison of a float with an [int] literal is the comparison with the
    float of that literal, which is exact for the small literals used. *)
Definition ge (x y : float) : bool := SFleb y x.
Definition lt (x y : float) : bool := SFltb x y.

End PyFloat.

(** ** Exceptions *)

(** The classes of [Exception] that the modelled code can raise. *)
Inductive exn :=
  | TypeError | KeyError | IndexError | ValueError | OverflowError
  | RuntimeError | OSError.

Inductive res (A : Type) :=
  | Ok (a : A)
  | Raise (e : exn).
Arguments Ok {A} a.
Arguments Raise {A} e.

#[global] Instance res_ret : MRet res := @Ok.
#[global] Instance res_bind : MBind res := fun A B f m =>
  match m with
  | Ok a => f a
  | Raise e => Raise e
  end.

(** [try: body except Exception: handler] *)
Definition try_except {A} (body : res A) (handler : exn -> res A) : res A :=
  match body with
  | Ok a => Ok a
  | Raise e => handler e
  end.

(** ** JSON values, as [json.loads] builds them *)

Inductive json :=
  | JNull
  | JBool (b : bool)
  | JInt (z : Z)
  | JFloat (f : float)
  | JStr (s : string)
  | JList (l : list json)
  | JDict (m : gmap string json).

(** The result of [str(v)]: the string itself when [v] is a string,
    otherwise the text that Python prints for [v], kept symbolic. *)
Inductive text :=
  | Text (s : string)
  | StrOf (v : json).

Definition py_str (v : json) : text :=
  match v with
  | JStr s => Text s
  | _ => StrOf v
  end.

(** [bool(v)], as tested by [if not v]. *)
Definition truthy (v : json) : bool :=
  match v with
  | JNull => false
  | JBool b => b
  | JInt z => negb (z =? 0)
  | JFloat (S754_zero _) => false
  | JFloat _ => true
  | JStr s => negb (String.length s =? 0)%nat
  | JList l => negb (List.length l =? 0)%nat
  | JDict m => negb (size m =? 0)%nat
  end.

(** [len(v)] *)
Definition py_len (v : json) : res nat :=
  match v with
  | JStr s => Ok (String.length s)
  | JList l => Ok (List.length l)
  | JDict m => Ok (size m)
  | _ => Raise TypeError
  end.

(** [v[i]] for a non-negative literal index [i]. The keys of a dict read
    from JSON are strings, so an integer key is never present. *)
Definition py_getitem (v : json) (i : nat) : res json :=
  match v with
  | JList l =>
      match l !! i with
      | Some x => Ok x
      | None => Raise IndexError
      end
  | JStr s =>
      match String.get i s with
      | Some c => Ok (JStr (String c EmptyString))
      | None => Raise IndexError
      end
  | JDict _ => Raise KeyError
  | _ => Raise TypeError
  end.

(** [float(z)] for an [int]: [OverflowError] when the nearest binary64 is
    out of range. *)
Definition float_of_int (z : Z) : res float :=
  match PyFloat.of_Z z with
  | S754_infinity _ => Raise OverflowError
  | f => Ok f
  end.

(* ===================================================================== *)
(** * Text: [str.strip], [str.replace], [re.search], [float(str)] *)
(* ===================================================================== *)

Module PyText.

Definition code (c : ascii) : N := N_of_ascii c.

(** The characters that [str.strip()] removes, among code points below
    256: TAB..CR, FS..US, space, NEL and the no-break space. *)
Definition is_space (c : ascii) : bool :=
  let n := code c in
  ((9 <=? n) && (n <=? 13) || (28 <=? n) && (n <=? 32)
   || (n =? 133) || (n =? 160))%N.

Definition is_digit (c : ascii) : bool :=
  let n := code c in ((48 <=? n) && (n <=? 57))%N.

Definition digit_val (c : ascii) : Z := Z.of_N (code c) - 48.

Definition is_empty (s : string) : bool :=
  match s with EmptyString => true | String _ _ => false end.

Fixpoint lstrip (s : string) : string :=
  match s with
  | String c t => if is_space c then lstrip t else s
  | EmptyString => EmptyString
  end.

Fixpoint rstrip (s : string) : string :=
  match s with
  | String c t =>
      let t' := rstrip t in
      if is_space c && is_empty t' then EmptyString else String c t'
  | EmptyString => EmptyString
  end.

Definition strip (s : string) : string := rstrip (lstrip s).

(** [s.replace(a, b)] for one-character [a] and [b]. *)
Fixpoint replace (a b : ascii) (s : string) : string :=
  match s with
  | String c t => String (if Ascii.eqb c a then b else c) (replace a b t)
  | EmptyString => EmptyString
  end.

(** ** Regular expressions, matched as [re] does: by backtracking, the
    first alternative first and every quantifier greedy. *)
Inductive regex :=
  | RClass (p : ascii -> bool)
  | RSeq (r1 r2 : regex)
  | RAlt (r1 r2 : regex)
  | ROpt (r : regex)
  | RStar (r : regex).

Definition RPlus (r : regex) : regex := RSeq r (RStar r).

Definition or_else {A} (x y : option A) : option A :=
  match x with
  | Some a => Some a
  | None => y
  end.

(** [rmatch r s k]: match [r] at the head of [s] and hand the rest to the
    continuation [k]; the answer is the text left after the whole match.
    When [k] refuses, the matcher backtracks into [r]. *)
Fixpoint rmatch (r : regex) (s : string) (k : string -> option string)
  {struct r} : option string :=
  match r with
  | RClass p =>
      match s with
      | String c t => if p c then k t else None
      | EmptyString => None
      end
  | RSeq r1 r2 => rmatch r1 s (fun s' => rmatch r2 s' k)
  | RAlt r1 r2 => or_else (rmatch r1 s k) (rmatch r2 s k)
  | ROpt r1 => or_else (rmatch r1 s k) (k s)
  | RStar r1 =>
      (fix star (fuel : nat) (s : string) {struct fuel} : option string :=
         match fuel with
         | O => k s
         | S fuel' =>
             or_else
               (rmatch r1 s (fun s' =>
                  if (String.length s' <? String.length s)%nat
                  then star fuel' s' else None))
               (k s)
         end) (String.length s) s
  end.

(** [re.search(r, s)]: the leftmost position where [r] matches;
    the answer is [m.group(0)]. *)
Fixpoint re_search (r : regex) (s : string) : option string :=
  match rmatch r s Some with
  | Some rest =>
      Some (substring 0 (String.length s - String.length rest) s)
  | None =>
      match s with
      | String _ t => re_search r t
      | EmptyString => None
      end
  end.

(** ** [float(s)] on decimal numerals: an optional sign, digits with an
    optional dot. Any other text is refused ([None], for [ValueError]). *)
Fixpoint read_digits (s : string) (acc : Z) (n : nat) : Z * nat * string :=
  match s with
  | String c t =>
      if is_digit c then read_digits t (10 * acc + digit_val c) (S n)
      else (acc, n, s)
  | EmptyString => (acc, n, s)
  end.

Definition read_sign (s : string) : bool * string :=
  match s with
  | String "-" t => (true, t)
  | String "+" t => (false, t)
  | _ => (false, s)
  end.

Definition read_dot (s : string) : bool * string :=
  match s with
  | String "." t => (true, t)
  | _ => (false, s)
  end.

(** The numeral after its sign. *)
Definition float_of_unsigned (neg : bool) (s1 : string) : option float :=
  let '(ip, ni, s2) := read_digits s1 0 0 in
  let '(_, s3) := read_dot s2 in
  let '(m, nd, s4) := read_digits s3 ip ni in
  if is_empty s4 && negb (nd =? 0)%nat
  then Some (PyFloat.of_decimal neg m (nd - ni))
  else None.

Definition float_of_str (s : string) : option float :=
  let '(neg, s1) := read_sign s in float_of_unsigned neg s1.

End PyText.

(* ===================================================================== *)
(** * Time and label utilities *)
(* ===================================================================== *)

(** [kp_label(kp)]: the label and the icon of an activity level. *)
Definition kp_label (kp : float) : string * string :=
  if PyFloat.ge kp (PyFloat.of_Z 8) then ("EKSTREMALNA", "🔥")
  else if PyFloat.ge kp (PyFloat.of_Z 7) then ("BARDZO DUŻA", "🚀")
  else if PyFloat.ge kp (PyFloat.of_Z 6) then ("DUŻA", "✨")
  else if PyFloat.ge kp (PyFloat.of_Z 5) then ("ŚREDNIA", "🌙")
  else ("NISKA", "🫥").

(** The five tiers, as [kp_label] names them. *)
Definition tier_extreme : string * string := ("EKSTREMALNA", "🔥").
Definition tier_very_high : string * string := ("BARDZO DUŻA", "🚀").
Definition tier_high : string * string := ("DUŻA", "✨").
Definition tier_moderate : string * string := ("ŚREDNIA", "🌙").
Definition tier_low : string * string := ("NISKA", "🫥").

(* ===================================================================== *)
(** * The feed normaliser of the nowcast *)
(* ===================================================================== *)

Module Nowcast.
Import PyText.

(** [[-+]?(?:\d+\.?\d*|\d*\.?\d+)] *)
Definition sign_class (c : ascii) : bool :=
  Ascii.eqb c "-" || Ascii.eqb c "+".
Definition dot_class (c : ascii) : bool := Ascii.eqb c ".".

(** [\d+\.?\d*|\d*\.?\d+] *)
Definition unsigned_pattern : regex :=
  RAlt (RSeq (RPlus (RClass is_digit))
             (RSeq (ROpt (RClass dot_class)) (RStar (RClass is_digit))))
       (RSeq (RStar (RClass is_digit))
             (RSeq (ROpt (RClass dot_class)) (RPlus (RClass is_digit)))).

Definition kp_pattern : regex :=
  RSeq (ROpt (RClass sign_class)) unsigned_pattern.

(** [to_kp_float(v)]. [bool] is a subclass of [int], so [True] and [False]
    take the numeric branch. *)
Definition to_kp_float (v : json) : res (option float) :=
  match v with
  | JNull => Ok None
  | JBool b => f ← float_of_int (if b then 1 else 0); Ok (Some f)
  | JInt z => f ← float_of_int z; Ok (Some f)
  | JFloat f => Ok (Some f)
  | JStr v =>
      let s := replace "," "." (strip v) in
      match re_search kp_pattern s with
      | None => Ok None
      | Some g =>
          match float_of_str g with
          | Some f => Ok (Some f)
          | None => Ok None
          end
      end
  | _ => Ok None
  end.

Definition kp_keys : list string :=
  ["kp"; "estimated_kp"; "k_index"; "kp_index"; "kp_value"; "value"].
Definition time_keys : list string :=
  ["time_tag"; "time"; "datetime"; "timestamp"; "date"].
Definition container_keys : list string :=
  ["data"; "values"; "k_index"; "planetary_k_index"; "results"].

(** The loop [for k in keys: if k in d and d.get(k) is not None: ... break] *)
Fixpoint first_present (keys : list string) (d : gmap string json)
  : option json :=
  match keys with
  | [] => None
  | k :: keys' =>
      match d !! k with
      | Some JNull | None => first_present keys' d
      | Some v => Some v
      end
  end.

Definition absent : option float * option text := (None, None).

(** The key-priority lookup shared by [pick_from_list_of_dicts] and the
    single-record case. *)
Definition pick_record (d : gmap string json)
  : res (option float * option text) :=
  match first_present kp_keys d, first_present time_keys d with
  | Some kp_val, Some time_val =>
      kp_f ← to_kp_float kp_val;
      match kp_f with
      | None => Ok absent
      | Some f => Ok (Some f, Some (py_str time_val))
      end
  | _, _ => Ok absent
  end.

Definition pick_from_list_of_dicts (items : list json)
  : res (option float * option text) :=
  match last items with
  | None => Ok absent
  | Some (JDict d) => pick_record d
  | Some _ => Ok absent
  end.

(** The loop over the container keys of format C: the first key that is
    present and holds a list. *)
Fixpoint first_container (keys : list string) (d : gmap string json)
  : option (list json) :=
  match keys with
  | [] => None
  | k :: keys' =>
      match d !! k with
      | Some (JList l) => Some l
      | _ => first_container keys' d
      end
  end.

(** Format A, after [rows = data[1:]]. *)
Definition pick_from_rows (rows : list json)
  : res (option float * option text) :=
  match last rows with
  | None => Ok absent
  | Some last =>
      if negb (truthy last) then Ok absent
      else
        n ← py_len last;
        if (n <? 2)%nat then Ok absent
        else
          v1 ← py_getitem last 1;
          kp_f ← to_kp_float v1;
          match kp_f with
          | None => Ok absent
          | Some f => v0 ← py_getitem last 0; Ok (Some f, Some (py_str v0))
          end
  end.

(** The body of the [try] of [kp_nowcast], after [data = fetch_json(url)]. *)
Definition kp_nowcast_body (data : json)
  : res (option float * option text) :=
  match data with
  | JList (JList _ :: rows) => pick_from_rows rows
  | JList [] => pick_from_list_of_dicts []
  | JList (JDict d :: items) => pick_from_list_of_dicts (JDict d :: items)
  | JDict d =>
      match first_container container_keys d with
      | Some items => pick_from_list_of_dicts items
      | None => pick_record d
      end
  | _ => Ok absent
  end.

(** [kp_nowcast]: [fetched] is the outcome of [fetch_json(url)], which is
    called inside the [try]. *)
Definition kp_nowcast (fetched : res json)
  : res (option float * option text) :=
  try_except (data ← fetched; kp_nowcast_body data) (fun _ => Ok absent).

End Nowcast.

(* ===================================================================== *)
(** * Open-Meteo: the best observation slot around a forecast peak *)
(* ===================================================================== *)

Module Calendar.
Import PyText.

(** [datetime.strptime(tstr, "%Y-%m-%dT%H:%M")] followed by
    [.replace(tzinfo=timezone.utc).timestamp()]: the epoch seconds of a
    naive wall-clock text read as UTC, [None] for [ValueError]. Each field
    is followed by a separator that is not a digit, so a field either
    stops at its separator or the text is refused. *)

Definition is_leap (y : Z) : bool :=
  (y mod 4 =? 0) && (negb (y mod 100 =? 0) || (y mod 400 =? 0)).

Definition days_in_month (y m : Z) : Z :=
  if m =? 2 then (if is_leap y then 29 else 28)
  else if (m =? 4) || (m =? 6) || (m =? 9) || (m =? 11) then 30
  else 31.

Definition days_before_year (year : Z) : Z :=
  let y := year - 1 in y * 365 + y / 4 - y / 100 + y / 400.

Fixpoint days_before_month_aux (y : Z) (m : nat) : Z :=
  match m with
  | O => 0
  | S m' => days_before_month_aux y m' + days_in_month y (Z.of_nat m)
  end.

Definition days_before_month (y m : Z) : Z :=
  days_before_month_aux y (Z.to_nat (m - 1)).

Definition ymd2ord (y m d : Z) : Z :=
  days_before_year y + days_before_month y m + d.

(** [\d\d\d\d] *)
Definition read_year (s : string) : option (Z * string) :=
  match s with
  | String a (String b (String c (String d t))) =>
      if is_digit a && is_digit b && is_digit c && is_digit d
      then Some (1000 * digit_val a + 100 * digit_val b
                 + 10 * digit_val c + digit_val d, t)
      else None
  | _ => None
  end.

(** A field of one or two digits, or a space and a digit when
    [space_ok]; [two_ok] tells which two-digit texts the directive
    admits, [one_ok] which single digits. *)
Definition read_field (space_ok : bool) (two_ok : Z -> Z -> bool)
  (one_ok : Z -> bool) (s : string) : option (Z * string) :=
  match s with
  | String a t =>
      if is_digit a then
        match t with
        | String b t' =>
            if is_digit b then
              if two_ok (digit_val a) (digit_val b)
              then Some (10 * digit_val a + digit_val b, t')
              else None
            else if one_ok (digit_val a) then Some (digit_val a, t)
            else None
        | EmptyString =>
            if one_ok (digit_val a) then Some (digit_val a, t) else None
        end
      else if space_ok && Ascii.eqb a " " then
        match t with
        | String b t' =>
            if is_digit b && (1 <=? digit_val b)
            then Some (digit_val b, t') else None
        | EmptyString => None
        end
      else None
  | EmptyString => None
  end.

(** [%m]: [1[0-2]|0[1-9]|[1-9]] *)
Definition read_month : string -> option (Z * string) :=
  read_field false
    (fun a b => (a =? 1) && (b <=? 2) || (a =? 0) && (1 <=? b))
    (fun a => 1 <=? a).
(** [%d]: [3[0-1]|[1-2]\d|0[1-9]|[1-9]| [1-9]] *)
Definition read_day : string -> option (Z * string) :=
  read_field true
    (fun a b => (a =? 3) && (b <=? 1) || (1 <=? a) && (a <=? 2)
                || (a =? 0) && (1 <=? b))
    (fun a => 1 <=? a).
(** [%H]: [2[0-3]|[0-1]\d|\d] *)
Definition read_hour : string -> option (Z * string) :=
  read_field false
    (fun a b => (a =? 2) && (b <=? 3) || (a <=? 1))
    (fun _ => true).
(** [%M]: [[0-5]\d|\d] *)
Definition read_minute : string -> option (Z * string) :=
  read_field false (fun a _ => a <=? 5) (fun _ => true).

(** A literal of the format; the pattern is compiled with [IGNORECASE]. *)
Definition read_lit (c c' : ascii) (s : string) : option string :=
  match s with
  | String a t => if Ascii.eqb a c || Ascii.eqb a c' then Some t else None
  | EmptyString => None
  end.

Definition timestamp_of (tstr : string) : option Z :=
  '(y, s) ← read_year tstr;
  s ← read_lit "-" "-" s;
  '(m, s) ← read_month s;
  s ← read_lit "-" "-" s;
  '(d, s) ← read_day s;
  s ← read_lit "T" "t" s;
  '(hh, s) ← read_hour s;
  s ← read_lit ":" ":" s;
  '(mm, s) ← read_minute s;
  if is_empty s && (1 <=? y) && (d <=? days_in_month y m)
  then Some ((ymd2ord y m d - 719163) * 86400 + hh * 3600 + mm * 60)
  else None.

End Calendar.

Module Meteo.
Import Calendar.

(** The part of the Open-Meteo answer that the search reads:
    [hourly.time], [hourly.cloud_cover], [hourly.is_day] and
    [utc_offset_seconds], for a well-typed answer: the times are strings and
    the other entries integers, on which [int] is the identity. An answer
    with another value in these arrays (a JSON null, on which [int] raises
    [TypeError]) is outside this model. *)
Record hourly := {
  time : list string;
  cloud_cover : list Z;
  is_day : list Z;
  utc_offset_seconds : Z;
}.

(** [xs[i]] *)
Definition index {A} (xs : list A) (i : nat) : res A :=
  match xs !! i with
  | Some x => Ok x
  | None => Raise IndexError
  end.

Section Search.
Variable data : hourly.
Variables peak_ts window_hours max_cloud : Z.

Definition peak_local_ts : Z := peak_ts + utc_offset_seconds data.
Definition start_ts : Z := peak_local_ts - window_hours * 3600.
Definition end_ts : Z := peak_local_ts + window_hours * 3600.

(** One turn of [for i, tstr in enumerate(times)], on the pair
    [(best_cloud, best_time)]. *)
Definition slot_step (best : option Z * option string) (i : nat)
  (tstr : string) : res (option Z * option string) :=
  match timestamp_of tstr with
  | None => Ok best
  | Some t =>
      let ts := t + utc_offset_seconds data in
      if (ts <? start_ts) || (ts >? end_ts) then Ok best
      else
        isd ← index (is_day data) i;
        cloud ← index (cloud_cover data) i;
        if negb (isd =? 0) then Ok best
        else if cloud >? max_cloud then Ok best
        else
          match fst best with
          | None => Ok (Some cloud, Some tstr)
          | Some best_cloud =>
              if cloud <? best_cloud then Ok (Some cloud, Some tstr)
              else Ok best
          end
  end.

Fixpoint slot_loop (i : nat) (times : list string)
  (best : option Z * option string) : res (option Z * option string) :=
  match times with
  | [] => Ok best
  | tstr :: times' =>
      best' ← slot_step best i tstr;
      slot_loop (S i) times' best'
  end.

(** [meteo_best_slot_around_peak], after [data = fetch_json(url)];
    [peak_ts] is [int(peak_dt_utc.timestamp())]. *)
Definition meteo_best_slot_around_peak
  : res (bool * option Z * option string) :=
  let times := time data in
  if (List.length times =? 0)%nat
     || negb (List.length times =? List.length (cloud_cover data))%nat
     || negb (List.length times =? List.length (is_day data))%nat
  then Ok (false, None, None)
  else
    best ← slot_loop 0 times (None, None);
    match fst best with
    | None => Ok (false, None, None)
    | Some best_cloud => Ok (true, Some best_cloud, snd best)
    end.

End Search.

End Meteo.

(* ===================================================================== *)
(** * Cooldown and dedupe: the ledger *)
(* ===================================================================== *)

Module Ledger.

(** The dict [state]: the keys ["last_sent"] and ["forecast"] may be
    absent; under them, epochs by alert class and the last notified
    peak under ["last_peak_time"]. The epochs are the [int]s that
    [mark_sent] writes, on which the conversion [int(...)] of
    [can_send_now] is the identity. *)
Record state := {
  last_sent : option (gmap string Z);
  forecast : option (gmap string string);
}.

Definition empty_state : state := {| last_sent := None; forecast := None |}.

Definition can_send_now (st : state) (key : string)
  (cooldown_seconds now_ts : Z) : bool :=
  let last_ts := default 0 (default ∅ (last_sent st) !! key) in
  (now_ts - last_ts >=? cooldown_seconds).

Definition mark_sent (st : state) (key : string) (now_ts : Z) : state :=
  {| last_sent := Some (<[key := now_ts]> (default ∅ (last_sent st)));
     forecast := forecast st |}.

Definition should_send_forecast (st : state) (peak_time : string)
  (now_ts cooldown_seconds : Z) : bool :=
  let last_peak := default ∅ (forecast st) !! "last_peak_time" in
  if negb (bool_decide (last_peak = Some peak_time))
  then can_send_now st "FORECAST" cooldown_seconds now_ts
  else can_send_now st "FORECAST" cooldown_seconds now_ts.

Definition mark_forecast_peak (st : state) (peak_time : string) : state :=
  {| last_sent := last_sent st;
     forecast :=
       Some (<["last_peak_time" := peak_time]> (default ∅ (forecast st))) |}.

End Ledger.

(* ===================================================================== *)
(** * The traffic-light priority *)
(* ===================================================================== *)

Definition HIGH : string := "🟢".
Definition MEDIUM : string := "🟡".
Definition LOW : string := "🔴".

Definition pick_priority_emoji (send_now_flag send_forecast_flag
  now_gate_ok best_ok : bool) (nowcast_kp : option float) : string :=
  if match nowcast_kp with
     | Some kp => PyFloat.ge kp (PyFloat.of_Z 7)
     | None => false
     end && now_gate_ok
  then "🟢"
  else if send_now_flag && now_gate_ok then "🟢"
  else if negb send_now_flag && send_forecast_flag && best_ok then "🟡"
  else "🔴".

(* ===================================================================== *)
(** * Helpers: recipients, escaping, the gate of the current weather *)
(* ===================================================================== *)

Module Helpers.
Import PyText.

(** [s.split(sep)] for a one-character separator: never an empty list. *)
Fixpoint split (sep : ascii) (s : string) : list string :=
  match s with
  | EmptyString => [EmptyString]
  | String c t =>
      if Ascii.eqb c sep then EmptyString :: split sep t
      else
        match split sep t with
        | piece :: pieces => String c piece :: pieces
        | [] => [String c EmptyString]
        end
  end.

(** [sep.join(items)] *)
Fixpoint join (sep : string) (items : list string) : string :=
  match items with
  | [] => EmptyString
  | [x] => x
  | x :: rest => x +:+ sep +:+ join sep rest
  end.

(** [parse_recipients(s)]: [s or ""] is split at the commas, each piece is
    stripped, and the pieces that strip to nothing are dropped. *)
Definition parse_recipients (s : option string) : list string :=
  let text := match s with Some x => x | None => EmptyString end in
  flat_map (fun p => if is_empty (strip p) then [] else [strip p])
           (split "," text).

(** The header [To] that [send_gmail] writes. *)
Definition to_header (to_addrs : list string) : string := join ", " to_addrs.

(** [s.replace(a, b)] for a one-character [a] and any [b]. *)
Fixpoint replace_char (a : ascii) (b : string) (s : string) : string :=
  match s with
  | EmptyString => EmptyString
  | String c t =>
      if Ascii.eqb c a then b +:+ replace_char a b t
      else String c (replace_char a b t)
  end.

(** [html_escape(s)] *)
Definition html_escape (s : option string) : string :=
  let text := match s with Some x => x | None => EmptyString end in
  replace_char ">" "&gt;"
    (replace_char "<" "&lt;" (replace_char "&" "&amp;" text)).

(** The block [current] of the Open-Meteo answer; each key may be absent. *)
Record current_block := {
  c_is_day : option Z;
  c_cloud_cover : option Z;
  c_time : option string;
}.

(** [meteo_gate_now], after [data = fetch_json(url)]: [current] is
    [data.get("current")], absent when the key is. *)
Definition meteo_gate_now (current : option current_block)
  : bool * Z * option string :=
  let cur := match current with
             | Some blk => blk
             | None => {| c_is_day := None; c_cloud_cover := None;
                          c_time := None |}
             end in
  let is_day := match c_is_day cur with Some d => d | None => 1 end in
  let cloud := match c_cloud_cover cur with Some c => c | None => 100 end in
  ((is_day =? 0), cloud, c_time cur).

(** The priority that [build_email_pro] computes for the message, from
    [now_gate_ok] and [best_ok]. *)
Definition now_gate_ok (is_night_now : bool) (cloud_now max_cloud : Z)
  : bool :=
  is_night_now && (cloud_now <=? max_cloud).

Definition best_ok (best_time_local : option string) (best_cloud : option Z)
  (max_cloud : Z) : bool :=
  match best_time_local, best_cloud with
  | Some _, Some c => c <=? max_cloud
  | _, _ => false
  end.

Definition email_priority (max_cloud : Z) (send_now_flag
  send_forecast_flag is_night_now : bool) (cloud_now : Z)
  (best_cloud : option Z) (best_time_local : option string)
  (nowcast_kp : option float) : string :=
  pick_priority_emoji send_now_flag send_forecast_flag
    (now_gate_ok is_night_now cloud_now max_cloud)
    (best_ok best_time_local best_cloud max_cloud) nowcast_kp.

(** The label of the forecast maximum in [build_email_pro]:
    [kp_label(kp_fc_max if kp_fc_max >= 0 else 0.0)]. *)
Definition forecast_label (kp_fc_max : float) : string * string :=
  kp_label (if PyFloat.ge kp_fc_max (PyFloat.of_Z 0) then kp_fc_max
            else S754_zero false).

End Helpers.

(* ===================================================================== *)
(** * NOAA: the current index and the forecast maximum *)
(* ===================================================================== *)

Module Noaa.
Import PyText Calendar.

(** ** [float(x)] *)

(** The characters that [float] strips: the ASCII whitespace, and the
    two whitespace characters above 127, which it first turns to spaces. *)
Definition is_float_space (c : ascii) : bool :=
  let n := code c in
  ((9 <=? n) && (n <=? 13) || (n =? 32) || (n =? 133) || (n =? 160))%N.

Fixpoint lstrip_float (s : string) : string :=
  match s with
  | String c t => if is_float_space c then lstrip_float t else s
  | EmptyString => EmptyString
  end.

Fixpoint rstrip_float (s : string) : string :=
  match s with
  | String c t =>
      let t' := rstrip_float t in
      if is_float_space c && is_empty t' then EmptyString else String c t'
  | EmptyString => EmptyString
  end.

(** Underscores are dropped when each stands between two digits; any other
    underscore refuses the text. [prev] is the character before. *)
Fixpoint drop_underscores (prev : option ascii) (s : string)
  : option string :=
  match s with
  | EmptyString =>
      match prev with
      | Some "_"%char => None
      | _ => Some EmptyString
      end
  | String c t =>
      if Ascii.eqb c "_" then
        match prev with
        | Some p => if is_digit p then drop_underscores (Some c) t else None
        | None => None
        end
      else
        match prev with
        | Some "_"%char =>
            if is_digit c
            then option_map (String c) (drop_underscores (Some c) t)
            else None
        | _ => option_map (String c) (drop_underscores (Some c) t)
        end
  end.

Definition lower (c : ascii) : ascii :=
  let n := code c in
  if ((65 <=? n) && (n <=? 90))%N then ascii_of_N (n + 32) else c.

Fixpoint lower_string (s : string) : string :=
  match s with
  | String c t => String (lower c) (lower_string t)
  | EmptyString => EmptyString
  end.

(** The exponent part: [e] or [E], an optional sign, digits. The answer
    is the exponent and the text left; no exponent when the digits lack. *)
Definition read_exponent (s : string) : Z * string :=
  match s with
  | String c t =>
      if Ascii.eqb (lower c) "e" then
        let '(neg, t1) :=
          match t with
          | String "-" t' => (true, t')
          | String "+" t' => (false, t')
          | _ => (false, t)
          end in
        let '(e, n, t2) := read_digits t1 0 0 in
        if (n =? 0)%nat then (0, s) else ((if neg then - e else e), t2)
      else (0, s)
  | EmptyString => (0, s)
  end.

(** The float nearest to [(-1)^neg * m * 10^e]. *)
Definition of_scientific (neg : bool) (m e : Z) : float :=
  match m with
  | Zpos p =>
      SFdiv PyFloat.prec PyFloat.emax
        (S754_finite neg (Z.to_pos (Zpos p * 10 ^ Z.max e 0)) 0)
        (S754_finite false (Z.to_pos (10 ^ Z.max (- e) 0)) 0)
  | _ => S754_zero neg
  end.

(** [float(s)] for a text: [None] stands for [ValueError]. *)
Definition float_of_text (s : string) : option float :=
  let s := rstrip_float (lstrip_float s) in
  match drop_underscores None s with
  | None => None
  | Some s =>
      let '(neg, s1) := read_sign s in
      let word := lower_string s1 in
      if String.eqb word "inf" || String.eqb word "infinity"
      then Some (S754_infinity neg)
      else if String.eqb word "nan" then Some S754_nan
      else
        let '(ip, ni, s2) := read_digits s1 0 0 in
        let '(_, s3) := read_dot s2 in
        let '(m, nd, s4) := read_digits s3 ip ni in
        if (nd =? 0)%nat then None
        else
          let '(e, s5) := read_exponent s4 in
          if is_empty s5
          then Some (of_scientific neg m (e - Z.of_nat (nd - ni)))
          else None
  end.

(** [float(v)] for a JSON value. *)
Definition py_float (v : json) : res float :=
  match v with
  | JNull => Raise TypeError
  | JBool b => Ok (PyFloat.of_Z (if b then 1 else 0))
  | JInt z => float_of_int z
  | JFloat f => Ok f
  | JStr s =>
      match float_of_text s with
      | Some f => Ok f
      | None => Raise ValueError
      end
  | JList _ | JDict _ => Raise TypeError
  end.

(** [v[-1]] *)
Definition py_getitem_last (v : json) : res json :=
  match v with
  | JList l =>
      match last l with
      | Some x => Ok x
      | None => Raise IndexError
      end
  | JStr s =>
      match s with
      | EmptyString => Raise IndexError
      | _ => Ok (JStr (substring (String.length s - 1) 1 s))
      end
  | JDict _ => Raise KeyError
  | _ => Raise TypeError
  end.

(** [kp_now], after [data = fetch_json(KP_NOW_URL)] *)
Definition kp_now (data : json) : res (float * text) :=
  last ← py_getitem_last data;
  v1 ← py_getitem last 1;
  kp ← py_float v1;
  v0 ← py_getitem last 0;
  Ok (kp, py_str v0).

(** ** [datetime.strptime] on the formats of [parse_noaa_time_utc] *)

(** An instant in UTC: the microseconds since 1970-01-01 00:00:00. *)
Abbreviation instant := Z.

Inductive directive :=
  | D_Y | D_m | D_d | D_H | D_M | D_S | D_f
  | D_lit (c c' : ascii)
  | D_space.

Record fields := {
  f_year : Z; f_month : Z; f_day : Z;
  f_hour : Z; f_minute : Z; f_second : Z; f_micro : Z;
}.

(** [%S]: [6[0-1]|[0-5]\d|\d] *)
Definition read_second : string -> option (Z * string) :=
  read_field false (fun a b => (a =? 6) && (b <=? 1) || (a <=? 5))
    (fun _ => true).

(** [%f]: [[0-9]{1,6}], read as millionths: ["5"] is 500000. *)
Fixpoint read_fraction_aux (n : nat) (s : string) (acc : Z)
  : Z * string :=
  match n with
  | O => (acc, s)
  | S n' =>
      match s with
      | String c t =>
          if is_digit c
          then read_fraction_aux n' t (acc + digit_val c * 10 ^ Z.of_nat n')
          else (acc, s)
      | EmptyString => (acc, s)
      end
  end.

Definition read_fraction (s : string) : option (Z * string) :=
  match s with
  | String c _ =>
      if is_digit c then Some (read_fraction_aux 6 s 0) else None
  | EmptyString => None
  end.

(** A blank of the format: one or more whitespace characters. *)
Definition read_space (s : string) : option string :=
  match s with
  | String c t => if is_space c then Some (lstrip t) else None
  | EmptyString => None
  end.

Definition set_field (d : directive) (v : Z) (f : fields) : fields :=
  match d with
  | D_Y => {| f_year := v; f_month := f_month f; f_day := f_day f;
              f_hour := f_hour f; f_minute := f_minute f;
              f_second := f_second f; f_micro := f_micro f |}
  | D_m => {| f_year := f_year f; f_month := v; f_day := f_day f;
              f_hour := f_hour f; f_minute := f_minute f;
              f_second := f_second f; f_micro := f_micro f |}
  | D_d => {| f_year := f_year f; f_month := f_month f; f_day := v;
              f_hour := f_hour f; f_minute := f_minute f;
              f_second := f_second f; f_micro := f_micro f |}
  | D_H => {| f_year := f_year f; f_month := f_month f; f_day := f_day f;
              f_hour := v; f_minute := f_minute f;
              f_second := f_second f; f_micro := f_micro f |}
  | D_M => {| f_year := f_year f; f_month := f_month f; f_day := f_day f;
              f_hour := f_hour f; f_minute := v;
              f_second := f_second f; f_micro := f_micro f |}
  | D_S => {| f_year := f_year f; f_month := f_month f; f_day := f_day f;
              f_hour := f_hour f; f_minute := f_minute f;
              f_second := v; f_micro := f_micro f |}
  | D_f => {| f_year := f_year f; f_month := f_month f; f_day := f_day f;
              f_hour := f_hour f; f_minute := f_minute f;
              f_second := f_second f; f_micro := v |}
  | _ => f
  end.

Definition read_directive (d : directive) (s : string)
  : option (Z * string) :=
  match d with
  | D_Y => read_year s
  | D_m => read_month s
  | D_d => read_day s
  | D_H => read_hour s
  | D_M => read_minute s
  | D_S => read_second s
  | D_f => read_fraction s
  | D_lit c c' => s' ← read_lit c c' s; Some (0, s')
  | D_space => s' ← read_space s; Some (0, s')
  end.

(** The match of the whole format: the text must be used up. *)
Fixpoint match_format (fmt : list directive) (s : string) (f : fields)
  : option fields :=
  match fmt with
  | [] => if is_empty s then Some f else None
  | d :: fmt' =>
      '(v, s') ← read_directive d s;
      match_format fmt' s' (set_field d v f)
  end.

Definition default_fields : fields :=
  {| f_year := 1900; f_month := 1; f_day := 1;
     f_hour := 0; f_minute := 0; f_second := 0; f_micro := 0 |}.

(** The instant of the fields; [None] when [datetime] refuses them. *)
Definition instant_of_fields (f : fields) : option instant :=
  if (1 <=? f_year f) && (f_day f <=? days_in_month (f_year f) (f_month f))
     && (f_second f <=? 59)
  then Some (((ymd2ord (f_year f) (f_month f) (f_day f) - 719163) * 86400
              + f_hour f * 3600 + f_minute f * 60 + f_second f) * 1000000
             + f_micro f)
  else None.

(** [datetime.strptime(s, fmt).replace(tzinfo=timezone.utc)], [None] for
    [ValueError]. *)
Definition strptime (fmt : list directive) (s : string) : option instant :=
  f ← match_format fmt s default_fields; instant_of_fields f.

Definition date_part : list directive :=
  [D_Y; D_lit "-" "-"; D_m; D_lit "-" "-"; D_d].
Definition hm : list directive := [D_H; D_lit ":" ":"; D_M].
Definition hms : list directive := (hm ++ [D_lit ":" ":"; D_S])%list.
Definition hmsf : list directive := (hms ++ [D_lit "." "."; D_f])%list.
Definition tee : list directive := [D_lit "T" "t"].
Definition zed : list directive := [D_lit "Z" "z"].

(** The eight formats of [parse_noaa_time_utc], in its order. *)
Definition noaa_formats : list (list directive) :=
  [ (date_part ++ [D_space] ++ hmsf)%list;
    (date_part ++ [D_space] ++ hms)%list;
    (date_part ++ [D_space] ++ hm)%list;
    (date_part ++ tee ++ hmsf ++ zed)%list;
    (date_part ++ tee ++ hms ++ zed)%list;
    (date_part ++ tee ++ hms)%list;
    (date_part ++ tee ++ hm ++ zed)%list;
    (date_part ++ tee ++ hm)%list ].

Fixpoint first_format (fmts : list (list directive)) (s : string)
  : option instant :=
  match fmts with
  | [] => None
  | fmt :: fmts' =>
      match strptime fmt s with
      | Some dt => Some dt
      | None => first_format fmts' s
      end
  end.

Definition parse_noaa_time_utc (time_tag : string) : option instant :=
  first_format noaa_formats time_tag.

(** On the text of [str(v)]: what Python prints for a JSON value that is no
    string (a number, [None], [True], a list, a dict) starts with no four
    digits and a dash, so no format matches it. *)
Definition parse_time_text (time_tag : text) : option instant :=
  match time_tag with
  | Text s => parse_noaa_time_utc s
  | StrOf _ => None
  end.

(** ** [kp_forecast_max_next_hours] *)

(** [x > n] for a float and an [int]: Python compares the exact values. *)
Definition float_gt_int (x : float) (n : Z) : bool :=
  match x with
  | S754_nan => false
  | S754_infinity s => negb s
  | S754_zero _ => 0 >? n
  | S754_finite s m e =>
      let v := if s then Zneg m else Zpos m in
      if 0 <=? e then v * 2 ^ e >? n else v >? n * 2 ^ (- e)
  end.

(** [(dt - now).total_seconds() / 3600.0] *)
Definition hours_between (dt now : instant) : float :=
  let micro := dt - now in
  let seconds := PyFloat.of_decimal (micro <? 0) (Z.abs micro) 6 in
  SFdiv PyFloat.prec PyFloat.emax seconds (PyFloat.of_Z 3600).

(** The three variables of the loop: [best_kp], [best_time], [best_dt]. *)
Definition best := (float * text * option instant)%type.

Definition initial_best : best :=
  (SFopp (PyFloat.of_Z 1), Text "unknown", None).

(** One turn of [for row in rows]. *)
Definition forecast_step (hours : Z) (now : instant) (b : best) (row : json)
  : res best :=
  if negb (truthy row) then Ok b
  else
    n ← py_len row;
    if (n <? 2)%nat then Ok b
    else
      v0 ← py_getitem row 0;
      let time_tag := py_str v0 in
      match parse_time_text time_tag with
      | None => Ok b
      | Some dt =>
          let delta_h := hours_between dt now in
          if PyFloat.lt delta_h (PyFloat.of_Z 0) || float_gt_int delta_h hours
          then Ok b
          else
            match v1 ← py_getitem row 1; py_float v1 with
            | Raise _ => Ok b
            | Ok kp =>
                if PyFloat.lt b.1.1 kp then Ok (kp, time_tag, Some dt)
                else Ok b
            end
      end.

Fixpoint forecast_loop (hours : Z) (now : instant) (rows : list json)
  (b : best) : res best :=
  match rows with
  | [] => Ok b
  | row :: rows' =>
      b' ← forecast_step hours now b row;
      forecast_loop hours now rows' b'
  end.

(** The characters of a text, as the one-character strings that iterating
    over a [str] gives. *)
Fixpoint chars (s : string) : list json :=
  match s with
  | String c t => JStr (String c EmptyString) :: chars t
  | EmptyString => []
  end.

(** [rows = data[1:] if isinstance(data[0], list) else data] *)
Definition forecast_rows (data : json) : res (list json) :=
  first ← py_getitem data 0;
  match data, first with
  | JList l, JList _ => Ok (tail l)
  | JList l, _ => Ok l
  | JStr s, _ => Ok (chars s)
  | _, _ => Raise TypeError
  end.

(** [kp_forecast_max_next_hours(hours)], after
    [data = fetch_json(KP_FORECAST_URL)] and with [now] for
    [datetime.now(timezone.utc)]. *)
Definition kp_forecast_max_next_hours (hours : Z) (data : json)
  (now : instant) : res best :=
  rows ← forecast_rows data;
  forecast_loop hours now rows initial_best.

End Noaa.

(* ===================================================================== *)
(** * One run: [main] *)
(* ===================================================================== *)

Module Run.
Import Ledger Meteo.

(** The values [main] reads from the environment. *)
Record config := {
  gmail_user : string;
  gmail_app_password : string;
  recipients : list string;
  now_min_kp : float;
  forecast_min_kp : float;
  max_cloud : Z;
  now_cd : Z;
  forecast_cd : Z;
  peak_window_h : Z;
  nowcast_enabled : bool;
  state_file : string;
}.

(** The outcomes of the outside calls of one run: the three NOAA feeds,
    the two Open-Meteo requests, the three conversions to local time that
    [build_email_pro] asks of [ZoneInfo] (each is made only for a
    [datetime], never for [None]), the SMTP session, and the three steps of
    [save_state] on the disk: opening the temporary file, writing it, and
    [os.replace]. A forecast peak [datetime] is given by its epoch
    seconds. *)
Record feeds := {
  gate_now : res (bool * Z * option string);
  kp_now : res (float * string);
  kp_forecast : res (float * string * option Z);
  nowcast : res json;
  hourly_feed : res hourly;
  local_kp_now : res string;
  local_nowcast : res string;
  local_peak : res string;
  smtp : res unit;
  tmp_open : res unit;
  tmp_write : res unit;
  tmp_replace : res unit;
}.

(** What [build_email_pro] renders: the subject and the two bodies are
    written from these values, the priority at the head of the subject. *)
Record letter := {
  e_send_now : bool;
  e_send_forecast : bool;
  e_kp_current : float;
  e_nowcast_kp : option float;
  e_nowcast_time : option text;
  e_kp_fc_max : float;
  e_kp_fc_time : string;
  e_best_cloud : option Z;
  e_best_time_local : option string;
  e_priority : string;
}.

(** A message as [send_gmail] delivers it: the letter and its recipients. *)
Record email := {
  e_to : list string;
  e_letter : letter;
}.

Inductive file :=
  | Ledger_file (st : state)
  | Corrupt_file.

(** The world of a run: the files, the messages delivered, and the dict
    bound to [state] once [load_state] has returned. *)
Record world := {
  files : gmap string file;
  outbox : list email;
  ledger : option state;
}.

(** State and exceptions: a raise keeps the world as it was then. *)
Definition M (A : Type) : Type := world -> res A * world.

#[global] Instance M_ret : MRet M := fun A a w => (Ok a, w).
#[global] Instance M_bind : MBind M := fun A B f m w =>
  match m w with
  | (Ok a, w') => f a w'
  | (Raise e, w') => (Raise e, w')
  end.

Definition raise {A} (e : exn) : M A := fun w => (Raise e, w).
Definition lift {A} (r : res A) : M A := fun w => (r, w).

(** [load_state]: every failure to open or to decode the file gives the
    empty dict. *)
Definition load_state (path : string) : M unit := fun w =>
  let st := match files w !! path with
            | Some (Ledger_file st) => st
            | _ => empty_state
            end in
  (Ok tt, {| files := files w; outbox := outbox w; ledger := Some st |}).

Definition read_state : M state := fun w =>
  (Ok (default empty_state (ledger w)), w).

Definition update_state (f : state -> state) : M unit := fun w =>
  (Ok tt, {| files := files w; outbox := outbox w;
             ledger := Some (f (default empty_state (ledger w))) |}).

(** [bool(t)] for the text of a [str]: what [str] prints for a value that
    is no string is never empty. *)
Definition text_truthy (t : text) : bool :=
  match t with
  | Text s => negb (PyText.is_empty s)
  | StrOf _ => true
  end.

(** [utc_to_local_str(dt_utc, tz)]: [None] is written as a dash and asks
    nothing of [ZoneInfo]; for a [datetime], [outcome] is what
    [dt_utc.astimezone(ZoneInfo(tz)).strftime(fmt)] gives or raises. *)
Definition utc_to_local_str {A} (dt_utc : option A) (outcome : res string)
  : res string :=
  match dt_utc with
  | None => Ok "—"
  | Some _ => outcome
  end.

(** [send_gmail]: no recipients is a [ValueError]; the session delivers
    the message and returns, or raises with nothing delivered. *)
Definition send_gmail (session : res unit) (to_addrs : list string)
  (body : letter) : M unit := fun w =>
  match to_addrs with
  | [] => (Raise ValueError, w)
  | _ :: _ =>
      match session with
      | Ok _ => (Ok tt, {| files := files w;
                           outbox := {| e_to := to_addrs;
                                        e_letter := body |} :: outbox w;
                           ledger := ledger w |})
      | Raise e => (Raise e, w)
      end
  end.

Definition when (b : bool) (m : M unit) : M unit :=
  if b then m else mret tt.

Section Main.
Variable cfg : config.
Variable ext : feeds.
Variable now_ts : Z.

(** [save_state]: open [path + ".tmp"] for writing, dump the dict into it,
    then [os.replace] it over [path]. Each step can raise ([OSError]
    stands for its subclasses, [FileNotFoundError] among them); a failed
    dump leaves a partial temporary file, a failed replace leaves the whole
    one, and replacing onto the empty path always fails. *)
Definition save_state (path : string) : M unit := fun w =>
  let st := default empty_state (ledger w) in
  let tmp := path +:+ ".tmp" in
  let with_files fs :=
    {| files := fs; outbox := outbox w; ledger := ledger w |} in
  match tmp_open ext with
  | Raise e => (Raise e, w)
  | Ok _ =>
      match tmp_write ext with
      | Raise e => (Raise e, with_files (<[tmp := Corrupt_file]> (files w)))
      | Ok _ =>
          let written := <[tmp := Ledger_file st]> (files w) in
          match (if PyText.is_empty path then Raise OSError
                 else tmp_replace ext) with
          | Raise e => (Raise e, with_files written)
          | Ok _ =>
              (Ok tt,
               with_files (delete tmp (<[path := Ledger_file st]> written)))
          end
      end
  end.

(** The NOW decision. *)
Definition decide_now (st : state) (kp_current : float)
  (is_night_now : bool) (cloud_now : Z) : bool :=
  if PyFloat.ge kp_current (now_min_kp cfg) then
    if is_night_now && (cloud_now <=? max_cloud cfg) then
      can_send_now st "NOW" (now_cd cfg) now_ts
    else false
  else false.

(** The FORECAST decision, with the slot it found. *)
Definition decide_forecast (st : state) (kp_fc_max : float)
  (kp_fc_time : string) (kp_fc_dt : option Z)
  : M (bool * option Z * option string) :=
  match kp_fc_dt with
  | Some peak_ts =>
      if PyFloat.ge kp_fc_max (forecast_min_kp cfg) then
        data ← lift (hourly_feed ext);
        '(ok, best_cloud, best_time_local) ←
          lift (meteo_best_slot_around_peak data peak_ts
                  (peak_window_h cfg) (max_cloud cfg));
        if ok : bool then
          mret (should_send_forecast st kp_fc_time now_ts (forecast_cd cfg),
                best_cloud, best_time_local)
        else mret (false, best_cloud, best_time_local)
      else mret (false, None, None)
  | None => mret (false, None, None)
  end.

(** [build_email_pro]: the three times are put in local time, in the order
    of the source, and any of these conversions can raise; then the
    priority is picked. The texts themselves are not modelled. *)
Definition build_email_pro (send_now_flag send_forecast_flag : bool)
  (kp_current : float) (kp_current_time : string)
  (nowcast_kp : option float) (nowcast_time : option text)
  (is_night_now : bool) (cloud_now : Z)
  (kp_fc_max : float) (kp_fc_time : string) (kp_fc_dt : option Z)
  (best_cloud : option Z) (best_time_local : option string) : res letter :=
  let kp_now_dt := Noaa.parse_noaa_time_utc kp_current_time in
  _ ← utc_to_local_str kp_now_dt (local_kp_now ext);
  let nowcast_dt :=
    match nowcast_time with
    | Some t => if text_truthy t then Noaa.parse_time_text t else None
    | None => None
    end in
  _ ← match nowcast_dt with
      | Some _ => utc_to_local_str nowcast_dt (local_nowcast ext)
      | None => Ok "—"
      end;
  _ ← utc_to_local_str kp_fc_dt (local_peak ext);
  Ok {| e_send_now := send_now_flag;
        e_send_forecast := send_forecast_flag;
        e_kp_current := kp_current;
        e_nowcast_kp := nowcast_kp;
        e_nowcast_time := nowcast_time;
        e_kp_fc_max := kp_fc_max;
        e_kp_fc_time := kp_fc_time;
        e_best_cloud := best_cloud;
        e_best_time_local := best_time_local;
        e_priority :=
          Helpers.email_priority (max_cloud cfg) send_now_flag
            send_forecast_flag is_night_now cloud_now best_cloud
            best_time_local nowcast_kp |}.

Definition main : M unit :=
  if PyText.is_empty (gmail_user cfg)
     || PyText.is_empty (gmail_app_password cfg)
  then raise RuntimeError
  else if (List.length (recipients cfg) =? 0)%nat then raise RuntimeError
  else
    load_state (state_file cfg);;
    '(is_night_now, cloud_now, meteo_time_now) ← lift (gate_now ext);
    '(kp_current, kp_current_time) ← lift (kp_now ext);
    '(kp_fc_max, kp_fc_time, kp_fc_dt) ← lift (kp_forecast ext);
    '(nowcast_kp, nowcast_time) ←
      (if nowcast_enabled cfg then lift (Nowcast.kp_nowcast (nowcast ext))
       else mret (None, None));
    st ← read_state;
    let send_now_flag :=
      decide_now st kp_current is_night_now cloud_now in
    '(send_forecast_flag, best_cloud, best_time_local) ←
      decide_forecast st kp_fc_max kp_fc_time kp_fc_dt;
    if negb (send_now_flag || send_forecast_flag) then mret tt
    else
      body ← lift (build_email_pro send_now_flag send_forecast_flag
                     kp_current kp_current_time nowcast_kp nowcast_time
                     is_night_now cloud_now kp_fc_max kp_fc_time kp_fc_dt
                     best_cloud best_time_local);
      send_gmail (smtp ext) (recipients cfg) body;;
      when send_now_flag (update_state (fun st => mark_sent st "NOW" now_ts));;
      when send_forecast_flag
        (update_state (fun st => mark_sent st "FORECAST" now_ts);;
         update_state (fun st => mark_forecast_peak st kp_fc_time));;
      save_state (state_file cfg).

End Main.

End Run.

(** A message is read as its letter. *)
Coercion Run.e_letter : Run.email >-> Run.letter.

(* ===================================================================== *)
(** * The vocabulary of the properties *)
(* ===================================================================== *)

Section NumeralVocabulary.
Import PyText Nowcast.

(** The direct reading of the pattern of [to_kp_float]: the numeral at the
    head of a text, with the text that follows it, and the first numeral of
    a text. *)
Fixpoint has_digit (s : string) : bool :=
  match s with
  | String c t => is_digit c || has_digit t
  | EmptyString => false
  end.

Fixpoint take_digits (s : string) : string :=
  match s with
  | String c t => if is_digit c then String c (take_digits t) else EmptyString
  | EmptyString => EmptyString
  end.

Fixpoint skip_digits (s : string) : string :=
  match s with
  | String c t => if is_digit c then skip_digits t else s
  | EmptyString => EmptyString
  end.

Definition split_unsigned (s : string) : option (string * string) :=
  match s with
  | String c t =>
      if is_digit c then
        match skip_digits t with
        | String d r =>
            if dot_class d
            then Some (String c (take_digits t) ++ String d (take_digits r),
                       skip_digits r)
            else Some (String c (take_digits t), skip_digits t)
        | EmptyString => Some (String c (take_digits t), EmptyString)
        end
      else if dot_class c then
        match t with
        | String d t' =>
            if is_digit d
            then Some (String c (String d (take_digits t')), skip_digits t')
            else None
        | EmptyString => None
        end
      else None
  | EmptyString => None
  end.

Definition split_signed (s : string) : option (string * string) :=
  match s with
  | String c t =>
      if sign_class c then
        match split_unsigned t with
        | Some (g, r) => Some (String c g, r)
        | None => None
        end
      else split_unsigned s
  | EmptyString => None
  end.

Fixpoint first_number (s : string) : option string :=
  match split_signed s with
  | Some (g, _) => Some g
  | None =>
      match s with
      | String _ t => first_number t
      | EmptyString => None
      end
  end.

(** The text left after the longest prefix of characters of the class. *)
Fixpoint skip (p : ascii -> bool) (s : string) : string :=
  match s with
  | String c t => if p c then skip p t else s
  | EmptyString => EmptyString
  end.

Definition rest_of (x : option (string * string)) : option string :=
  match x with
  | Some (_, r) => Some r
  | None => None
  end.

Definition tail_after_dot : string -> option string := fun s' =>
  rmatch (RSeq (ROpt (RClass dot_class)) (RStar (RClass is_digit))) s' Some.

End NumeralVocabulary.

(** Rule 1 of the priority: a nowcast value is present, it is at least
    [7.0] and the conditions now are good. *)
Definition strong_nowcast (nowcast_kp : option float) (now_gate_ok : bool)
  : bool :=
  match nowcast_kp with
  | Some kp => PyFloat.ge kp (PyFloat.of_Z 7) && now_gate_ok
  | None => false
  end.

(** The entry of [key] under ["last_sent"], [0] when it is absent. *)
Definition last_sent_of (st : Ledger.state) (key : string) : Z :=
  match Ledger.last_sent st with
  | Some m => match m !! key with Some ts => ts | None => 0 end
  | None => 0
  end.

(** The top-level shapes that [kp_nowcast] knows: a dict, an empty list, a
    list that starts with a list or with a dict. *)
Definition recognised_shape (data : json) : bool :=
  match data with
  | JDict _ => true
  | JList [] => true
  | JList (JList _ :: _) => true
  | JList (JDict _ :: _) => true
  | _ => false
  end.

(** The reading of the tabular feed by the words of the specification:
    rows shorter than two elements are skipped, and the last row that is left
    gives the value (index 1) and the timestamp (index 0). *)
Definition long_enough (row : json) : bool :=
  match row with
  | JList cells => (2 <=? List.length cells)%nat
  | _ => true
  end.

Definition tabular_skipping_short_rows (data : json)
  : res (option float * option text) :=
  match data with
  | JList (JList _ :: rows) =>
      try_except (Nowcast.pick_from_rows (List.filter long_enough rows))
                 (fun _ => Ok Nowcast.absent)
  | _ => Ok Nowcast.absent
  end.

(** A feed whose last row lacks the value. *)
Definition short_final_row_feed : json :=
  JList [JList [JStr "time_tag"; JStr "kp"];
         JList [JStr "2024-01-01 00:00:00"; JStr "5.33"];
         JList [JStr "2024-01-01 00:01:00"]].

Section Qualifies.
Import Meteo.
Variable data : hourly.
Variables peak_ts window_hours max_cloud : Z.

(** Sample [i] of the series has the time text [tstr] and the cloud cover
    [cloud], and it qualifies: its text parses, its shifted epoch lies in
    the window around the peak, it is dark, and the cloud cover is at most
    [max_cloud]. *)
Definition qualifies (i : nat) (cloud : Z) (tstr : string) : Prop :=
  time data !! i = Some tstr
  /\ cloud_cover data !! i = Some cloud
  /\ is_day data !! i = Some 0
  /\ (exists t, Calendar.timestamp_of tstr = Some t
        /\ peak_ts + utc_offset_seconds data - window_hours * 3600
           <= t + utc_offset_seconds data
           <= peak_ts + utc_offset_seconds data + window_hours * 3600)
  /\ cloud <= max_cloud.

(** What the pair [(best_cloud, best_time)] holds after the first [k]
    samples: nothing when none of them qualifies, otherwise the first of the
    qualifying samples of lowest cloud cover. *)
Definition best_of_first (k : nat) (best : option Z * option string) : Prop :=
  (best = (None, None) /\ forall i c t, (i < k)%nat -> ~ qualifies i c t)
  \/ (exists j c t,
        best = (Some c, Some t) /\ (j < k)%nat /\ qualifies j c t
        /\ forall i c' t', (i < k)%nat -> qualifies i c' t' ->
             c <= c' /\ (c' = c -> (j <= i)%nat)).

End Qualifies.

(** Four hourly samples, all dark, of cloud covers 80, 40, 20 and 90, in a
    zone one hour ahead of UTC; the peak used with them is
    2024-01-01 21:00 UTC. *)
Definition four_dark_samples : Meteo.hourly :=
  {| Meteo.time := ["2024-01-01T20:00"; "2024-01-01T21:00";
                    "2024-01-01T22:00"; "2024-01-01T23:00"];
     Meteo.cloud_cover := [80; 40; 20; 90];
     Meteo.is_day := [0; 0; 0; 0];
     Meteo.utc_offset_seconds := 3600 |}.

Definition four_day_samples : Meteo.hourly :=
  {| Meteo.time := Meteo.time four_dark_samples;
     Meteo.cloud_cover := Meteo.cloud_cover four_dark_samples;
     Meteo.is_day := [1; 1; 1; 1];
     Meteo.utc_offset_seconds := 3600 |}.

Definition peak_2024_01_01_21h : Z := 1704142800.

(** The dict that [load_state] returns in the world [w]. *)
Definition loaded_state (cfg : Run.config) (w : Run.world) : Ledger.state :=
  match Run.files w !! Run.state_file cfg with
  | Some (Run.Ledger_file st) => st
  | _ => Ledger.empty_state
  end.

(** The ledger is as the run found it: the file system is unchanged, and
    the dict bound to [state] is untouched or is what [load_state] read. *)
Definition ledger_untouched (cfg : Run.config) (w w' : Run.world) : Prop :=
  Run.files w' = Run.files w
  /\ (Run.ledger w' = Run.ledger w
      \/ Run.ledger w' = Some (loaded_state cfg w)).

(** A run of scenario 1: the current index is 6.5 against a threshold of
    6.0, it is night with a cloud cover of 30 against a ceiling of 70, the
    forecast stays below its threshold, and no ledger file exists. *)
Definition scenario_cfg : Run.config :=
  {| Run.gmail_user := "observer@example.org";
     Run.gmail_app_password := "app-password";
     Run.recipients := ["observer@example.org"];
     Run.now_min_kp := PyFloat.of_Z 6;
     Run.forecast_min_kp := PyFloat.of_Z 6;
     Run.max_cloud := 70;
     Run.now_cd := 7200;
     Run.forecast_cd := 21600;
     Run.peak_window_h := 2;
     Run.nowcast_enabled := false;
     Run.state_file := "alert_state.json" |}.

Definition scenario_feeds (session : res unit) : Run.feeds :=
  {| Run.gate_now := Ok (true, 30, Some "2024-01-01T22:00");
     Run.kp_now := Ok (PyFloat.of_decimal false 65 1, "2024-01-01 21:00:00");
     Run.kp_forecast := Ok (PyFloat.of_Z 3, "2024-01-02 00:00:00",
                            Some 1704153600);
     Run.nowcast := Raise OSError;
     Run.hourly_feed := Raise OSError;
     Run.local_kp_now := Ok "01.01.2024, 22:00";
     Run.local_nowcast := Ok "01.01.2024, 22:59";
     Run.local_peak := Ok "02.01.2024, 01:00";
     Run.smtp := session;
     Run.tmp_open := Ok tt;
     Run.tmp_write := Ok tt;
     Run.tmp_replace := Ok tt |}.

Definition fresh_world : Run.world :=
  {| Run.files := ∅; Run.outbox := []; Run.ledger := None |}.

Section RunPlan.
Import Ledger Run.
Variable cfg : config.
Variable ext : feeds.
Variable now_ts : Z.

(** The FORECAST decision as a value: what [decide_forecast] answers. *)
Definition forecast_decision (st : state) (kp_fc_max : float)
  (kp_fc_time : string) (kp_fc_dt : option Z)
  : res (bool * option Z * option string) :=
  match kp_fc_dt with
  | Some peak_ts =>
      if PyFloat.ge kp_fc_max (forecast_min_kp cfg) then
        data ← hourly_feed ext;
        '(ok, best_cloud, best_time_local) ←
          Meteo.meteo_best_slot_around_peak data peak_ts
            (peak_window_h cfg) (max_cloud cfg);
        if ok : bool then
          Ok (should_send_forecast st kp_fc_time now_ts (forecast_cd cfg),
              best_cloud, best_time_local)
        else Ok (false, best_cloud, best_time_local)
      else Ok (false, None, None)
  | None => Ok (false, None, None)
  end.

(** What a run decides from the ledger it loaded: an exception of a feed
    or of [build_email_pro], nothing to send, or the message to send. *)
Definition run_plan (st : state) : res (option email) :=
  '(is_night_now, cloud_now, _) ← gate_now ext;
  '(kp_current, kp_current_time) ← kp_now ext;
  '(kp_fc_max, kp_fc_time, kp_fc_dt) ← kp_forecast ext;
  '(nowcast_kp, nowcast_time) ←
    (if nowcast_enabled cfg then Nowcast.kp_nowcast (nowcast ext)
     else Ok (None, None));
  let send_now_flag := decide_now cfg now_ts st kp_current is_night_now
                         cloud_now in
  '(send_forecast_flag, best_cloud, best_time_local) ←
    forecast_decision st kp_fc_max kp_fc_time kp_fc_dt;
  if negb (send_now_flag || send_forecast_flag) then Ok None
  else
    body ← build_email_pro cfg ext send_now_flag send_forecast_flag
             kp_current kp_current_time nowcast_kp nowcast_time
             is_night_now cloud_now kp_fc_max kp_fc_time kp_fc_dt
             best_cloud best_time_local;
    Ok (Some {| e_to := recipients cfg; e_letter := body |}).

(** The ledger after the message [msg] has been sent. *)
Definition record_sent (msg : email) (st : state) : state :=
  let st1 := if e_send_now msg then mark_sent st "NOW" now_ts else st in
  if e_send_forecast msg
  then mark_forecast_peak (mark_sent st1 "FORECAST" now_ts) (e_kp_fc_time msg)
  else st1.

(** The files after [save_state] has written the ledger [st]. *)
Definition saved_files (fs : gmap string file) (st : state)
  : gmap string file :=
  delete (state_file cfg +:+ ".tmp")
    (<[state_file cfg := Ledger_file st]>
       (<[state_file cfg +:+ ".tmp" := Ledger_file st]> fs)).

Definition credentials_missing : bool :=
  PyText.is_empty (gmail_user cfg) || PyText.is_empty (gmail_app_password cfg)
  || (List.length (recipients cfg) =? 0)%nat.

(** What [save_state] answers for the ledger [st], and the files it
    leaves. *)
Definition save_outcome (fs : gmap string file) (st : state)
  : res unit * gmap string file :=
  let tmp := state_file cfg +:+ ".tmp" in
  match tmp_open ext with
  | Raise e => (Raise e, fs)
  | Ok _ =>
      match tmp_write ext with
      | Raise e => (Raise e, <[tmp := Corrupt_file]> fs)
      | Ok _ =>
          match (if PyText.is_empty (state_file cfg) then Raise OSError
                 else tmp_replace ext) with
          | Raise e => (Raise e, <[tmp := Ledger_file st]> fs)
          | Ok _ => (Ok tt, saved_files fs st)
          end
      end
  end.

(** The outcome and the world at the end of a run, told from the plan. *)
Definition run_outcome (w : world) : res unit * world :=
  if credentials_missing then (Raise RuntimeError, w)
  else
    let st := loaded_state cfg w in
    let w1 := {| files := files w; outbox := outbox w; ledger := Some st |} in
    match run_plan st with
    | Raise e => (Raise e, w1)
    | Ok None => (Ok tt, w1)
    | Ok (Some msg) =>
        match smtp ext with
        | Raise e => (Raise e, w1)
        | Ok _ =>
            let saved := save_outcome (files w) (record_sent msg st) in
            (saved.1,
             {| files := saved.2;
                outbox := msg :: outbox w;
                ledger := Some (record_sent msg st) |})
        end
    end.

End RunPlan.

(** The peak identity that the ledger stores. *)
Definition stored_peak (st : Ledger.state) : option string :=
  default ∅ (Ledger.forecast st) !! "last_peak_time".

(** The feeds with another nowcast answer, the configuration with another
    nowcast switch, and a message without what the nowcast can change in
    it: its nowcast value and time, and its priority. *)
Definition with_nowcast (ext : Run.feeds) (answer : res json) : Run.feeds :=
  {| Run.gate_now := Run.gate_now ext;
     Run.kp_now := Run.kp_now ext;
     Run.kp_forecast := Run.kp_forecast ext;
     Run.nowcast := answer;
     Run.hourly_feed := Run.hourly_feed ext;
     Run.local_kp_now := Run.local_kp_now ext;
     Run.local_nowcast := Run.local_nowcast ext;
     Run.local_peak := Run.local_peak ext;
     Run.smtp := Run.smtp ext;
     Run.tmp_open := Run.tmp_open ext;
     Run.tmp_write := Run.tmp_write ext;
     Run.tmp_replace := Run.tmp_replace ext |}.

Definition with_nowcast_enabled (cfg : Run.config) (b : bool) : Run.config :=
  {| Run.gmail_user := Run.gmail_user cfg;
     Run.gmail_app_password := Run.gmail_app_password cfg;
     Run.recipients := Run.recipients cfg;
     Run.now_min_kp := Run.now_min_kp cfg;
     Run.forecast_min_kp := Run.forecast_min_kp cfg;
     Run.max_cloud := Run.max_cloud cfg;
     Run.now_cd := Run.now_cd cfg;
     Run.forecast_cd := Run.forecast_cd cfg;
     Run.peak_window_h := Run.peak_window_h cfg;
     Run.nowcast_enabled := b;
     Run.state_file := Run.state_file cfg |}.

Definition without_nowcast (msg : Run.email) : Run.email :=
  {| Run.e_to := Run.e_to msg;
     Run.e_letter :=
       {| Run.e_send_now := Run.e_send_now msg;
          Run.e_send_forecast := Run.e_send_forecast msg;
          Run.e_kp_current := Run.e_kp_current msg;
          Run.e_nowcast_kp := None;
          Run.e_nowcast_time := None;
          Run.e_kp_fc_max := Run.e_kp_fc_max msg;
          Run.e_kp_fc_time := Run.e_kp_fc_time msg;
          Run.e_best_cloud := Run.e_best_cloud msg;
          Run.e_best_time_local := Run.e_best_time_local msg;
          Run.e_priority := EmptyString |} |}.

(** The character [c] occurs in the text. *)
Fixpoint occurs (c : ascii) (s : string) : bool :=
  match s with
  | String x t => Ascii.eqb x c || occurs c t
  | EmptyString => false
  end.

(** An address as [parse_recipients] gives it: not empty, stripped, and
    without a comma. *)
Definition clean_address (p : string) : Prop :=
  p <> EmptyString /\ PyText.strip p = p /\ occurs "," p = false.

(** The text that [html_escape] writes for one character. *)
Definition escape_char (c : ascii) : string :=
  if Ascii.eqb c "&" then "&amp;"
  else if Ascii.eqb c "<" then "&lt;"
  else if Ascii.eqb c ">" then "&gt;"
  else String c EmptyString.

(** A run in which only FORECAST can fire: it is day, the forecast peaks at
    7.2 at 2024-01-01 21:00 UTC, and the hourly series is the one of the four
    dark samples. *)
Definition forecast_feeds (session : res unit) : Run.feeds :=
  {| Run.gate_now := Ok (false, 90, Some "2024-01-01T12:00");
     Run.kp_now := Ok (PyFloat.of_Z 3, "2024-01-01 09:00:00");
     Run.kp_forecast := Ok (PyFloat.of_decimal false 72 1,
                            "2024-01-01 21:00:00", Some peak_2024_01_01_21h);
     Run.nowcast := Raise OSError;
     Run.hourly_feed := Ok four_dark_samples;
     Run.local_kp_now := Ok "01.01.2024, 10:00";
     Run.local_nowcast := Raise OSError;
     Run.local_peak := Ok "01.01.2024, 22:00";
     Run.smtp := session;
     Run.tmp_open := Ok tt;
     Run.tmp_write := Ok tt;
     Run.tmp_replace := Ok tt |}.

(** The messages of the two scenarios. *)
Definition now_message : Run.email :=
  {| Run.e_to := ["observer@example.org"];
     Run.e_letter :=
       {| Run.e_send_now := true;
          Run.e_send_forecast := false;
          Run.e_kp_current := PyFloat.of_decimal false 65 1;
          Run.e_nowcast_kp := None;
          Run.e_nowcast_time := None;
          Run.e_kp_fc_max := PyFloat.of_Z 3;
          Run.e_kp_fc_time := "2024-01-02 00:00:00";
          Run.e_best_cloud := None;
          Run.e_best_time_local := None;
          Run.e_priority := HIGH |} |}.

Definition forecast_message : Run.email :=
  {| Run.e_to := ["observer@example.org"];
     Run.e_letter :=
       {| Run.e_send_now := false;
          Run.e_send_forecast := true;
          Run.e_kp_current := PyFloat.of_Z 3;
          Run.e_nowcast_kp := None;
          Run.e_nowcast_time := None;
          Run.e_kp_fc_max := PyFloat.of_decimal false 72 1;
          Run.e_kp_fc_time := "2024-01-01 21:00:00";
          Run.e_best_cloud := Some 20;
          Run.e_best_time_local := Some "2024-01-01T22:00";
          Run.e_priority := MEDIUM |} |}.

(** The feeds with other answers of the disk to [save_state]. *)
Definition with_disk (ext : Run.feeds) (opened written replaced : res unit)
  : Run.feeds :=
  {| Run.gate_now := Run.gate_now ext;
     Run.kp_now := Run.kp_now ext;
     Run.kp_forecast := Run.kp_forecast ext;
     Run.nowcast := Run.nowcast ext;
     Run.hourly_feed := Run.hourly_feed ext;
     Run.local_kp_now := Run.local_kp_now ext;
     Run.local_nowcast := Run.local_nowcast ext;
     Run.local_peak := Run.local_peak ext;
     Run.smtp := Run.smtp ext;
     Run.tmp_open := opened;
     Run.tmp_write := written;
     Run.tmp_replace := replaced |}.

(** A nowcast of 7 one minute before the run of the NOW scenario, and the
    message of that scenario when the nowcast is enabled and answers so. *)
Definition nowcast_answer : json :=
  JList [JDict (<["time_tag" := JStr "2024-01-01T21:59:00"]>
                  (<["kp_index" := JInt 7]> ∅))].

Definition nowcast_message : Run.email :=
  {| Run.e_to := ["observer@example.org"];
     Run.e_letter :=
       {| Run.e_send_now := true;
          Run.e_send_forecast := false;
          Run.e_kp_current := PyFloat.of_decimal false 65 1;
          Run.e_nowcast_kp := Some (PyFloat.of_Z 7);
          Run.e_nowcast_time := Some (Text "2024-01-01T21:59:00");
          Run.e_kp_fc_max := PyFloat.of_Z 3;
          Run.e_kp_fc_time := "2024-01-02 00:00:00";
          Run.e_best_cloud := None;
          Run.e_best_time_local := None;
          Run.e_priority := HIGH |} |}.

(** The world after the NOW scenario has run at the epoch 1704146400. *)
Definition world_after_now : Run.world :=
  (Run.main scenario_cfg (scenario_feeds (Ok tt)) 1704146400 fresh_world).2.

(** ** Forecast rows *)

(** What one forecast row offers to the search of
    [kp_forecast_max_next_hours]: nothing when the row is skipped, its Kp,
    time tag and instant when it reaches the comparison with [best_kp]. *)
Definition row_candidate (hours : Z) (now : Noaa.instant) (row : json)
  : res (option (float * text * Noaa.instant)) :=
  if negb (truthy row) then Ok None
  else
    n ← py_len row;
    if (n <? 2)%nat then Ok None
    else
      v0 ← py_getitem row 0;
      match Noaa.parse_time_text (py_str v0) with
      | None => Ok None
      | Some dt =>
          let delta_h := Noaa.hours_between dt now in
          if PyFloat.lt delta_h (PyFloat.of_Z 0)
             || Noaa.float_gt_int delta_h hours
          then Ok None
          else
            match v1 ← py_getitem row 1; Noaa.py_float v1 with
            | Raise _ => Ok None
            | Ok kp => Ok (Some (kp, py_str v0, dt))
            end
      end.

(** The row is a JSON array. *)
Definition is_array (v : json) : Prop :=
  match v with
  | JList _ => True
  | _ => False
  end.

(** The place of a tier among the five, from the lowest. *)
Definition tier_rank (t : string * string) : nat :=
  if decide (t = tier_extreme) then 4
  else if decide (t = tier_very_high) then 3
  else if decide (t = tier_high) then 2
  else if decide (t = tier_moderate) then 1
  else 0.

(** A forecast table: a header, a Kp of 3 two hours ahead, 5.67 five and
    eight hours ahead, 8 outside the window, read at 2024-01-01 10:00 UTC. *)
Definition forecast_row (time_tag kp : string) : json :=
  JList [JStr time_tag; JStr kp; JStr "predicted"; JNull].

Definition forecast_header : list json :=
  [JStr "time_tag"; JStr "kp"; JStr "observed"; JStr "noaa_scale"].

Definition forecast_table_rows : list json :=
  [forecast_row "2024-01-01 12:00:00" "3.00";
   forecast_row "2024-01-01 15:00:00" "5.67";
   forecast_row "2024-01-01 18:00:00" "5.67";
   forecast_row "2024-01-03 00:00:00" "8.00"].

Definition forecast_table : json :=
  JList (JList forecast_header :: forecast_table_rows).

Definition forecast_read_at : Noaa.instant := 1704103200000000.

(** The same forecast with a record in place of the second row. *)
Definition forecast_record : gmap string json :=
  <["time_tag" := JStr "2024-01-01 15:00:00"]> (<["kp" := JStr "5.67"]> ∅).

(* ===================================================================== *)
(** * Properties *)
(* ===================================================================== *)

(** ** Severity tiers *)

Section KpLabel.
Import PyFloat.

Lemma kp_label_range (kp : float) :
  kp_label kp ∈
    [tier_extreme; tier_very_high; tier_high; tier_moderate; tier_low].
Proof.
  unfold kp_label.
  repeat (match goal with |- context [if ?b then _ else _] => destruct b end);
    set_solver.
Qed.

Lemma tiers_pairwise_distinct :
  NoDup [tier_extreme; tier_very_high; tier_high; tier_moderate; tier_low].
Proof.
  repeat (apply NoDup_cons; split;
          [rewrite ?elem_of_cons, elem_of_nil; intros H;
           repeat (destruct H as [H|H]; [discriminate H|]); exact H|]).
  apply NoDup_nil_2.
Qed.

Lemma negative_below (z : Z) (kp : float) :
  0 < z -> lt kp (of_Z 0) = true -> ge kp (of_Z z) = false.
Proof.
  intros Hz Hneg. destruct z as [|p|p]; try lia.
  unfold ge, SFleb, of_Z, binary_normalize, binary_round.
  destruct (shl_align _ _ _) as [mz ez].
  unfold binary_round_aux.
  destruct (shr_fexp _ _ _ _ _) as [mrs' e'].
  destruct (shr_fexp _ _ _ _ _) as [mrs'' e''].
  destruct (shr_m mrs'') as [|q|q];
    destruct kp as [[]|[]| |[] m e]; try discriminate Hneg; try reflexivity;
    destruct (_ <=? _); reflexivity.
Qed.

(** A float that is not above a threshold is not above a higher one. *)
Lemma below_next (m1 m2 : positive) (e1 e2 : Z) (kp : float) :
  e1 <= e2 -> (e1 = e2 -> (m1 < m2)%positive) ->
  ge kp (S754_finite false m1 e1) = false ->
  ge kp (S754_finite false m2 e2) = false.
Proof.
  intros He Hm. unfold ge, SFleb, SFcompare.
  destruct kp as [[]|[]| |[] m e]; try congruence.
  change (Pos.compare_cont Eq m1 m) with (Pos.compare m1 m).
  change (Pos.compare_cont Eq m2 m) with (Pos.compare m2 m).
  destruct (Z.compare_spec e1 e) as [c1|c1|c1];
    destruct (Z.compare_spec e2 e) as [c2|c2|c2];
    try congruence; try lia.
  subst. specialize (Hm eq_refl).
  destruct (Pos.compare_spec m1 m) as [d1|d1|d1];
    destruct (Pos.compare_spec m2 m) as [d2|d2|d2];
    try congruence; lia.
Qed.

Ltac below_next :=
  intros kp;
  match goal with
  | |- ge _ ?a = false -> ge _ ?b = false =>
      let a' := eval vm_compute in a in
      let b' := eval vm_compute in b in
      change a with a'; change b with b'
  end;
  apply below_next; [lia | intros; try discriminate; reflexivity].

Lemma below_7_below_8 :
  forall kp, ge kp (of_Z 7) = false -> ge kp (of_Z 8) = false.
Proof. below_next. Qed.

Lemma below_6_below_7 :
  forall kp, ge kp (of_Z 6) = false -> ge kp (of_Z 7) = false.
Proof. below_next. Qed.

Lemma below_5_below_6 :
  forall kp, ge kp (of_Z 5) = false -> ge kp (of_Z 6) = false.
Proof. below_next. Qed.

(** C5. [kp_label] answers one of the five tiers for every float, by
    inclusive lower bounds tried from the highest: [>= 8] extreme, else
    [>= 7] very high, else [>= 6] high, else [>= 5] moderate, else low;
    negative values and the NaN are low; [8.0] is extreme and [5.99]
    moderate. *)
Theorem kp_label_thresholds (kp : float) :
  kp_label kp ∈
    [tier_extreme; tier_very_high; tier_high; tier_moderate; tier_low]
  /\ (ge kp (of_Z 8) = true -> kp_label kp = tier_extreme)
  /\ (ge kp (of_Z 7) = true -> ge kp (of_Z 8) = false ->
      kp_label kp = tier_very_high)
  /\ (ge kp (of_Z 6) = true -> ge kp (of_Z 7) = false ->
      kp_label kp = tier_high)
  /\ (ge kp (of_Z 5) = true -> ge kp (of_Z 6) = false ->
      kp_label kp = tier_moderate)
  /\ (ge kp (of_Z 5) = false -> kp_label kp = tier_low)
  /\ (lt kp (of_Z 0) = true -> kp_label kp = tier_low)
  /\ kp_label S754_nan = tier_low
  /\ kp_label (of_Z 8) = tier_extreme
  /\ kp_label (of_decimal false 599 2) = tier_moderate.
Proof.
  split; [apply kp_label_range|].
  repeat split; try reflexivity; unfold kp_label.
  - intros ->. reflexivity.
  - intros -> ->. reflexivity.
  - intros -> H7. rewrite (below_7_below_8 _ H7), H7. reflexivity.
  - intros -> H6.
    pose proof (below_6_below_7 _ H6) as H7.
    rewrite (below_7_below_8 _ H7), H7, H6. reflexivity.
  - intros H5.
    pose proof (below_5_below_6 _ H5) as H6.
    pose proof (below_6_below_7 _ H6) as H7.
    rewrite (below_7_below_8 _ H7), H7, H6, H5. reflexivity.
  - intros Hneg.
    rewrite !(negative_below _ kp) by (lia || assumption). reflexivity.
Qed.

Lemma kp_label_thresholds_witness :
  kp_label (of_decimal false 65 1) = tier_high.
Proof.
  apply (proj1 (proj2 (proj2 (proj2 (kp_label_thresholds
           (of_decimal false 65 1)))))); reflexivity.
Defined.

End KpLabel.

(** ** The priority *)

Section Priority.
Import PyFloat.

Lemma tiers_distinct : HIGH <> MEDIUM /\ MEDIUM <> LOW /\ HIGH <> LOW.
Proof. repeat split; discriminate. Qed.

(** C3. [pick_priority_emoji] tries its rules in order: High when the
    nowcast is present, at least 7.0, and the gate holds; otherwise High when
    NOW fires and the gate holds; otherwise Medium when NOW does not fire,
    FORECAST fires and the window is good; otherwise Low. A nowcast of 7.5
    with the gate is High whatever the flags; a forecast alone with a good
    window is Medium; nothing firing with the gate failing is Low. *)
Theorem pick_priority_emoji_rules
  (send_now_flag send_forecast_flag now_gate_ok best_ok : bool)
  (nowcast_kp : option float) :
  let p := pick_priority_emoji send_now_flag send_forecast_flag
             now_gate_ok best_ok nowcast_kp in
  let r1 := strong_nowcast nowcast_kp now_gate_ok in
  let r2 := send_now_flag && now_gate_ok in
  let r3 := negb send_now_flag && send_forecast_flag && best_ok in
  (r1 = true -> p = HIGH)
  /\ (r1 = false -> r2 = true -> p = HIGH)
  /\ (r1 = false -> r2 = false -> r3 = true -> p = MEDIUM)
  /\ (r1 = false -> r2 = false -> r3 = false -> p = LOW)
  /\ pick_priority_emoji send_now_flag send_forecast_flag true best_ok
       (Some (of_decimal false 75 1)) = HIGH
  /\ (strong_nowcast nowcast_kp now_gate_ok = false ->
      pick_priority_emoji false true now_gate_ok true nowcast_kp = MEDIUM)
  /\ pick_priority_emoji false false false best_ok nowcast_kp = LOW.
Proof.
  unfold pick_priority_emoji, strong_nowcast. cbv zeta.
  repeat apply conj.
  - destruct nowcast_kp as [kp|]; [|discriminate]. intros ->. reflexivity.
  - destruct nowcast_kp as [kp|]; intros H1 H2; rewrite ?H1, H2; reflexivity.
  - destruct nowcast_kp as [kp|]; intros H1 H2 H3; rewrite ?H1, H2, H3;
      reflexivity.
  - destruct nowcast_kp as [kp|]; intros H1 H2 H3; rewrite ?H1, H2, H3;
      reflexivity.
  - destruct send_now_flag, send_forecast_flag, best_ok; reflexivity.
  - destruct nowcast_kp as [kp|]; intros H1; rewrite ?H1;
      destruct now_gate_ok; reflexivity.
  - destruct nowcast_kp as [kp|]; [destruct (ge kp (of_Z 7))|]; reflexivity.
Qed.

Lemma pick_priority_emoji_rules_witness :
  pick_priority_emoji true false true false (Some (of_decimal false 42 1))
  = HIGH.
Proof.
  apply (proj1 (proj2 (pick_priority_emoji_rules true false true false
                         (Some (of_decimal false 42 1))))); reflexivity.
Defined.

End Priority.

(** ** The ledger *)

Section LedgerFacts.
Import Ledger.

Lemma can_send_now_spec (st : state) (key : string) (cd now : Z) :
  can_send_now st key cd now = true <-> now - last_sent_of st key >= cd.
Proof.
  unfold can_send_now, last_sent_of.
  destruct (last_sent st) as [m|]; simpl.
  - destruct (m !! key); simpl; rewrite Z.geb_le; lia.
  - rewrite lookup_empty. simpl. rewrite Z.geb_le; lia.
Qed.

Lemma last_sent_of_mark_sent (st : state) (key : string) (now : Z) :
  last_sent_of (mark_sent st key now) key = now.
Proof.
  unfold last_sent_of, mark_sent. simpl. by rewrite lookup_insert_eq.
Qed.

Lemma last_sent_of_mark_sent_ne (st : state) (key key' : string) (now : Z) :
  key <> key' ->
  last_sent_of (mark_sent st key now) key' = last_sent_of st key'.
Proof.
  intros Hne. unfold last_sent_of, mark_sent. simpl.
  rewrite lookup_insert_ne by done.
  destruct (last_sent st); simpl; [done|]. by rewrite lookup_empty.
Qed.

(** C1, as stated, fails when the cooldown is not positive: right after
    [mark_sent] with the same [now_ts], [can_send_now] answers true. *)
Lemma can_send_now_after_mark_sent_zero_cooldown :
  can_send_now (mark_sent empty_state "NOW" 100) "NOW" 0 100 <> false.
Proof. discriminate. Qed.

(** C1 (amended). [can_send_now] is true exactly when [now_ts] minus the
    entry of the key ([0] when absent) is at least the cooldown; right after
    [mark_sent] with the same [now_ts] it is false provided the cooldown is
    positive, and it is true again once the cooldown has elapsed. *)
Theorem can_send_now_cooldown (st : state) (key : string) (cd now : Z) :
  (can_send_now st key cd now = true <-> now - last_sent_of st key >= cd)
  /\ (0 < cd -> can_send_now (mark_sent st key now) key cd now = false)
  /\ (forall later, later - now >= cd ->
        can_send_now (mark_sent st key now) key cd later = true).
Proof.
  split; [apply can_send_now_spec|]. split.
  - intros Hcd. apply not_true_is_false. rewrite can_send_now_spec.
    rewrite last_sent_of_mark_sent. lia.
  - intros later Hl. apply can_send_now_spec.
    rewrite last_sent_of_mark_sent. lia.
Qed.

Lemma can_send_now_cooldown_witness :
  can_send_now (mark_sent empty_state "NOW" 100) "NOW" 7200 100 = false.
Proof.
  apply (proj1 (proj2 (can_send_now_cooldown empty_state "NOW" 7200 100))).
  lia.
Defined.

(** C2. [should_send_forecast] answers what [can_send_now] answers for the
    class FORECAST: neither the given peak identity nor the stored one has
    any effect. *)
Theorem should_send_forecast_is_cooldown (st : state) (peak_time : string)
  (now cd : Z) :
  should_send_forecast st peak_time now cd
  = can_send_now st "FORECAST" cd now
  /\ (forall stored,
        should_send_forecast (mark_forecast_peak st stored) peak_time now cd
        = should_send_forecast st peak_time now cd).
Proof.
  split.
  - unfold should_send_forecast. destruct (negb _); reflexivity.
  - intros stored. unfold should_send_forecast.
    destruct (negb _), (negb _); reflexivity.
Qed.

End LedgerFacts.

(** ** The pattern of the value coercion, read directly *)

Section NumeralScan.
Import PyText Nowcast.

Section Star.
Variable p : ascii -> bool.

Lemma rmatch_star_total (k : string -> option string) (s : string) :
  (forall x, k x <> None) ->
  rmatch (RStar (RClass p)) s k = k (skip p s).
Proof.
  intros Hk. simpl.
  generalize (Nat.le_refl (String.length s)).
  generalize (String.length s) at 2 3 as fuel.
  intros fuel. revert s. induction fuel as [|fuel IH]; intros s Hlen.
  - destruct s; [done|simpl in Hlen; lia].
  - destruct s as [|c t]; simpl; [done|].
    destruct (p c) eqn:Hp; [|done].
    rewrite (proj2 (Nat.ltb_lt _ _)) by lia.
    rewrite IH by (simpl in Hlen; lia).
    destruct (k (skip p t)) eqn:Hk'; [done|]. by destruct (Hk (skip p t)).
Qed.

Lemma rmatch_star_stuck (k : string -> option string) (s : string) :
  match s with String c _ => p c = false | EmptyString => True end ->
  rmatch (RStar (RClass p)) s k = k s.
Proof.
  intros Hs. simpl. destruct s as [|c t]; [done|]. simpl. by rewrite Hs.
Qed.
End Star.


Lemma skip_is_skip_digits (s : string) : skip is_digit s = skip_digits s.
Proof. induction s as [|c t IH]; simpl; [done|]. by rewrite IH. Qed.

(** [\d+] with a continuation that always answers. *)
Lemma rmatch_plus_digits (k : string -> option string) (s : string) :
  (forall x, k x <> None) ->
  rmatch (RPlus (RClass is_digit)) s k
  = match s with
    | String c t => if is_digit c then k (skip_digits t) else None
    | EmptyString => None
    end.
Proof.
  intros Hk. unfold RPlus.
  change (rmatch (RSeq ?a ?b) s k) with (rmatch a s (fun s' => rmatch b s' k)).
  destruct s as [|c t]; [done|].
  change (rmatch (RClass is_digit) (String c t) ?f)
    with (if is_digit c then f t else None).
  destruct (is_digit c); [|done].
  by rewrite rmatch_star_total, skip_is_skip_digits.
Qed.

Lemma tail_after_dot_eq (s : string) :
  tail_after_dot s
  = match s with
    | String d r => if dot_class d then Some (skip_digits r) else Some (skip_digits s)
    | EmptyString => Some EmptyString
    end.
Proof.
  unfold tail_after_dot.
  change (rmatch (RSeq ?a ?b) s Some) with (rmatch a s (fun s' => rmatch b s' Some)).
  change (rmatch (ROpt ?a) s ?f) with (or_else (rmatch a s f) (f s)).
  destruct s as [|d r].
  - reflexivity.
  - change (rmatch (RClass dot_class) (String d r) ?f)
      with (if dot_class d then f r else None).
    rewrite !rmatch_star_total, !skip_is_skip_digits by done.
    destruct (dot_class d); reflexivity.
Qed.

Lemma dot_not_digit (c : ascii) : dot_class c = true -> is_digit c = false.
Proof.
  unfold dot_class. intros H%Ascii.eqb_eq. by subst.
Qed.

Lemma sign_not_digit (c : ascii) : sign_class c = true -> is_digit c = false.
Proof.
  unfold sign_class. intros [H%Ascii.eqb_eq|H%Ascii.eqb_eq]%orb_true_iff;
    by subst.
Qed.

Lemma sign_not_dot (c : ascii) : sign_class c = true -> dot_class c = false.
Proof.
  unfold sign_class. intros [H%Ascii.eqb_eq|H%Ascii.eqb_eq]%orb_true_iff;
    by subst.
Qed.

Lemma skip_digits_head (t : string) :
  match skip_digits t with
  | String d _ => is_digit d = false
  | EmptyString => True
  end.
Proof.
  induction t as [|c t IH]; simpl; [done|].
  destruct (is_digit c) eqn:Hc; [done|]. simpl. done.
Qed.

Lemma skip_digits_idem (t : string) :
  skip_digits (skip_digits t) = skip_digits t.
Proof.
  induction t as [|c t IH]; simpl; [done|].
  destruct (is_digit c) eqn:Hc; [done|]. simpl. by rewrite Hc.
Qed.

Lemma rmatch_unsigned (s : string) :
  rmatch unsigned_pattern s Some = rest_of (split_unsigned s).
Proof.
  unfold unsigned_pattern.
  change (rmatch (RAlt ?a ?b) s Some)
    with (or_else (rmatch a s Some) (rmatch b s Some)).
  change (rmatch (RSeq (RPlus (RClass is_digit)) ?b) s Some)
    with (rmatch (RPlus (RClass is_digit)) s (fun s' => rmatch b s' Some)).
  fold tail_after_dot.
  rewrite rmatch_plus_digits; cycle 1.
  { intros x. rewrite tail_after_dot_eq. destruct x as [|d r]; [done|].
    by destruct (dot_class d). }
  change (rmatch (RSeq (RStar (RClass is_digit)) ?b) s Some)
    with (rmatch (RStar (RClass is_digit)) s (fun s' => rmatch b s' Some)).
  destruct s as [|c t]; [reflexivity|].
  unfold split_unsigned.
  destruct (is_digit c) eqn:Hc.
  - rewrite tail_after_dot_eq.
    pose proof (skip_digits_head t) as Hh.
    destruct (skip_digits t) as [|d r] eqn:Hs; [done|].
    destruct (dot_class d); simpl; [done|].
    by rewrite Hh.
  - rewrite rmatch_star_stuck by done.
    change (or_else None ?x) with x. cbv beta.
    change (rmatch (RSeq ?a ?b) (String c t) Some)
      with (rmatch a (String c t) (fun s' => rmatch b s' Some)).
    change (rmatch (ROpt ?a) (String c t) ?f)
      with (or_else (rmatch a (String c t) f) (f (String c t))).
    change (rmatch (RClass dot_class) (String c t) ?f)
      with (if dot_class c then f t else None).
    cbv beta.
    rewrite !rmatch_plus_digits by done. rewrite Hc.
    destruct (dot_class c); [|done].
    destruct t as [|d t']; [done|]. by destruct (is_digit d).
Qed.

Lemma rmatch_kp_pattern (s : string) :
  rmatch kp_pattern s Some = rest_of (split_signed s).
Proof.
  unfold kp_pattern.
  change (rmatch (RSeq ?a ?b) s Some)
    with (rmatch a s (fun s' => rmatch b s' Some)).
  change (rmatch (ROpt ?a) s ?f) with (or_else (rmatch a s f) (f s)).
  destruct s as [|c t].
  - reflexivity.
  - change (rmatch (RClass sign_class) (String c t) ?f)
      with (if sign_class c then f t else None).
    unfold split_signed. rewrite !rmatch_unsigned.
    destruct (sign_class c) eqn:Hc; [|done].
    unfold split_unsigned at 2.
    rewrite (sign_not_digit c Hc), (sign_not_dot c Hc).
    destruct (split_unsigned t) as [[g r]|]; reflexivity.
Qed.

(** Strings as prefix and rest. *)
Lemma string_app_cons (c : ascii) (a b : string) :
  String c a ++ b = String c (a ++ b).
Proof. reflexivity. Qed.

Lemma string_app_nil (b : string) : EmptyString ++ b = b.
Proof. reflexivity. Qed.

Ltac app_simpl := rewrite ?string_app_cons, ?string_app_nil; simpl.

Lemma string_length_app (a b : string) :
  String.length (a ++ b) = (String.length a + String.length b)%nat.
Proof. induction a as [|c a IH]; app_simpl; [done|]. by rewrite IH. Qed.

Lemma substring_whole_prefix (g r : string) :
  substring 0 (String.length (g ++ r) - String.length r) (g ++ r) = g.
Proof.
  rewrite string_length_app.
  replace (String.length g + String.length r - String.length r)%nat
    with (String.length g) by lia.
  induction g as [|c g IH]; app_simpl.
  - by destruct r.
  - by rewrite IH.
Qed.

Lemma take_skip_digits (s : string) : s = take_digits s ++ skip_digits s.
Proof.
  induction s as [|c t IH]; simpl; [done|].
  destruct (is_digit c); app_simpl; [by f_equal|done].
Qed.

Lemma string_app_assoc (a b c : string) : (a ++ b) ++ c = a ++ (b ++ c).
Proof. induction a as [|x a IH]; app_simpl; [done|]. by rewrite IH. Qed.

Lemma split_unsigned_app (s g r : string) :
  split_unsigned s = Some (g, r) -> s = g ++ r.
Proof.
  unfold split_unsigned. destruct s as [|c t]; [done|].
  destruct (is_digit c).
  - destruct (skip_digits t) as [|d r'] eqn:Hs.
    + intros [= <- <-]. app_simpl. f_equal.
      rewrite <- Hs. apply take_skip_digits.
    + destruct (dot_class d); intros [= <- <-]; app_simpl; f_equal.
      * rewrite string_app_assoc. app_simpl.
        rewrite <- (take_skip_digits r'), <- Hs. apply take_skip_digits.
      * rewrite <- Hs. apply take_skip_digits.
  - destruct (dot_class c); [|done].
    destruct t as [|d t']; [done|].
    destruct (is_digit d); [|done].
    intros [= <- <-]. app_simpl. do 2 f_equal. apply take_skip_digits.
Qed.

Lemma split_signed_app (s g r : string) :
  split_signed s = Some (g, r) -> s = g ++ r.
Proof.
  unfold split_signed. destruct s as [|c t]; [done|].
  destruct (sign_class c).
  - destruct (split_unsigned t) as [[g' r']|] eqn:Hu; [|done].
    intros [= <- <-]. app_simpl. f_equal. by apply split_unsigned_app.
  - apply split_unsigned_app.
Qed.

(** The search of the pattern is the scan for the first numeral. *)
Lemma re_search_kp_pattern (s : string) :
  re_search kp_pattern s = first_number s.
Proof.
  induction s as [|c t IH].
  - reflexivity.
  - unfold re_search; fold re_search. unfold first_number; fold first_number.
    rewrite rmatch_kp_pattern.
    destruct (split_signed (String c t)) as [[g r]|] eqn:Hs;
      unfold rest_of.
    + apply split_signed_app in Hs as ->.
      f_equal. apply substring_whole_prefix.
    + apply IH.
Qed.

Lemma split_unsigned_some_iff (s : string) :
  split_unsigned s = None ->
  match s with String c _ => is_digit c = false | EmptyString => True end.
Proof.
  destruct s as [|c t]; [done|]. unfold split_unsigned.
  destruct (is_digit c); [|done].
  destruct (skip_digits t) as [|d r]; [done|]. by destruct (dot_class d).
Qed.

Lemma split_unsigned_has_digit (s g r : string) :
  split_unsigned s = Some (g, r) -> has_digit s = true.
Proof.
  destruct s as [|c t]; [done|]. unfold split_unsigned. simpl.
  destruct (is_digit c); [done|]. simpl.
  destruct (dot_class c); [|done].
  destruct t as [|d t']; [done|]. simpl. by destruct (is_digit d).
Qed.

Lemma first_number_none_iff (s : string) :
  first_number s = None <-> has_digit s = false.
Proof.
  induction s as [|c t IH]; [done|].
  unfold first_number; fold first_number. simpl has_digit.
  destruct (split_signed (String c t)) as [[g r]|] eqn:Hs.
  - split; [done|]. intros Hd. exfalso.
    apply orb_false_iff in Hd as [Hc Ht].
    unfold split_signed in Hs. destruct (sign_class c).
    + destruct (split_unsigned t) as [[g' r']|] eqn:Hu; [|done].
      apply split_unsigned_has_digit in Hu. congruence.
    + apply split_unsigned_has_digit in Hs. simpl in Hs.
      rewrite Hc, Ht in Hs. done.
  - rewrite IH. rewrite orb_false_iff.
    split; [|tauto]. intros Ht. split; [|done].
    unfold split_signed in Hs. destruct (sign_class c) eqn:Hsg.
    + by apply sign_not_digit.
    + by apply split_unsigned_some_iff in Hs.
Qed.


(** [float] accepts every numeral that the pattern matches. *)
Lemma read_digits_take (t r : string) (acc : Z) (n : nat) :
  match r with String d _ => is_digit d = false | EmptyString => True end ->
  exists acc',
    read_digits (take_digits t ++ r) acc n
    = (acc', (n + String.length (take_digits t))%nat, r).
Proof.
  intros Hr. revert acc n. induction t as [|c t IH]; intros acc n.
  - simpl take_digits. rewrite string_app_nil. exists acc.
    rewrite Nat.add_0_r. destruct r as [|d r']; [done|]. simpl. by rewrite Hr.
  - simpl take_digits. destruct (is_digit c) eqn:Hc.
    + rewrite string_app_cons. simpl. rewrite Hc.
      destruct (IH (10 * acc + digit_val c)%Z (S n)) as [acc' ->].
      exists acc'. do 2 f_equal. lia.
    + rewrite string_app_nil. exists acc.
      rewrite Nat.add_0_r. destruct r as [|d r']; [done|]. simpl.
      by rewrite Hr.
Qed.

Lemma string_app_empty (a : string) : a ++ EmptyString = a.
Proof. induction a as [|c a IH]; app_simpl; [done|]. by rewrite IH. Qed.

Lemma float_of_unsigned_total (s g r : string) (neg : bool) :
  split_unsigned s = Some (g, r) ->
  exists f, float_of_unsigned neg g = Some f.
Proof.
  unfold split_unsigned. destruct s as [|c t]; [done|].
  destruct (is_digit c) eqn:Hc.
  - assert (forall rest,
              match rest with
              | String d _ => is_digit d = false
              | EmptyString => True
              end ->
              exists acc', read_digits (String c (take_digits t) ++ rest) 0 0
                           = (acc', S (String.length (take_digits t)), rest))
      as Hint.
    { intros rest Hrest. rewrite string_app_cons. simpl. rewrite Hc.
      destruct (read_digits_take t rest (10 * 0 + digit_val c)%Z 1 Hrest)
        as [acc' ->]. by exists acc'. }
    destruct (skip_digits t) as [|d r'] eqn:Hs.
    + intros [= <- <-]. unfold float_of_unsigned.
      destruct (Hint EmptyString I) as [acc' Hrd].
      rewrite string_app_empty in Hrd. rewrite Hrd. simpl. eauto.
    + destruct (dot_class d) eqn:Hd; intros [= <- <-]; unfold float_of_unsigned.
      * destruct (Hint (String d (take_digits r')) (dot_not_digit d Hd))
          as [acc' ->].
        apply Ascii.eqb_eq in Hd as ->. simpl read_dot. cbv iota beta.
        destruct (read_digits_take r' EmptyString acc'
                    (S (String.length (take_digits t))) I) as [m Hrd].
        rewrite string_app_empty in Hrd. rewrite Hrd. simpl. eauto.
      * destruct (Hint EmptyString I) as [acc' Hrd].
        rewrite string_app_empty in Hrd. rewrite Hrd. simpl. eauto.
  - destruct (dot_class c) eqn:Hd; [|done].
    destruct t as [|d t']; [done|].
    destruct (is_digit d) eqn:Hdd; [|done].
    intros [= <- <-]. unfold float_of_unsigned.
    apply Ascii.eqb_eq in Hd as ->. simpl. rewrite Hdd.
    destruct (read_digits_take t' EmptyString (10 * 0 + digit_val d)%Z 1 I)
      as [m Hrd].
    rewrite string_app_empty in Hrd. rewrite Hrd. simpl. eauto.
Qed.

Lemma split_unsigned_head (s g r : string) :
  split_unsigned s = Some (g, r) ->
  exists c g', g = String c g' /\ sign_class c = false.
Proof.
  unfold split_unsigned. destruct s as [|c t]; [done|].
  assert (is_digit c = true \/ dot_class c = true -> sign_class c = false)
    as Hns.
  { destruct (sign_class c) eqn:Hsg; [|done].
    rewrite (sign_not_digit c Hsg), (sign_not_dot c Hsg). intros []; done. }
  destruct (is_digit c) eqn:Hc.
  - destruct (skip_digits t) as [|d r'].
    + intros [= <- <-]. eexists _, _. split; [reflexivity|]. apply Hns; auto.
    + destruct (dot_class d); intros [= <- <-]; rewrite ?string_app_cons;
        (eexists _, _; split; [reflexivity|]; apply Hns; auto).
  - destruct (dot_class c) eqn:Hd; [|done].
    destruct t as [|d t']; [done|]. destruct (is_digit d); [|done].
    intros [= <- <-]. eexists _, _. split; [reflexivity|]. apply Hns; auto.
Qed.

Lemma read_sign_unsigned (c : ascii) (g : string) :
  sign_class c = false -> read_sign (String c g) = (false, String c g).
Proof.
  unfold sign_class. intros [H1%Ascii.eqb_neq H2%Ascii.eqb_neq]%orb_false_iff.
  unfold read_sign.
  destruct c as [[] [] [] [] [] [] [] []]; try reflexivity; congruence.
Qed.

Lemma float_of_str_total (s g r : string) :
  split_signed s = Some (g, r) -> exists f, float_of_str g = Some f.
Proof.
  unfold split_signed. destruct s as [|c t]; [done|].
  destruct (sign_class c) eqn:Hsg.
  - destruct (split_unsigned t) as [[g' r']|] eqn:Hu; [|done].
    intros [= <- <-]. unfold float_of_str.
    apply orb_true_iff in Hsg as [->%Ascii.eqb_eq| ->%Ascii.eqb_eq];
      simpl read_sign; cbv iota beta; by eapply float_of_unsigned_total.
  - intros Hu. destruct (split_unsigned_head _ _ _ Hu) as (c' & g' & -> & Hc').
    unfold float_of_str. rewrite read_sign_unsigned by done.
    by eapply float_of_unsigned_total.
Qed.

Lemma first_number_float (s g : string) :
  first_number s = Some g -> exists f, float_of_str g = Some f.
Proof.
  induction s as [|c t IH]; [done|].
  unfold first_number; fold first_number.
  destruct (split_signed (String c t)) as [[g' r]|] eqn:Hs; [|done].
  intros [= <-]. by eapply float_of_str_total.
Qed.

(** Stripping and the change of commas keep the digits. *)
Lemma space_not_digit (c : ascii) : is_space c = true -> is_digit c = false.
Proof.
  unfold is_space, is_digit. generalize (code c). intros n Hs.
  apply andb_false_iff.
  rewrite !orb_true_iff, !andb_true_iff, !N.leb_le, !N.eqb_eq in Hs.
  rewrite !N.leb_gt. lia.
Qed.

Lemma has_digit_lstrip (s : string) : has_digit (lstrip s) = has_digit s.
Proof.
  induction s as [|c t IH]; simpl; [done|].
  destruct (is_space c) eqn:Hc; [|done].
  by rewrite (space_not_digit c Hc).
Qed.

Lemma has_digit_rstrip (s : string) : has_digit (rstrip s) = has_digit s.
Proof.
  induction s as [|c t IH]; simpl; [done|].
  destruct (is_space c && is_empty (rstrip t)) eqn:Hc; simpl.
  - apply andb_true_iff in Hc as [Hc He].
    rewrite (space_not_digit c Hc), <- IH. by destruct (rstrip t).
  - by rewrite IH.
Qed.

Lemma has_digit_replace (s : string) :
  has_digit (replace "," "." s) = has_digit s.
Proof.
  induction s as [|c t IH]; simpl; [done|]. rewrite IH. f_equal.
  destruct (Ascii.eqb_spec c ","); [by subst|done].
Qed.

Lemma has_digit_normalised (v : string) :
  has_digit (replace "," "." (strip v)) = has_digit v.
Proof.
  unfold strip. by rewrite has_digit_replace, has_digit_rstrip, has_digit_lstrip.
Qed.

(** X24. On a text, [to_kp_float] gives no reading exactly when the text holds
    no digit; otherwise it gives the float of the first numeral, wherever that
    numeral stands. *)
Theorem to_kp_float_string (v : string) :
  (has_digit v = false -> to_kp_float (JStr v) = Ok None)
  /\ (has_digit v = true ->
      exists g f,
        first_number (replace "," "." (strip v)) = Some g
        /\ float_of_str g = Some f
        /\ to_kp_float (JStr v) = Ok (Some f)).
Proof.
  unfold to_kp_float. rewrite re_search_kp_pattern.
  rewrite <- (has_digit_normalised v).
  destruct (first_number _) as [g|] eqn:Hg.
  - split.
    + intros Hd. apply first_number_none_iff in Hd. congruence.
    + intros _. destruct (first_number_float _ _ Hg) as [f Hf].
      exists g, f. by rewrite Hf.
  - split; [done|]. intros Hd.
    apply first_number_none_iff in Hg. congruence.
Qed.

End NumeralScan.

(** ** The value coercion *)

Section Coercion.
Import PyFloat PyText Nowcast.

Example to_kp_float_6P : to_kp_float (JStr "6P") = Ok (Some (of_Z 6)).
Proof. reflexivity. Qed.

Example to_kp_float_7_3_plus :
  to_kp_float (JStr "7,3+") = Ok (Some (of_decimal false 73 1)).
Proof. reflexivity. Qed.

Example to_kp_float_not_a_number :
  to_kp_float (JStr "not a number") = Ok None.
Proof. reflexivity. Qed.

Example to_kp_float_literals :
  to_kp_float (JInt 6) = Ok (Some (of_Z 6))
  /\ to_kp_float (JFloat (of_decimal false 533 2))
     = Ok (Some (of_decimal false 533 2))
  /\ to_kp_float (JBool true) = Ok (Some (of_Z 1))
  /\ to_kp_float JNull = Ok None
  /\ to_kp_float (JInt (2 ^ 1024)) = Raise OverflowError.
Proof. repeat apply conj; reflexivity. Qed.

(** The pattern is searched, not anchored: the first numeral of the text is
    taken wherever it stands. *)
Example re_search_skips_a_prefix :
  re_search kp_pattern "Kp 7" = Some "7"
  /\ re_search kp_pattern "x-.5y" = Some "-.5"
  /\ re_search kp_pattern "--5." = Some "-5."
  /\ re_search kp_pattern "1.2.3" = Some "1.2"
  /\ re_search kp_pattern "+-." = None.
Proof. repeat apply conj; reflexivity. Qed.

(** C6. [to_kp_float] on the text ["Kp 7"], which has no leading number:
    the answer is the reading [7.0], not the absent reading. *)
Theorem to_kp_float_number_after_prefix :
  to_kp_float (JStr "Kp 7") = Ok (Some (of_Z 7))
  /\ to_kp_float (JStr "Kp 7") <> Ok None.
Proof. split; [reflexivity | discriminate]. Qed.

End Coercion.

(** ** The feed normaliser *)

Section Normaliser.
Import PyFloat Nowcast.

Lemma kp_nowcast_total (fetched : res json) :
  exists r, kp_nowcast fetched = Ok r.
Proof.
  unfold kp_nowcast, try_except.
  destruct (_ ≫= _) as [r|e]; eauto.
Qed.

(** The body of the [try] does raise on some feeds: [len] of a number,
    an integer key of a dict, an integer beyond the floats, and a fetch
    that fails. *)
Example kp_nowcast_body_raises :
  kp_nowcast_body (JList [JList [JStr "time_tag"; JStr "kp"]; JInt 5])
  = Raise TypeError
  /\ kp_nowcast_body
       (JList [JList []; JDict {[ "a" := JInt 1; "b" := JInt 2 ]}])
     = Raise KeyError
  /\ kp_nowcast_body
       (JList [JList []; JList [JStr "2024-01-01"; JInt (2 ^ 1024)]])
     = Raise OverflowError
  /\ kp_nowcast (Raise OSError) = Ok absent.
Proof. repeat apply conj; reflexivity. Qed.

(** C7. [kp_nowcast] never raises: whatever the fetched value, it returns;
    when the body of its [try] raises, and when the top-level shape is not
    one it knows, it returns [(None, None)]. *)
Theorem kp_nowcast_never_raises (fetched : res json) :
  (exists r, kp_nowcast fetched = Ok r)
  /\ (forall e, (data ← fetched; kp_nowcast_body data) = Raise e ->
        kp_nowcast fetched = Ok absent)
  /\ (forall data, fetched = Ok data -> recognised_shape data = false ->
        kp_nowcast fetched = Ok absent).
Proof.
  split; [apply kp_nowcast_total|]. split.
  - intros e He. unfold kp_nowcast. rewrite He. reflexivity.
  - intros data -> Hshape. unfold kp_nowcast. simpl.
    destruct data as [| | | | |l|]; try reflexivity; try discriminate.
    destruct l as [|[] ?]; try reflexivity; discriminate.
Qed.

Lemma kp_nowcast_never_raises_witness :
  kp_nowcast (Ok (JList [JList [JStr "time_tag"; JStr "kp"]; JInt 5]))
  = Ok absent.
Proof.
  apply (proj1 (proj2 (kp_nowcast_never_raises
           (Ok (JList [JList [JStr "time_tag"; JStr "kp"]; JInt 5]))))
           TypeError).
  reflexivity.
Defined.

Lemma last_snoc_row (rows : list json) (row : json) :
  last (rows ++ [row])%list = Some row.
Proof. apply last_snoc. Qed.

(** C8, as stated, fails: a short final row does prevent the reading of the
    earlier complete row. *)
Lemma short_final_row_gives_no_reading :
  kp_nowcast (Ok short_final_row_feed)
  <> tabular_skipping_short_rows short_final_row_feed.
Proof. vm_compute. discriminate. Qed.

Example short_final_row_outcomes :
  kp_nowcast (Ok short_final_row_feed) = Ok absent
  /\ tabular_skipping_short_rows short_final_row_feed
     = Ok (Some (of_decimal false 533 2), Some (Text "2024-01-01 00:00:00")).
Proof. split; reflexivity. Qed.

(** C8 (amended). On a tabular feed, a list whose first element is a list,
    only the last data row is read: when it has at least two elements the
    value is coerced from index 1 and the timestamp is the text of index 0;
    when it has fewer, or when there is no data row, the answer is
    [(None, None)], whatever the earlier rows hold. *)
Theorem tabular_reads_last_row_only (header rows last_row : list json) :
  let feed := JList (JList header :: (rows ++ [JList last_row])%list) in
  kp_nowcast (Ok (JList [JList header])) = Ok absent
  /\ ((List.length last_row < 2)%nat -> kp_nowcast (Ok feed) = Ok absent)
  /\ (forall v0 v1 rest, last_row = v0 :: v1 :: rest ->
        kp_nowcast (Ok feed)
        = match to_kp_float v1 with
          | Ok (Some kp) => Ok (Some kp, Some (py_str v0))
          | _ => Ok absent
          end).
Proof.
  cbv zeta. split; [reflexivity|].
  unfold kp_nowcast. simpl. unfold pick_from_rows.
  rewrite last_snoc_row. split.
  - intros Hlen. destruct last_row as [|v0 [|v1 rest]]; simpl in *;
      try lia; reflexivity.
  - intros v0 v1 rest ->. simpl.
    destruct (to_kp_float v1) as [[kp|]|e]; reflexivity.
Qed.

Lemma tabular_reads_last_row_only_witness :
  kp_nowcast
    (Ok (JList (JList []
               :: ([JList [JStr "t0"; JStr "4"]] ++ [JList [JStr "t1"]])%list)))
  = Ok absent.
Proof.
  apply (proj1 (proj2 (tabular_reads_last_row_only []
           [JList [JStr "t0"; JStr "4"]] [JStr "t1"]))).
  simpl. lia.
Defined.

End Normaliser.

(** ** The best slot around the peak *)

Section BestSlot.
Import Calendar Meteo.
Variable data : hourly.
Variables peak_ts window_hours max_cloud : Z.

#[local] Abbreviation qual := (qualifies data peak_ts window_hours max_cloud).
#[local] Abbreviation step := (slot_step data peak_ts window_hours max_cloud).
#[local] Abbreviation loop := (slot_loop data peak_ts window_hours max_cloud).
#[local] Abbreviation best_of :=
  (best_of_first data peak_ts window_hours max_cloud).

Hypothesis same_length_clouds :
  List.length (time data) = List.length (cloud_cover data).
Hypothesis same_length_days :
  List.length (time data) = List.length (is_day data).

Lemma best_of_first_skip (k : nat) (best : option Z * option string) :
  best_of k best -> (forall c t, ~ qual k c t) ->
  best_of (S k) best.
Proof.
  intros [[-> Hnone]|(j & c & t & -> & Hj & Hq & Hmin)] Hk.
  - left. split; [done|]. intros i c t Hi.
    destruct (decide (i = k)) as [->|]; [apply Hk|apply Hnone; lia].
  - right. exists j, c, t. split; [done|]. split; [lia|]. split; [done|].
    intros i c' t' Hi Hq'.
    destruct (decide (i = k)) as [->|]; [by destruct (Hk c' t')|].
    apply (Hmin i c' t'); [lia|done].
Qed.

Lemma slot_step_invariant (k : nat) (tstr : string)
  (best : option Z * option string) :
  time data !! k = Some tstr -> best_of k best ->
  exists best', step best k tstr = Ok best' /\ best_of (S k) best'.
Proof.
  intros Hk Hbest. unfold slot_step.
  destruct (timestamp_of tstr) as [t|] eqn:Hts; cycle 1.
  { eexists; split; [done|]. apply best_of_first_skip; [done|].
    intros c t' (Ht & _ & _ & (e & He & _) & _). congruence. }
  unfold start_ts, end_ts, peak_local_ts.
  destruct (_ || _) eqn:Hwin.
  { eexists; split; [done|]. apply best_of_first_skip; [done|].
    intros c t' (Ht & _ & _ & (e & He & Hin) & _).
    assert (t' = tstr) as -> by congruence.
    assert (e = t) as -> by congruence.
    apply orb_true_iff in Hwin as [H|H]; lia. }
  apply orb_false_iff in Hwin as [Hlo Hhi].
  pose proof (lookup_lt_Some _ _ _ Hk) as Hlt.
  destruct (lookup_lt_is_Some_2 (is_day data) k) as [isd Hisd]; [lia|].
  destruct (lookup_lt_is_Some_2 (cloud_cover data) k) as [cloud Hcloud];
    [lia|].
  unfold index. rewrite Hisd, Hcloud. simpl.
  destruct (isd =? 0) eqn:Hd; simpl; cycle 1.
  { eexists; split; [done|]. apply best_of_first_skip; [done|].
    intros c t' (_ & _ & Hd' & _). rewrite Hisd in Hd'. simplify_eq. }
  apply Z.eqb_eq in Hd as ->.
  destruct (cloud >? max_cloud) eqn:Hmax.
  { eexists; split; [done|]. apply best_of_first_skip; [done|].
    intros c t' (_ & Hc & _ & _ & Hle). rewrite Hcloud in Hc.
    simplify_eq. lia. }
  assert (qual k cloud tstr) as Hq.
  { split; [done|]. split; [done|]. split; [done|]. split; [|lia].
    exists t. split; [done|lia]. }
  assert (forall c' t', qual k c' t' -> c' = cloud) as Hsame.
  { intros c' t' (_ & Hc & _). congruence. }
  destruct Hbest as [[-> Hnone]|(j & c & t0 & -> & Hj & Hqj & Hmin)]; simpl.
  - eexists; split; [done|]. right. exists k, cloud, tstr.
    split; [done|]. split; [lia|]. split; [done|].
    intros i c' t' Hi Hq'. destruct (decide (i = k)) as [->|].
    + rewrite (Hsame _ _ Hq'). lia.
    + destruct (Hnone i c' t'); [lia|done].
  - destruct (cloud <? c) eqn:Hlt'.
    + eexists; split; [done|]. right. exists k, cloud, tstr.
      split; [done|]. split; [lia|]. split; [done|].
      intros i c' t' Hi Hq'. destruct (decide (i = k)) as [->|].
      * rewrite (Hsame _ _ Hq'). lia.
      * destruct (Hmin i c' t') as [Hle _]; [lia|done|]. lia.
    + eexists; split; [done|]. right. exists j, c, t0.
      split; [done|]. split; [lia|]. split; [done|].
      intros i c' t' Hi Hq'. destruct (decide (i = k)) as [->|].
      * rewrite (Hsame _ _ Hq'). lia.
      * apply (Hmin i c' t'); [lia|done].
Qed.

Lemma slot_loop_invariant (times pre : list string)
  (best : option Z * option string) :
  time data = (pre ++ times)%list -> best_of (List.length pre) best ->
  exists best', loop (List.length pre) times best = Ok best'
                /\ best_of (List.length (time data)) best'.
Proof.
  revert pre best. induction times as [|tstr times IH]; intros pre best Heq Hb.
  - exists best. split; [done|]. by rewrite Heq, app_nil_r.
  - simpl.
    destruct (slot_step_invariant (List.length pre) tstr best)
      as (best1 & -> & Hb1); [|done|].
    { rewrite Heq. apply list_lookup_middle. done. }
    simpl.
    specialize (IH (pre ++ [tstr])%list best1).
    rewrite length_app in IH. simpl in IH.
    rewrite Nat.add_1_r in IH. apply IH; [|done].
    by rewrite <- app_assoc.
Qed.

(** The search returns, and what it holds at the end is the best of the
    whole series. *)
Lemma slot_search_result :
  exists best, loop 0%nat (time data) (None, None) = Ok best
               /\ best_of (List.length (time data)) best.
Proof.
  apply (slot_loop_invariant (time data) []); [done|].
  left. split; [done|]. intros; simpl in *; lia.
Qed.

End BestSlot.

Section BestSlotResult.
Import Calendar Meteo.
Variable data : hourly.
Variables peak_ts window_hours max_cloud : Z.

#[local] Abbreviation qual := (qualifies data peak_ts window_hours max_cloud).
#[local] Abbreviation best_slot :=
  (meteo_best_slot_around_peak data peak_ts window_hours max_cloud).

Lemma guard_true_iff :
  (List.length (time data) =? 0)%nat
  || negb (List.length (time data) =? List.length (cloud_cover data))%nat
  || negb (List.length (time data) =? List.length (is_day data))%nat = true
  <-> time data = []
      \/ List.length (time data) <> List.length (cloud_cover data)
      \/ List.length (time data) <> List.length (is_day data).
Proof.
  rewrite !orb_true_iff, !negb_true_iff, !Nat.eqb_neq, Nat.eqb_eq.
  rewrite length_zero_iff_nil. tauto.
Qed.

(** The answer of the search, case by case. *)
Lemma best_slot_cases :
  (time data = []
   \/ List.length (time data) <> List.length (cloud_cover data)
   \/ List.length (time data) <> List.length (is_day data)) /\
  best_slot = Ok (false, None, None)
  \/ (time data <> []
      /\ List.length (time data) = List.length (cloud_cover data)
      /\ List.length (time data) = List.length (is_day data))
     /\ ((best_slot = Ok (false, None, None) /\ forall i c t, ~ qual i c t)
         \/ exists j c t,
              best_slot = Ok (true, Some c, Some t) /\ qual j c t
              /\ forall i c' t', qual i c' t' ->
                   c <= c' /\ (c' = c -> (j <= i)%nat)).
Proof.
  unfold meteo_best_slot_around_peak.
  destruct (_ || _) eqn:Hguard.
  { left. split; [by apply guard_true_iff|done]. }
  right.
  assert (~ (time data = []
             \/ List.length (time data) <> List.length (cloud_cover data)
             \/ List.length (time data) <> List.length (is_day data)))
    as Hok.
  { rewrite <- guard_true_iff, Hguard. done. }
  assert (time data <> []
          /\ List.length (time data) = List.length (cloud_cover data)
          /\ List.length (time data) = List.length (is_day data))
    as (Hne & Hc & Hd).
  { split; [tauto|]. split.
    - destruct (decide (List.length (time data)
                        = List.length (cloud_cover data))); tauto.
    - destruct (decide (List.length (time data)
                        = List.length (is_day data))); tauto. }
  split; [done|].
  destruct (slot_search_result data peak_ts window_hours max_cloud Hc Hd)
    as (best & -> & Hbest). simpl.
  assert (forall i c t, qual i c t -> (i < List.length (time data))%nat)
    as Hrange.
  { intros i c t (Ht & _). by apply lookup_lt_Some in Ht. }
  destruct Hbest as [[-> Hnone]|(j & c & t & -> & Hj & Hq & Hmin)]; simpl.
  - left. split; [done|]. intros i c t Hq. eapply Hnone; [|done]. eauto.
  - right. exists j, c, t. split; [done|]. split; [done|].
    intros i c' t' Hq'. apply (Hmin i c' t'); eauto.
Qed.

Lemma qual_unique_at (i : nat) (c c' : Z) (t t' : string) :
  qual i c t -> qual i c' t' -> c = c' /\ t = t'.
Proof. intros (Ht & Hc & _) (Ht' & Hc' & _). split; congruence. Qed.

End BestSlotResult.

(** C4. Among the samples that qualify (the shifted epoch within the window
    around the peak, dark, cloud cover at most [max_cloud]) the search
    returns the one of lowest cloud cover, the first of them in series
    order; it returns [(False, None, None)] when the series is empty, when
    the three arrays differ in length, and when no sample qualifies. *)
Theorem best_slot_lowest_cloud_first (data : Meteo.hourly)
  (peak_ts window_hours max_cloud : Z) :
  let found := Meteo.meteo_best_slot_around_peak data peak_ts window_hours
                 max_cloud in
  let qual := qualifies data peak_ts window_hours max_cloud in
  (Meteo.time data = []
   \/ List.length (Meteo.time data) <> List.length (Meteo.cloud_cover data)
   \/ List.length (Meteo.time data) <> List.length (Meteo.is_day data) ->
   found = Ok (false, None, None))
  /\ (Meteo.time data <> [] ->
      List.length (Meteo.time data) = List.length (Meteo.cloud_cover data) ->
      List.length (Meteo.time data) = List.length (Meteo.is_day data) ->
      ((forall i c t, ~ qual i c t) -> found = Ok (false, None, None))
      /\ (forall i c t, qual i c t ->
            exists j best_cloud best_time,
              found = Ok (true, Some best_cloud, Some best_time)
              /\ qual j best_cloud best_time
              /\ forall k c' t', qual k c' t' ->
                   best_cloud <= c'
                   /\ (c' = best_cloud -> (j <= k)%nat))).
Proof.
  cbv zeta.
  destruct (best_slot_cases data peak_ts window_hours max_cloud)
    as [[Hbad Hr]|[(Hne & Hc & Hd) Hr]].
  - split; [done|]. intros Hne Hc Hd. tauto.
  - split; [tauto|]. intros _ _ _.
    destruct Hr as [[Hr Hnone]|(j & c & t & Hr & Hq & Hmin)].
    + split; [done|]. intros i c t Hq. by destruct (Hnone i c t).
    + split; [|intros _ _ _ _; by exists j, c, t].
      intros Hnone. by destruct (Hnone j c t).
Qed.

(** C10. When the search returns [found = True], the cloud value and the
    time text it returns are those of one sample of the input: the text is
    an element of the time array, the sample is dark, its cloud cover is the
    returned value and is at most [max_cloud], and its shifted epoch lies in
    the window around the peak. *)
Theorem best_slot_is_a_qualifying_sample (data : Meteo.hourly)
  (peak_ts window_hours max_cloud : Z)
  (cloud : option Z) (tstr : option string) :
  Meteo.meteo_best_slot_around_peak data peak_ts window_hours max_cloud
  = Ok (true, cloud, tstr) ->
  exists i c t e,
    cloud = Some c /\ tstr = Some t
    /\ t ∈ Meteo.time data
    /\ Meteo.time data !! i = Some t
    /\ Meteo.is_day data !! i = Some 0
    /\ Meteo.cloud_cover data !! i = Some c
    /\ c <= max_cloud
    /\ Calendar.timestamp_of t = Some e
    /\ peak_ts + Meteo.utc_offset_seconds data - window_hours * 3600
       <= e + Meteo.utc_offset_seconds data
       <= peak_ts + Meteo.utc_offset_seconds data + window_hours * 3600.
Proof.
  intros Hfound.
  destruct (best_slot_cases data peak_ts window_hours max_cloud)
    as [[_ Hr]|[_ [[Hr _]|(j & c & t & Hr & Hq & _)]]];
    rewrite Hr in Hfound; try discriminate.
  injection Hfound as <- <-.
  destruct Hq as (Ht & Hc & Hd & (e & He & Hwin) & Hmax).
  exists j, c, t, e. repeat (split; [done|]).
  split; [by eapply list_elem_of_lookup_2|].
  repeat (split; [done|]). done.
Qed.

Lemma best_slot_lowest_cloud_first_witness :
  exists j best_cloud best_time,
    Meteo.meteo_best_slot_around_peak four_dark_samples peak_2024_01_01_21h
      2 100 = Ok (true, Some best_cloud, Some best_time)
    /\ qualifies four_dark_samples peak_2024_01_01_21h 2 100 j best_cloud
         best_time
    /\ forall k c' t',
         qualifies four_dark_samples peak_2024_01_01_21h 2 100 k c' t' ->
         best_cloud <= c' /\ (c' = best_cloud -> (j <= k)%nat).
Proof.
  refine (proj2 (proj2 (best_slot_lowest_cloud_first four_dark_samples
                          peak_2024_01_01_21h 2 100) _ _ _)
                2%nat 20 "2024-01-01T22:00" _);
    try reflexivity; try discriminate.
  repeat (split; [reflexivity|]). split; [|lia].
  exists 1704146400. split; [reflexivity|].
  unfold peak_2024_01_01_21h; simpl; lia.
Defined.

Lemma best_slot_is_a_qualifying_sample_witness :
  exists i c t e,
    Some 20 = Some c /\ Some "2024-01-01T22:00" = Some t
    /\ t ∈ Meteo.time four_dark_samples
    /\ Meteo.time four_dark_samples !! i = Some t
    /\ Meteo.is_day four_dark_samples !! i = Some 0
    /\ Meteo.cloud_cover four_dark_samples !! i = Some c
    /\ c <= 100
    /\ Calendar.timestamp_of t = Some e
    /\ peak_2024_01_01_21h + Meteo.utc_offset_seconds four_dark_samples
       - 2 * 3600
       <= e + Meteo.utc_offset_seconds four_dark_samples
       <= peak_2024_01_01_21h + Meteo.utc_offset_seconds four_dark_samples
          + 2 * 3600.
Proof.
  apply (best_slot_is_a_qualifying_sample four_dark_samples
           peak_2024_01_01_21h 2 100).
  reflexivity.
Defined.

(** The scenarios of the search: the sample of cloud cover 20 wins; with a
    ceiling below every sample, or in daylight, nothing is found; a tie goes
    to the earlier sample. *)
Example best_slot_scenarios :
  Meteo.meteo_best_slot_around_peak four_dark_samples peak_2024_01_01_21h
    2 100 = Ok (true, Some 20, Some "2024-01-01T22:00")
  /\ Meteo.meteo_best_slot_around_peak four_dark_samples peak_2024_01_01_21h
       2 10 = Ok (false, None, None)
  /\ Meteo.meteo_best_slot_around_peak four_day_samples peak_2024_01_01_21h
       2 100 = Ok (false, None, None)
  /\ Meteo.meteo_best_slot_around_peak
       {| Meteo.time := Meteo.time four_dark_samples;
          Meteo.cloud_cover := [30; 30; 30; 30];
          Meteo.is_day := [1; 0; 0; 0];
          Meteo.utc_offset_seconds := 3600 |}
       peak_2024_01_01_21h 2 100 = Ok (true, Some 30, Some "2024-01-01T21:00")
  /\ Meteo.meteo_best_slot_around_peak
       {| Meteo.time := Meteo.time four_dark_samples;
          Meteo.cloud_cover := [30; 30; 30];
          Meteo.is_day := [0; 0; 0; 0];
          Meteo.utc_offset_seconds := 3600 |}
       peak_2024_01_01_21h 2 100 = Ok (false, None, None).
Proof. repeat apply conj; reflexivity. Qed.

(** ** The order of effects of a run *)

Section RunOrder.
Import Ledger Run.
Variable cfg : config.
Variable ext : feeds.
Variable now_ts : Z.

Lemma decide_forecast_pure (st : state) (kp_fc_max : float)
  (kp_fc_time : string) (kp_fc_dt : option Z) (w : world) :
  snd (decide_forecast cfg ext now_ts st kp_fc_max kp_fc_time kp_fc_dt w) = w.
Proof.
  unfold decide_forecast.
  destruct kp_fc_dt as [peak|]; [|done].
  destruct (PyFloat.ge _ _); [|done].
  unfold mbind, M_bind, lift.
  destruct (hourly_feed ext) as [data|e]; [|done].
  destruct (Meteo.meteo_best_slot_around_peak _ _ _ _)
    as [[[[] bc] bt]|e]; done.
Qed.

Lemma main_cases (w : world) :
  let w1 := {| files := files w; outbox := outbox w;
               ledger := Some (loaded_state cfg w) |} in
  (exists r, main cfg ext now_ts w = (r, w))
  \/ (exists r, main cfg ext now_ts w = (r, w1))
  \/ (exists msg w2 r,
        smtp ext = Ok tt
        /\ main cfg ext now_ts w = (r, w2)
        /\ outbox w2 = msg :: outbox w).
Proof.
  cbv zeta. unfold main.
  destruct (_ || _); [left; by eexists|].
  destruct (_ =? _)%nat eqn:Hrcpt; [left; by eexists|].
  generalize (Nowcast.kp_nowcast (nowcast ext)). intros nc.
  unfold mbind, M_bind, lift, load_state, read_state, mret, M_ret.
  fold (loaded_state cfg w).
  set (w1 := {| files := files w; outbox := outbox w;
                ledger := Some (loaded_state cfg w) |}).
  destruct (gate_now ext) as [[[is_night cloud] mt]|e];
    [|right; left; by eexists].
  destruct (kp_now ext) as [[kp kpt]|e]; [|right; left; by eexists].
  destruct (kp_forecast ext) as [[[fc fct] fcdt]|e];
    [|right; left; by eexists].
  destruct (nowcast_enabled cfg); cbn beta iota;
    [destruct nc as [[nkp nt]|e]; [|right; left; by eexists]|];
    simpl (default _ _);
    pose proof (decide_forecast_pure (loaded_state cfg w) fc fct fcdt w1)
      as Hp;
    (destruct (decide_forecast _ _ _ _ _ _ _ w1) as [rf wf]); simpl in Hp;
    subst wf;
    (destruct rf as [[[sf bc] bt]|e]; [|right; left; by eexists]);
    (destruct (negb _); [right; left; by eexists|]);
    (destruct (build_email_pro _ _ _ _ _ _ _ _ _ _ _ _ _ _ _) as [body|e];
       [|right; left; by eexists]);
    unfold send_gmail;
    (destruct (recipients cfg) as [|rc rcs]; [discriminate|]);
    (destruct (smtp ext) as [[]|e]; [|right; left; by eexists]);
    right; right; unfold when, update_state, save_state;
    destruct (decide_now _ _ _ _ _ _), sf; simpl;
    (destruct (tmp_open ext);
       [destruct (tmp_write ext);
          [destruct (PyText.is_empty (state_file cfg));
             [|destruct (tmp_replace ext)]|]|]);
    eexists _, _, _; done.
Qed.

End RunOrder.

(** A failed send ends the run with the exception, and the run leaves no
    file behind; a successful one marks the class NOW and writes the file. *)
Example scenario_send_fails :
  Run.main scenario_cfg (scenario_feeds (Raise OSError)) 1704146400
    fresh_world
  = (Raise OSError,
     {| Run.files := ∅; Run.outbox := [];
        Run.ledger := Some Ledger.empty_state |}).
Proof. reflexivity. Qed.

Example scenario_send_succeeds :
  let out := Run.main scenario_cfg (scenario_feeds (Ok tt)) 1704146400
               fresh_world in
  out.1 = Ok tt
  /\ Run.files out.2 !! "alert_state.json"
     = Some (Run.Ledger_file
               (Ledger.mark_sent Ledger.empty_state "NOW" 1704146400))
  /\ Run.files out.2 !! "alert_state.json.tmp" = None
  /\ List.length (Run.outbox out.2) = 1%nat.
Proof. vm_compute. repeat apply conj; reflexivity. Qed.

(** C9. In every run the ledger is touched only after the send has
    succeeded: when the send raises, the run ends with the files unchanged,
    the dict [state] as it was loaded and nothing delivered; and a run that
    leaves the ledger changed, in memory or on the disk, is one whose send
    succeeded and delivered its message. *)
Theorem ledger_written_only_after_send (cfg : Run.config) (ext : Run.feeds)
  (now_ts : Z) (w : Run.world) :
  let out := Run.main cfg ext now_ts w in
  (forall e, Run.smtp ext = Raise e ->
     ledger_untouched cfg w out.2 /\ Run.outbox out.2 = Run.outbox w)
  /\ (~ ledger_untouched cfg w out.2 ->
      Run.smtp ext = Ok tt
      /\ exists msg, Run.outbox out.2 = msg :: Run.outbox w).
Proof.
  cbv zeta. unfold ledger_untouched.
  destruct (main_cases cfg ext now_ts w)
    as [[r ->]|[[r ->]|(msg & w2 & r & Hs & -> & Hout)]]; simpl.
  - split; [intros; tauto|]. intros []. tauto.
  - split; [intros; tauto|]. intros []. tauto.
  - split; [intros e He; congruence|]. intros _.
    split; [done|]. by exists msg.
Qed.

Lemma ledger_written_only_after_send_witness :
  let out := Run.main scenario_cfg (scenario_feeds (Raise OSError))
               1704146400 fresh_world in
  ledger_untouched scenario_cfg fresh_world out.2
  /\ Run.outbox out.2 = Run.outbox fresh_world.
Proof.
  apply (proj1 (ledger_written_only_after_send scenario_cfg
                  (scenario_feeds (Raise OSError)) 1704146400 fresh_world)
           OSError).
  reflexivity.
Defined.

(** ** A run, told from its plan *)

Section RunFacts.
Import Ledger Run.
Variable cfg : config.
Variable ext : feeds.
Variable now_ts : Z.

Lemma decide_forecast_value (st : state) (kp_fc_max : float)
  (kp_fc_time : string) (kp_fc_dt : option Z) (w : world) :
  decide_forecast cfg ext now_ts st kp_fc_max kp_fc_time kp_fc_dt w
  = (forecast_decision cfg ext now_ts st kp_fc_max kp_fc_time kp_fc_dt, w).
Proof.
  unfold decide_forecast, forecast_decision.
  destruct kp_fc_dt as [peak|]; [|done].
  destruct (PyFloat.ge _ _); [|done].
  unfold mbind, M_bind, res_bind, lift.
  destruct (hourly_feed ext) as [data|e]; [|done].
  destruct (Meteo.meteo_best_slot_around_peak _ _ _ _)
    as [[[[] bc] bt]|e]; done.
Qed.

Lemma build_email_pro_letter (sn sf : bool) (kp : float) (kpt : string)
  (nkp : option float) (nt : option text) (night : bool) (cloud : Z)
  (fc : float) (fct : string) (fcdt bc : option Z) (bt : option string)
  (body : letter) :
  build_email_pro cfg ext sn sf kp kpt nkp nt night cloud fc fct fcdt bc bt
  = Ok body ->
  body = {| e_send_now := sn; e_send_forecast := sf; e_kp_current := kp;
            e_nowcast_kp := nkp; e_nowcast_time := nt; e_kp_fc_max := fc;
            e_kp_fc_time := fct; e_best_cloud := bc;
            e_best_time_local := bt;
            e_priority :=
              Helpers.email_priority (max_cloud cfg) sn sf night cloud bc
                bt nkp |}.
Proof.
  unfold build_email_pro, mbind, res_bind.
  destruct (utc_to_local_str _ (local_kp_now ext)); [|done].
  destruct (match _ with Some _ => _ | None => Ok _ end); [|done].
  destruct (utc_to_local_str _ (local_peak ext)); [|done].
  by intros [= <-].
Qed.

Lemma main_run_outcome (w : world) :
  main cfg ext now_ts w = run_outcome cfg ext now_ts w.
Proof.
  unfold main, run_outcome, credentials_missing.
  destruct (_ || _); [done|].
  destruct (_ =? _)%nat eqn:Hrcpt; [done|]. simpl orb. cbv iota.
  unfold run_plan.
  generalize (Nowcast.kp_nowcast (nowcast ext)). intros nc.
  unfold mbind, M_bind, res_bind, lift, load_state, read_state, mret, M_ret,
    res_ret.
  fold (loaded_state cfg w).
  destruct (gate_now ext) as [[[is_night cloud] mt]|e]; [|done].
  destruct (kp_now ext) as [[kp kpt]|e]; [|done].
  destruct (kp_forecast ext) as [[[fc fct] fcdt]|e]; [|done].
  cbn beta iota zeta.
  destruct (nowcast_enabled cfg); cbn beta iota;
    [destruct nc as [[nkp nt]|e]; [|done]|];
    simpl (default _ _);
    rewrite decide_forecast_value;
    (destruct (forecast_decision _ _ _ _ _ _ _) as [[[sf bc] bt]|e]; [|done]);
    (destruct (negb _); [done|]);
    (destruct (build_email_pro _ _ _ _ _ _ _ _ _ _ _ _ _ _ _) as [body|e]
       eqn:Hb; [apply build_email_pro_letter in Hb; subst body|done]);
    unfold send_gmail;
    (destruct (recipients cfg) as [|rc rcs]; [discriminate|]);
    (destruct (smtp ext) as [[]|e]; [|done]);
    unfold when, update_state, save_state, save_outcome, record_sent,
      saved_files;
    destruct (decide_now _ _ _ _ _ _), sf; simpl;
    (destruct (tmp_open ext);
       [destruct (tmp_write ext);
          [destruct (PyText.is_empty (state_file cfg));
             [|destruct (tmp_replace ext)]|]|]);
    reflexivity.
Qed.

End RunFacts.

Section RunProperties.
Import Ledger Run.
Variable cfg : config.
Variable ext : feeds.
Variable now_ts : Z.

#[local] Abbreviation run := (main cfg ext now_ts).

Lemma run_plan_message (st : state) (msg : email) :
  run_plan cfg ext now_ts st = Ok (Some msg) ->
  exists night cloud mt kp kpt fc fct fcdt,
    gate_now ext = Ok (night, cloud, mt)
    /\ kp_now ext = Ok (kp, kpt)
    /\ kp_forecast ext = Ok (fc, fct, fcdt)
    /\ e_send_now msg = decide_now cfg now_ts st kp night cloud
    /\ forecast_decision cfg ext now_ts st fc fct fcdt
       = Ok (e_send_forecast msg, e_best_cloud msg, e_best_time_local msg)
    /\ e_kp_current msg = kp /\ e_kp_fc_max msg = fc
    /\ e_kp_fc_time msg = fct.
Proof.
  unfold run_plan, mbind, res_bind. intros Hp.
  destruct (gate_now ext) as [[[night cloud] mt]|]; [|done].
  destruct (kp_now ext) as [[kp kpt]|]; [|done].
  destruct (kp_forecast ext) as [[[fc fct] fcdt]|]; [|done].
  destruct (if nowcast_enabled cfg then _ else _) as [[nkp nt]|]; [|done].
  destruct (forecast_decision _ _ _ _ _ _ _) as [[[sf bc] bt]|] eqn:Hfd;
    [|done].
  destruct (negb _); [done|].
  destruct (build_email_pro _ _ _ _ _ _ _ _ _ _ _ _ _ _ _) as [body|]
    eqn:Hb; [|done].
  apply build_email_pro_letter in Hb. subst body.
  injection Hp as <-. simpl.
  exists night, cloud, mt, kp, kpt, fc, fct, fcdt.
  repeat (split; [done|]). done.
Qed.

Lemma run_plan_fires (st : state) (msg : email) :
  run_plan cfg ext now_ts st = Ok (Some msg) ->
  e_to msg = recipients cfg
  /\ (e_send_now msg = true \/ e_send_forecast msg = true).
Proof.
  unfold run_plan, mbind, res_bind.
  destruct (gate_now ext) as [[[? ?] ?]|]; [|done].
  destruct (kp_now ext) as [[? ?]|]; [|done].
  destruct (kp_forecast ext) as [[[? ?] ?]|]; [|done].
  destruct (if nowcast_enabled cfg then _ else _) as [[? ?]|]; [|done].
  destruct (forecast_decision _ _ _ _ _ _ _) as [[[? ?] ?]|]; [|done].
  destruct (negb (_ || _)) eqn:Hneg; [done|].
  destruct (build_email_pro _ _ _ _ _ _ _ _ _ _ _ _ _ _ _) as [body|]
    eqn:Hb; [|done].
  apply build_email_pro_letter in Hb. subst body.
  intros [= <-]. simpl. split; [done|].
  by apply negb_false_iff, orb_true_iff in Hneg.
Qed.

Lemma not_own_tail {A} (x : A) (l : list A) : l <> x :: l.
Proof.
  intros H. apply (f_equal List.length) in H. simpl in H. lia.
Qed.

(** The run that delivered [msg]. *)
Lemma run_sent (w : world) (msg : email) :
  outbox (run w).2 = msg :: outbox w ->
  let st := loaded_state cfg w in
  let saved := save_outcome cfg ext (files w) (record_sent now_ts msg st) in
  run_plan cfg ext now_ts st = Ok (Some msg)
  /\ smtp ext = Ok tt
  /\ run w = (saved.1,
              {| files := saved.2;
                 outbox := msg :: outbox w;
                 ledger := Some (record_sent now_ts msg st) |}).
Proof.
  rewrite main_run_outcome. unfold run_outcome.
  destruct (credentials_missing cfg);
    [intros H; by apply not_own_tail in H|].
  destruct (run_plan _ _ _ _) as [[msg'|]|e'];
    [|intros H; by apply not_own_tail in H..].
  destruct (smtp ext) as [[]|e']; [|intros H; by apply not_own_tail in H].
  simpl. intros [= ->]. done.
Qed.


Lemma tmp_name_differs (path : string) : path +:+ ".tmp" <> path.
Proof.
  induction path as [|c p IH]; [done|]. intros [= H]. by apply IH.
Qed.

Lemma saved_files_lookup (fs : gmap string file) (st : state) :
  saved_files cfg fs st !! state_file cfg = Some (Ledger_file st)
  /\ saved_files cfg fs st !! (state_file cfg +:+ ".tmp") = None
  /\ forall p, p <> state_file cfg -> p <> state_file cfg +:+ ".tmp" ->
       saved_files cfg fs st !! p = fs !! p.
Proof.
  unfold saved_files. pose proof (tmp_name_differs (state_file cfg)) as Hne.
  split; [|split].
  - rewrite lookup_delete_ne by done. apply lookup_insert_eq.
  - apply lookup_delete_eq.
  - intros p H1 H2. rewrite lookup_delete_ne by done.
    by rewrite !lookup_insert_ne.
Qed.



(** A save that returns has written the ledger file. *)
Lemma save_outcome_returns (fs : gmap string file) (st : state) :
  (save_outcome cfg ext fs st).1 = Ok tt ->
  (save_outcome cfg ext fs st).2 = saved_files cfg fs st
  /\ state_file cfg <> EmptyString.
Proof.
  unfold save_outcome.
  destruct (tmp_open ext); [|done].
  destruct (tmp_write ext); [|done].
  destruct (state_file cfg) eqn:Hpath; [done|]. simpl.
  by destruct (tmp_replace ext).
Qed.


(** X2. A run sends at most one message, to the configured recipients, and
    only when some class fires; without a message the files are unchanged. *)
Theorem run_sends_at_most_one (w : world) :
  (outbox (run w).2 = outbox w /\ files (run w).2 = files w)
  \/ (exists msg,
        outbox (run w).2 = msg :: outbox w
        /\ e_to msg = recipients cfg
        /\ recipients cfg <> []
        /\ (e_send_now msg = true \/ e_send_forecast msg = true)).
Proof.
  rewrite main_run_outcome. unfold run_outcome, credentials_missing.
  destruct (_ || _ || _) eqn:Hc; [by left|].
  apply orb_false_iff in Hc as [_ Hr].
  destruct (run_plan _ _ _ _) as [[msg|]|e'] eqn:Hp; [|by left..].
  destruct (smtp ext) as [[]|e']; [|by left].
  right. exists msg. split; [done|].
  destruct (run_plan_fires _ _ Hp) as [Hto Hfires].
  split; [done|]. split; [|done].
  intros Hnil. rewrite Hnil in Hr. done.
Qed.

(** X3. A delivered message carries the NOW flag only if the weather gate
    answered night with a cloud cover at most [MAX_CLOUDCOVER], the current Kp
    is at least [NOW_MIN_KP], and [can_send_now] held for the class NOW on the
    ledger that was loaded. *)
Theorem now_alert_sound (w : world) (msg : email) :
  outbox (run w).2 = msg :: outbox w -> e_send_now msg = true ->
  exists cloud mt kpt,
    gate_now ext = Ok (true, cloud, mt)
    /\ cloud <= max_cloud cfg
    /\ kp_now ext = Ok (e_kp_current msg, kpt)
    /\ PyFloat.ge (e_kp_current msg) (now_min_kp cfg) = true
    /\ can_send_now (loaded_state cfg w) "NOW" (now_cd cfg) now_ts = true.
Proof.
  intros Hsent Hnow. destruct (run_sent w msg Hsent) as (Hp & _ & _).
  destruct (run_plan_message _ _ Hp)
    as (night & cloud & mt & kp & kpt & fc & fct & fcdt
        & Hg & Hk & _ & Hn & _ & <- & _).
  rewrite Hnow in Hn. symmetry in Hn. unfold decide_now in Hn.
  destruct (PyFloat.ge _ _) eqn:Hge; [|done].
  destruct (night && _) eqn:Hgate; [|done].
  apply andb_true_iff in Hgate as [-> Hc%Z.leb_le].
  by exists cloud, mt, kpt.
Qed.

(** X4. FORECAST fires only with a peak above the threshold, a slot that
    qualifies in the hourly series, and the cooldown elapsed. *)
Theorem forecast_alert_sound (w : world) (msg : email) :
  outbox (run w).2 = msg :: outbox w -> e_send_forecast msg = true ->
  exists peak_ts data i c t,
    kp_forecast ext = Ok (e_kp_fc_max msg, e_kp_fc_time msg, Some peak_ts)
    /\ PyFloat.ge (e_kp_fc_max msg) (forecast_min_kp cfg) = true
    /\ hourly_feed ext = Ok data
    /\ e_best_cloud msg = Some c /\ e_best_time_local msg = Some t
    /\ qualifies data peak_ts (peak_window_h cfg) (max_cloud cfg) i c t
    /\ can_send_now (loaded_state cfg w) "FORECAST" (forecast_cd cfg) now_ts
       = true.
Proof.
  intros Hsent Hfc. destruct (run_sent w msg Hsent) as (Hp & _ & _).
  destruct (run_plan_message _ _ Hp)
    as (night & cloud & mt & kp & kpt & fc & fct & fcdt
        & _ & _ & Hf & _ & Hd & _ & <- & <-).
  rewrite Hfc in Hd. unfold forecast_decision in Hd.
  destruct fcdt as [peak|]; [|done].
  destruct (PyFloat.ge _ _) eqn:Hge; [|done].
  unfold mbind, res_bind in Hd.
  destruct (hourly_feed ext) as [data|]; [|done].
  destruct (best_slot_cases data peak (peak_window_h cfg) (max_cloud cfg))
    as [[_ Hr]|[_ [[Hr _]|(j & c & t & Hr & Hq & _)]]];
    rewrite Hr in Hd; try discriminate.
  injection Hd as Hs <- <-.
  exists peak, data, j, c, t. repeat (split; [done|]).
  unfold should_send_forecast in Hs. by destruct (negb _) in Hs.
Qed.

Lemma record_sent_last_sent (msg : email) (st : state) :
  last_sent_of (record_sent now_ts msg st) "NOW"
  = (if e_send_now msg then now_ts else last_sent_of st "NOW")
  /\ last_sent_of (record_sent now_ts msg st) "FORECAST"
     = (if e_send_forecast msg then now_ts else last_sent_of st "FORECAST")
  /\ stored_peak (record_sent now_ts msg st)
     = (if e_send_forecast msg then Some (e_kp_fc_time msg)
        else stored_peak st).
Proof.
  unfold record_sent, stored_peak, last_sent_of.
  destruct (e_send_now msg), (e_send_forecast msg); simpl;
    rewrite ?lookup_insert_eq, ?lookup_insert_ne by done;
    rewrite ?lookup_insert_eq; try done.
  all: destruct (last_sent st) as [m|]; simpl; rewrite ?lookup_empty; done.
Qed.

(** X5. After a run that delivered a message and returned, the ledger file
    holds exactly the ledger in memory, no temporary file is left, the other
    files are untouched, and the ledger has [now_ts] for each class that
    fired, the old entry for a class that did not, and the forecast peak
    identity only when FORECAST fired. *)
Theorem successful_run_records_fired_classes (w : world) (msg : email) :
  (run w).1 = Ok tt ->
  outbox (run w).2 = msg :: outbox w ->
  let st := loaded_state cfg w in
  exists st',
    ledger (run w).2 = Some st'
    /\ files (run w).2 !! state_file cfg = Some (Ledger_file st')
    /\ files (run w).2 !! (state_file cfg +:+ ".tmp") = None
    /\ (forall p, p <> state_file cfg -> p <> state_file cfg +:+ ".tmp" ->
          files (run w).2 !! p = files w !! p)
    /\ last_sent_of st' "NOW"
       = (if e_send_now msg then now_ts else last_sent_of st "NOW")
    /\ last_sent_of st' "FORECAST"
       = (if e_send_forecast msg then now_ts else last_sent_of st "FORECAST")
    /\ stored_peak st'
       = (if e_send_forecast msg then Some (e_kp_fc_time msg)
          else stored_peak st).
Proof.
  intros Hok Hsent st. destruct (run_sent w msg Hsent) as (_ & _ & Hrun).
  rewrite Hrun in Hok |- *. simpl in Hok |- *.
  apply save_outcome_returns in Hok as [-> _].
  exists (record_sent now_ts msg st).
  destruct (saved_files_lookup (files w) (record_sent now_ts msg st))
    as (H1 & H2 & H3).
  destruct (record_sent_last_sent msg st) as (H4 & H5 & H6).
  repeat (split; [done|]). done.
Qed.

End RunProperties.

Section Cooldown.
Import Ledger Run.
Variable cfg : config.

(** X6. If a run delivered a message with the flag of a class set and
    returned, so that [save_state] has written the ledger, a later run on the
    resulting files, whatever the feeds say, delivers a message with that
    flag again only if at least the cooldown of the class has passed between
    the two runs. *)
Theorem fired_class_waits_for_cooldown (ext ext2 : feeds) (now_ts now2 : Z)
  (w : world) (msg msg2 : email) :
  let w1 := (main cfg ext now_ts w).2 in
  (main cfg ext now_ts w).1 = Ok tt ->
  outbox w1 = msg :: outbox w ->
  outbox (main cfg ext2 now2 w1).2 = msg2 :: outbox w1 ->
  (e_send_now msg = true -> e_send_now msg2 = true ->
   now2 - now_ts >= now_cd cfg)
  /\ (e_send_forecast msg = true -> e_send_forecast msg2 = true ->
      now2 - now_ts >= forecast_cd cfg).
Proof.
  intros w1 Hok Hsent Hsent2.
  destruct (run_sent cfg ext now_ts w msg Hsent) as (_ & _ & Hrun).
  destruct (run_sent cfg ext2 now2 w1 msg2 Hsent2) as (Hp2 & _ & _).
  assert (loaded_state cfg w1
          = record_sent now_ts msg (loaded_state cfg w)) as Hl.
  { unfold w1, loaded_state at 1. rewrite Hrun in Hok |- *.
    simpl in Hok |- *.
    apply save_outcome_returns in Hok as [-> _].
    by destruct (saved_files_lookup cfg (files w)
                   (record_sent now_ts msg (loaded_state cfg w)))
      as (-> & _). }
  rewrite Hl in Hp2.
  destruct (run_plan_message _ _ _ _ _ Hp2)
    as (night & cloud & mt & kp & kpt & fc & fct & fcdt
        & _ & _ & _ & Hn & Hd & _).
  destruct (record_sent_last_sent now_ts msg (loaded_state cfg w))
    as (H4 & H5 & _).
  split.
  - intros Hm Hm2. rewrite Hm2 in Hn. symmetry in Hn.
    unfold decide_now in Hn.
    destruct (PyFloat.ge _ _); [|done]. destruct (_ && _); [|done].
    apply can_send_now_spec in Hn. rewrite H4, Hm in Hn. done.
  - intros Hm Hm2. rewrite Hm2 in Hd. unfold forecast_decision in Hd.
    destruct fcdt as [peak|]; [|done].
    destruct (PyFloat.ge _ _); [|done].
    unfold mbind, res_bind in Hd.
    destruct (hourly_feed ext2) as [data|]; [|done].
    destruct (Meteo.meteo_best_slot_around_peak _ _ _ _)
      as [[[[] bc] bt]|]; [|done..].
    injection Hd as Hs _ _. unfold should_send_forecast in Hs.
    assert (can_send_now
              (record_sent now_ts msg (loaded_state cfg w)) "FORECAST"
              (forecast_cd cfg) now2 = true) as Hc
      by (by destruct (negb _) in Hs).
    apply can_send_now_spec in Hc. rewrite H5, Hm in Hc. done.
Qed.

(** The plan with another nowcast: nothing to send in the one is nothing to
    send in the other, and two messages differ by the nowcast alone. *)
Lemma run_plan_nowcast (ext : feeds) (now_ts : Z) (st : state)
  (answer : res json) (enabled : bool) :
  let p := run_plan cfg ext now_ts st in
  let p' := run_plan (with_nowcast_enabled cfg enabled)
              (with_nowcast ext answer) now_ts st in
  (p = Ok None <-> p' = Ok None)
  /\ forall msg msg', p = Ok (Some msg) -> p' = Ok (Some msg') ->
       without_nowcast msg' = without_nowcast msg.
Proof.
  cbv zeta. unfold run_plan. simpl. unfold mbind, res_bind.
  destruct (gate_now ext) as [[[night cloud] mt]|]; [|done].
  destruct (kp_now ext) as [[kp kpt]|]; [|done].
  destruct (kp_forecast ext) as [[[fc fct] fcdt]|]; [|done].
  assert (forall (b : bool) (a : res json), exists nkp nt,
            (if b then Nowcast.kp_nowcast a else Ok (None, None))
            = Ok (nkp, nt)) as Hnc.
  { intros [] a; [|by eexists _, _].
    destruct (kp_nowcast_total a) as [[nkp nt] ->]. by eexists _, _. }
  destruct (Hnc enabled answer) as (nkp' & nt' & ->).
  destruct (Hnc (nowcast_enabled cfg) (nowcast ext)) as (nkp & nt & ->).
  change (forecast_decision (with_nowcast_enabled cfg enabled)
            (with_nowcast ext answer) now_ts st fc fct fcdt)
    with (forecast_decision cfg ext now_ts st fc fct fcdt).
  change (decide_now (with_nowcast_enabled cfg enabled) now_ts st kp night
            cloud)
    with (decide_now cfg now_ts st kp night cloud).
  destruct (forecast_decision _ _ _ _ _ _ _) as [[[sf bc] bt]|]; [|done].
  destruct (negb _); [done|].
  destruct (build_email_pro cfg ext _ _ _ _ _ _ _ _ _ _ _ _ _) as [body|]
    eqn:Hb;
    destruct (build_email_pro _ (with_nowcast ext answer)
                _ _ _ _ _ _ _ _ _ _ _ _ _) as [body'|] eqn:Hb';
    try done.
  apply build_email_pro_letter in Hb, Hb'. subst body body'.
  split; [done|]. by intros msg msg' [= <-] [= <-].
Qed.

(** X7. The nowcast cannot change which classes fire. Of two runs that differ
    only in the answer of the nowcast feed or in the switch
    [NOWCAST_ENABLED], one returns with nothing to send exactly when the
    other does; and when both deliver a message, the two messages are the
    same but for the nowcast value, the nowcast time and the priority, and
    the runs end the same way with the same files and the same ledger. *)
Theorem nowcast_changes_no_decision (ext : feeds) (now_ts : Z) (w : world)
  (answer : res json) (enabled : bool) :
  let out := main cfg ext now_ts w in
  let out' := main (with_nowcast_enabled cfg enabled)
                (with_nowcast ext answer) now_ts w in
  ((out.1 = Ok tt /\ outbox out.2 = outbox w)
   <-> (out'.1 = Ok tt /\ outbox out'.2 = outbox w))
  /\ forall msg msg',
       outbox out.2 = msg :: outbox w -> outbox out'.2 = msg' :: outbox w ->
       without_nowcast msg' = without_nowcast msg
       /\ out'.1 = out.1
       /\ files out'.2 = files out.2
       /\ ledger out'.2 = ledger out.2.
Proof.
  cbv zeta. split.
  - rewrite !main_run_outcome. unfold run_outcome.
    change (credentials_missing (with_nowcast_enabled cfg enabled))
      with (credentials_missing cfg).
    destruct (credentials_missing cfg); [done|].
    change (loaded_state (with_nowcast_enabled cfg enabled) w)
      with (loaded_state cfg w).
    destruct (run_plan_nowcast ext now_ts (loaded_state cfg w) answer
                enabled) as [Hnone _].
    change (smtp (with_nowcast ext answer)) with (smtp ext).
    destruct (run_plan cfg ext _ _) as [[msg|]|e];
      destruct (run_plan _ (with_nowcast ext answer) _ _) as [[msg'|]|e'];
      try done;
      try (destruct Hnone as [H1 H2];
           first [specialize (H1 eq_refl) | specialize (H2 eq_refl)];
           discriminate);
      destruct (smtp ext) as [[]|]; simpl;
      split; intros [H1 H2]; try done;
      symmetry in H2; by apply not_own_tail in H2.
  - intros msg msg' Hsent Hsent'.
    destruct (run_sent _ _ _ _ _ Hsent) as (Hp & _ & ->).
    destruct (run_sent _ _ _ _ _ Hsent') as (Hp' & _ & ->).
    change (loaded_state (with_nowcast_enabled cfg enabled) w)
      with (loaded_state cfg w) in *.
    destruct (run_plan_nowcast ext now_ts (loaded_state cfg w) answer
                enabled) as [_ Hmsg].
    specialize (Hmsg msg msg' Hp Hp'). split; [done|].
    assert (record_sent now_ts msg' (loaded_state cfg w)
            = record_sent now_ts msg (loaded_state cfg w)) as ->.
    { change (record_sent now_ts msg' (loaded_state cfg w))
        with (record_sent now_ts (without_nowcast msg')
                (loaded_state cfg w)).
      by rewrite Hmsg. }
    done.
Qed.

End Cooldown.

(** ** The ledger operations together *)

Section LedgerFrame.
Import Ledger.

(** The two timers are independent, and the peak identity is no timer. *)
Theorem timers_are_independent (st : state) (key other : string)
  (ts cd now : Z) (peak : string) :
  (key <> other ->
   can_send_now (mark_sent st key ts) other cd now
   = can_send_now st other cd now)
  /\ can_send_now (mark_forecast_peak st peak) other cd now
     = can_send_now st other cd now
  /\ stored_peak (mark_sent st key ts) = stored_peak st.
Proof.
  split; [|split].
  - intros Hne. unfold can_send_now, mark_sent. simpl.
    rewrite lookup_insert_ne by done. done.
  - reflexivity.
  - reflexivity.
Qed.

(** The last mark of a class wins, and marks of two classes commute. *)
Theorem mark_sent_last_wins (st : state) (key other : string) (t1 t2 : Z) :
  mark_sent (mark_sent st key t1) key t2 = mark_sent st key t2
  /\ (key <> other ->
      mark_sent (mark_sent st key t1) other t2
      = mark_sent (mark_sent st other t2) key t1).
Proof.
  unfold mark_sent. simpl. split.
  - by rewrite insert_insert_eq.
  - intros Hne. f_equal. f_equal. by apply insert_insert_ne.
Qed.

End LedgerFrame.

(** ** The ledger file *)

Section LedgerFile.
Import Ledger Run.

(** X8. [save_state] replaces the ledger file in one step. When it returns,
    [load_state] reads back the saved ledger and the temporary file is gone;
    when it raises, the file at [path] is as it was; in both cases no file
    other than [path] and the temporary one is touched, nor is the dict in
    memory. *)
Theorem save_then_load (ext : feeds) (path : string) (w : world) :
  let out := save_state ext path w in
  (out.1 = Ok tt ->
   ledger (load_state path out.2).2 = Some (default empty_state (ledger w))
   /\ files out.2 !! (path +:+ ".tmp") = None)
  /\ (forall e, out.1 = Raise e -> files out.2 !! path = files w !! path)
  /\ (forall p, p <> path -> p <> path +:+ ".tmp" ->
        files out.2 !! p = files w !! p)
  /\ outbox out.2 = outbox w
  /\ ledger out.2 = ledger w.
Proof.
  cbv zeta. unfold save_state, load_state.
  pose proof (tmp_name_differs path) as Hne.
  destruct (tmp_open ext); [|by destruct w].
  destruct (tmp_write ext); simpl.
  - destruct (if PyText.is_empty path then _ else _); simpl.
    + split; [intros _; split|split; [done|split; [|done]]].
      * rewrite lookup_delete_ne by done. by rewrite lookup_insert_eq.
      * apply lookup_delete_eq.
      * intros p H1 H2. rewrite lookup_delete_ne by done.
        by rewrite !lookup_insert_ne.
    + split; [done|]. split; [intros _ _; by rewrite lookup_insert_ne|].
      split; [|done]. intros p H1 H2. by rewrite lookup_insert_ne.
  - split; [done|]. split; [intros _ _; by rewrite lookup_insert_ne|].
    split; [|done]. intros p H1 H2. by rewrite lookup_insert_ne.
Qed.

(** A missing or unreadable file loads as the empty ledger, on which
    every class may fire as soon as its cooldown is at most the epoch. *)
Theorem missing_ledger_lets_fire (path key : string) (w : world)
  (cd now : Z) :
  (files w !! path = None \/ files w !! path = Some Corrupt_file) ->
  ledger (load_state path w).2 = Some empty_state
  /\ (can_send_now empty_state key cd now = true <-> cd <= now).
Proof.
  intros Hfile. split.
  - unfold load_state. simpl. by destruct Hfile as [-> | ->].
  - rewrite can_send_now_spec. unfold last_sent_of. simpl. lia.
Qed.

End LedgerFile.

(** ** The nowcast reading *)

Section NowcastShapes.
Import Nowcast.

Lemma kp_nowcast_of_value (data : json) :
  kp_nowcast (Ok data)
  = try_except (kp_nowcast_body data) (fun _ => Ok absent).
Proof. reflexivity. Qed.

Lemma pick_record_paired (d : gmap string json) (r : option float * option text) :
  pick_record d = Ok r ->
  r = absent \/ exists kp t, r = (Some kp, Some t).
Proof.
  unfold pick_record.
  destruct (first_present kp_keys d) as [v|]; [|intros [= <-]; by left].
  destruct (first_present time_keys d) as [t|]; [|intros [= <-]; by left].
  unfold mbind, res_bind.
  destruct (to_kp_float v) as [[kp|]|e]; [| |done]; intros [= <-];
    [right; by eexists _, _|by left].
Qed.

Lemma pick_from_list_of_dicts_paired (items : list json)
  (r : option float * option text) :
  pick_from_list_of_dicts items = Ok r ->
  r = absent \/ exists kp t, r = (Some kp, Some t).
Proof.
  unfold pick_from_list_of_dicts.
  destruct (last items) as [[| | | | | |d]|];
    try (intros [= <-]; by left).
  apply pick_record_paired.
Qed.

Lemma pick_from_rows_paired (rows : list json)
  (r : option float * option text) :
  pick_from_rows rows = Ok r ->
  r = absent \/ exists kp t, r = (Some kp, Some t).
Proof.
  unfold pick_from_rows.
  destruct (last rows) as [row|]; [|intros [= <-]; by left].
  destruct (negb (truthy row)); [intros [= <-]; by left|].
  unfold mbind, res_bind.
  destruct (py_len row) as [n|]; [|done].
  destruct (n <? 2)%nat; [intros [= <-]; by left|].
  destruct (py_getitem row 1) as [v1|]; [|done].
  destruct (to_kp_float v1) as [[kp|]|]; [| |done].
  - destruct (py_getitem row 0) as [v0|]; [|done].
    intros [= <-]. right. by eexists _, _.
  - intros [= <-]. by left.
Qed.

(** X9. [kp_nowcast] returns a value and a time together or neither: its
    result is [(None, None)] or a float with a time text, never one without
    the other. *)
Theorem nowcast_value_and_time_together (fetched : res json)
  (kp : option float) (t : option text) :
  kp_nowcast fetched = Ok (kp, t) ->
  (kp = None /\ t = None) \/ (exists v s, kp = Some v /\ t = Some s).
Proof.
  unfold kp_nowcast, try_except. intros H.
  assert ((kp, t) = absent \/ exists v s, (kp, t) = (Some v, Some s)) as [E|E].
  { destruct (_ ≫= _) as [r|e] eqn:Hb; [|left; unfold absent in *; congruence].
    injection H as ->.
    destruct fetched as [data|]; [|done]. simpl in Hb.
    unfold kp_nowcast_body in Hb.
    destruct data as [| | | | |l|d]; try (left; unfold absent in *; congruence).
    - destruct l as [|[| | | | |hd|d] rows];
        try (left; unfold absent in *; congruence).
      + by apply pick_from_list_of_dicts_paired in Hb.
      + by apply pick_from_rows_paired in Hb.
      + by apply pick_from_list_of_dicts_paired in Hb.
    - destruct (first_container container_keys d).
      + by apply pick_from_list_of_dicts_paired in Hb.
      + by apply pick_record_paired in Hb. }
  - injection E as -> ->. by left.
  - destruct E as (v & s & [= -> ->]). right. by eexists _, _.
Qed.

(** X10. [to_kp_float] raises only [OverflowError], and only on an integer
    whose nearest float is infinite; on every other JSON value, strings
    included, it returns. *)
Theorem to_kp_float_raises_only_on_overflow (v : json) (e : exn) :
  to_kp_float v = Raise e ->
  e = OverflowError
  /\ exists z sign, v = JInt z /\ PyFloat.of_Z z = S754_infinity sign.
Proof.
  unfold to_kp_float. destruct v as [|b|z|f|s|l|d]; try done.
  - destruct b; done.
  - unfold mbind, res_bind, float_of_int.
    destruct (PyFloat.of_Z z) as [| sign | |] eqn:Hz; try done.
    intros [= <-]. split; [done|]. by exists z, sign.
  - destruct (PyText.re_search _ _) as [g|]; [|done].
    destruct (PyText.float_of_str g); done.
Qed.

(** X11. On a list of records, [kp_nowcast] reads only the last record: the
    records before it have no effect on the result. *)
Theorem record_list_reads_last_record (first last_record : gmap string json)
  (between : list json) :
  kp_nowcast (Ok (JList (JDict first :: (between ++ [JDict last_record])%list)))
  = kp_nowcast (Ok (JList [JDict last_record])).
Proof.
  unfold kp_nowcast. simpl. unfold pick_from_list_of_dicts.
  change (JDict first :: (between ++ [JDict last_record])%list)
    with ((JDict first :: between) ++ [JDict last_record])%list.
  by rewrite last_snoc.
Qed.

(** X12. A dict that wraps a list of records under ["data"] reads as the
    list itself, and a dict without a container reads as the list of that
    one record. *)
Theorem wrapper_reads_as_record_list (d : gmap string json)
  (items : list json) :
  (d !! "data" = Some (JList items) ->
   (items = [] \/ exists r rest, items = JDict r :: rest) ->
   kp_nowcast (Ok (JDict d)) = kp_nowcast (Ok (JList items)))
  /\ (first_container container_keys d = None ->
      kp_nowcast (Ok (JDict d)) = kp_nowcast (Ok (JList [JDict d]))).
Proof.
  split.
  - intros Hd Hshape. unfold kp_nowcast. simpl.
    unfold container_keys, first_container. rewrite Hd.
    destruct Hshape as [->|(r & rest & ->)]; reflexivity.
  - intros Hc. rewrite !kp_nowcast_of_value.
    unfold kp_nowcast_body at 1. rewrite Hc. reflexivity.
Qed.

Lemma first_present_head (k : string) (keys : list string)
  (d : gmap string json) (v : json) :
  d !! k = Some v -> v <> JNull -> first_present (k :: keys) d = Some v.
Proof. intros Hk Hv. simpl. rewrite Hk. by destruct v. Qed.

(** X13. A record with ["kp"] and ["time_tag"] reads as the tabular row of the
    same time and value, whatever else the record holds. *)
Theorem record_reads_as_tabular_row (d : gmap string json) (v t : json)
  (header rest : list json) :
  d !! "kp" = Some v -> d !! "time_tag" = Some t ->
  v <> JNull -> t <> JNull ->
  kp_nowcast (Ok (JList [JDict d]))
  = kp_nowcast (Ok (JList [JList header; JList (t :: v :: rest)])).
Proof.
  intros Hv Ht Hvn Htn. rewrite !kp_nowcast_of_value.
  change (kp_nowcast_body (JList [JDict d])) with (pick_record d).
  change (kp_nowcast_body (JList [JList header; JList (t :: v :: rest)]))
    with (kp_f ← to_kp_float v;
          match kp_f with
          | None => Ok absent
          | Some f => Ok (Some f, Some (py_str t))
          end).
  unfold pick_record, kp_keys, time_keys.
  rewrite (first_present_head _ _ _ _ Hv Hvn).
  rewrite (first_present_head _ _ _ _ Ht Htn).
  reflexivity.
Qed.

Lemma first_present_skip (k : string) (keys : list string)
  (d : gmap string json) :
  d !! k = Some JNull \/ d !! k = None ->
  first_present (k :: keys) d = first_present keys d.
Proof. intros [Hk|Hk]; simpl; by rewrite Hk. Qed.

(** A null under a key lets the next synonym speak. *)
Theorem null_value_falls_through (d : gmap string json) (v t : json) :
  first_container container_keys d = None ->
  d !! "kp" = Some JNull -> d !! "estimated_kp" = Some v -> v <> JNull ->
  d !! "time_tag" = Some t -> t <> JNull ->
  kp_nowcast (Ok (JDict d))
  = match to_kp_float v with
    | Ok (Some kp) => Ok (Some kp, Some (py_str t))
    | _ => Ok absent
    end.
Proof.
  intros Hc Hn Hv Hvn Ht Htn.
  rewrite kp_nowcast_of_value.
  unfold kp_nowcast_body. rewrite Hc.
  unfold pick_record, kp_keys, time_keys.
  rewrite (first_present_head _ _ _ _ Ht Htn).
  rewrite first_present_skip by auto.
  rewrite (first_present_head _ _ _ _ Hv Hvn).
  unfold mbind, res_bind.
  destruct (to_kp_float v) as [[kp|]|]; reflexivity.
Qed.

End NowcastShapes.

(** ** More on the best slot *)

Section BestSlotMore.
Import Calendar Meteo.
Variable data : hourly.
Variables peak_ts window_hours : Z.

(** X14. On a series whose hourly arrays hold integers and strings, as
    [hourly] types them (a JSON null in them, on which [int] raises, is
    outside this domain), the search of the best slot raises nothing: the
    length guard makes every index valid. It returns either
    [(False, None, None)] or [True] with both a cloud cover and a time. *)
Theorem best_slot_always_returns (max_cloud : Z) :
  meteo_best_slot_around_peak data peak_ts window_hours max_cloud
  = Ok (false, None, None)
  \/ exists c t,
       meteo_best_slot_around_peak data peak_ts window_hours max_cloud
       = Ok (true, Some c, Some t).
Proof.
  destruct (best_slot_cases data peak_ts window_hours max_cloud)
    as [[_ Hr]|[_ [[Hr _]|(j & c & t & Hr & _)]]]; eauto.
Qed.

Lemma qualifies_ceiling (m m' : Z) (i : nat) (c : Z) (t : string) :
  qualifies data peak_ts window_hours m i c t -> c <= m' ->
  qualifies data peak_ts window_hours m' i c t.
Proof.
  intros (H1 & H2 & H3 & H4 & _) Hc. repeat (split; [done|]). done.
Qed.

(** X15. A slot found under a cloud ceiling is exactly the slot found under
    any higher ceiling: raising [max_cloud] never changes a positive answer. *)
Theorem higher_ceiling_same_slot (m m' : Z) (c : Z) (t : string) :
  m <= m' ->
  meteo_best_slot_around_peak data peak_ts window_hours m
  = Ok (true, Some c, Some t) ->
  meteo_best_slot_around_peak data peak_ts window_hours m'
  = Ok (true, Some c, Some t).
Proof.
  intros Hm Hfound.
  destruct (best_slot_cases data peak_ts window_hours m)
    as [[_ Hr]|[Hlen [[Hr _]|(j & c0 & t0 & Hr & Hq & Hmin)]]];
    rewrite Hr in Hfound; try discriminate.
  injection Hfound as -> ->.
  assert (c <= m) as Hcm by (by destruct Hq as (_ & _ & _ & _ & ?)).
  destruct (best_slot_cases data peak_ts window_hours m')
    as [[Hbad _]|[_ [[_ Hnone]|(j' & c' & t' & Hr' & Hq' & Hmin')]]].
  - exfalso. tauto.
  - exfalso. apply (Hnone j c t). apply (qualifies_ceiling m); [done|lia].
  - rewrite Hr'.
    destruct (Hmin' j c t) as [Hle Htie];
      [apply (qualifies_ceiling m); [done|lia]|].
    destruct (Hmin j' c' t') as [Hle' Htie'];
      [apply (qualifies_ceiling m'); [done|lia]|].
    assert (c' = c) as -> by lia.
    assert (j' = j) as -> by (specialize (Htie eq_refl);
                              specialize (Htie' eq_refl); lia).
    destruct (qual_unique_at _ _ _ _ _ _ _ _ _ Hq'
                (qualifies_ceiling m m' j c t Hq ltac:(lia))) as [_ ->].
    done.
Qed.

End BestSlotMore.

(** ** The gate of the current weather *)

Section GateNow.
Import Helpers Ledger Run.

(** X16. With a ceiling below 100, the NOW decision taken on the result of
    [meteo_gate_now] is positive only if the weather answer has a current
    block with [is_day = 0] and a cloud cover at most the ceiling: missing
    keys default to day and to 100 percent cloud. *)
Theorem now_needs_complete_weather (cfg : config) (now_ts : Z) (st : state)
  (kp : float) (current : option current_block) :
  max_cloud cfg < 100 ->
  decide_now cfg now_ts st kp (meteo_gate_now current).1.1
    (meteo_gate_now current).1.2 = true ->
  exists blk c,
    current = Some blk /\ c_is_day blk = Some 0
    /\ c_cloud_cover blk = Some c /\ c <= max_cloud cfg.
Proof.
  intros Hmax. unfold decide_now, meteo_gate_now. simpl.
  destruct (PyFloat.ge _ _); [|done].
  destruct (_ && _) eqn:Hg; [|done]. intros _.
  apply andb_true_iff in Hg as [Hd%Z.eqb_eq Hc%Z.leb_le].
  destruct current as [[d c t]|]; simpl in *; [|done].
  destruct d as [d|]; [|done]. destruct c as [c|]; [|lia].
  subst d. by exists {| c_is_day := Some 0; c_cloud_cover := Some c;
                       c_time := t |}, c.
Qed.

End GateNow.

(** ** The priority of the message that a run sends *)

Section SentPriority.
Import Helpers Ledger Run.
Variable cfg : config.
Variable ext : feeds.
Variable now_ts : Z.

(** X17. The priority that [build_email_pro] computes for a message that
    [main] delivers is never the low one: it is high whenever NOW fires, and
    high or medium otherwise. *)
Theorem sent_message_is_never_low (w : world) (msg : email)
  (night : bool) (cloud : Z) (mt : option string) :
  outbox (main cfg ext now_ts w).2 = msg :: outbox w ->
  gate_now ext = Ok (night, cloud, mt) ->
  let p := email_priority (max_cloud cfg) (e_send_now msg)
             (e_send_forecast msg) night cloud (e_best_cloud msg)
             (e_best_time_local msg) (e_nowcast_kp msg) in
  (e_send_now msg = true -> p = HIGH)
  /\ (p = HIGH \/ p = MEDIUM).
Proof.
  intros Hsent Hgate.
  destruct (run_sent cfg ext now_ts w msg Hsent) as (Hp & _ & _).
  destruct (run_plan_message _ _ _ _ _ Hp)
    as (night' & cloud' & mt' & kp & kpt & fc & fct & fcdt
        & Hg & _ & _ & Hn & Hd & _).
  rewrite Hgate in Hg. injection Hg as <- <- <-.
  pose proof (run_plan_fires _ _ _ _ _ Hp) as [_ Hsome].
  assert (e_send_now msg = true -> now_gate_ok night cloud (max_cloud cfg)
                                   = true) as Hgate_ok.
  { intros Hs. rewrite Hs in Hn. symmetry in Hn. unfold decide_now in Hn.
    destruct (PyFloat.ge _ _); [|done]. unfold now_gate_ok.
    by destruct (night && _). }
  assert (e_send_forecast msg = true ->
          best_ok (e_best_time_local msg) (e_best_cloud msg) (max_cloud cfg)
          = true) as Hbest.
  { intros Hs. rewrite Hs in Hd. unfold forecast_decision in Hd.
    destruct fcdt as [peak|]; [|done].
    destruct (PyFloat.ge _ _); [|done].
    unfold mbind, res_bind in Hd.
    destruct (hourly_feed ext) as [data|]; [|done].
    destruct (best_slot_cases data peak (peak_window_h cfg) (max_cloud cfg))
      as [[_ Hr]|[_ [[Hr _]|(j & c & t & Hr & Hq & _)]]];
      rewrite Hr in Hd; try discriminate.
    injection Hd as _ <- <-. simpl. apply Z.leb_le.
    by destruct Hq as (_ & _ & _ & _ & ?). }
  cbv zeta. unfold email_priority, pick_priority_emoji.
  split.
  - intros Hs. rewrite Hs, (Hgate_ok Hs).
    by destruct (match e_nowcast_kp msg with Some _ => _ | None => _ end).
  - destruct (_ && now_gate_ok _ _ _); [by left|].
    destruct (e_send_now msg) eqn:Hs.
    + rewrite (Hgate_ok eq_refl). by left.
    + destruct Hsome as [|Hf]; [done|]. rewrite Hf, (Hbest Hf). by right.
Qed.

End SentPriority.

(** ** The label of the forecast maximum *)

Section ForecastLabel.
Import PyFloat Helpers.

Lemma not_above_zero_below (z : Z) (kp : float) :
  0 < z -> ge kp (of_Z 0) = false -> ge kp (of_Z z) = false.
Proof.
  intros Hz Hneg. destruct z as [|p|p]; try lia.
  unfold ge, SFleb, of_Z, binary_normalize, binary_round in *.
  destruct (shl_align _ _ _) as [mz ez].
  unfold binary_round_aux.
  destruct (shr_fexp _ _ _ _ _) as [mrs' e'].
  destruct (shr_fexp _ _ _ _ _) as [mrs'' e''].
  destruct (shr_m mrs'') as [|q|q];
    destruct kp as [[]|[]| |[] m e]; try discriminate Hneg; try reflexivity;
    destruct (_ <=? _); reflexivity.
Qed.

(** X18. The clamp of [build_email_pro], [kp_label(kp_fc_max if kp_fc_max >= 0
    else 0.0)], gives the same label as [kp_label(kp_fc_max)] for every float,
    NaN included. *)
Theorem forecast_label_is_kp_label (kp_fc_max : float) :
  forecast_label kp_fc_max = kp_label kp_fc_max.
Proof.
  unfold forecast_label.
  destruct (ge kp_fc_max (of_Z 0)) eqn:H0; [done|].
  unfold kp_label.
  rewrite !(not_above_zero_below _ kp_fc_max) by (lia || assumption).
  reflexivity.
Qed.

End ForecastLabel.

(** ** Recipients *)

Section Recipients.
Import PyText Helpers.

Lemma split_pieces_have_no_sep (sep : ascii) (s piece : string) :
  piece ∈ split sep s -> occurs sep piece = false.
Proof.
  revert piece. induction s as [|c t IH]; intros piece; simpl.
  - intros ->%list_elem_of_singleton. done.
  - destruct (Ascii.eqb c sep) eqn:Hc.
    + intros [->|H]%elem_of_cons; [done|by apply IH].
    + destruct (split sep t) as [|h r] eqn:Hs.
      * intros ->%list_elem_of_singleton. simpl. by rewrite Hc.
      * intros [->|H]%elem_of_cons.
        -- simpl. rewrite Hc. apply IH. left.
        -- apply IH. by right.
Qed.

Lemma occurs_lstrip (c : ascii) (s : string) :
  occurs c (lstrip s) = true -> occurs c s = true.
Proof.
  induction s as [|x t IH]; simpl; [done|].
  destruct (is_space x); [|done]. intros H. rewrite (IH H). apply orb_true_r.
Qed.

Lemma occurs_rstrip (c : ascii) (s : string) :
  occurs c (rstrip s) = true -> occurs c s = true.
Proof.
  induction s as [|x t IH]; simpl; [done|].
  destruct (is_space x && is_empty (rstrip t)); [done|]. simpl.
  intros [->|H]%orb_true_iff; [done|]. rewrite (IH H). apply orb_true_r.
Qed.

Lemma occurs_strip_false (c : ascii) (s : string) :
  occurs c s = false -> occurs c (strip s) = false.
Proof.
  intros H. apply not_true_is_false. intros Hs.
  apply occurs_rstrip, occurs_lstrip in Hs. congruence.
Qed.

Lemma rstrip_idem (s : string) : rstrip (rstrip s) = rstrip s.
Proof.
  induction s as [|x t IH]; simpl; [done|].
  destruct (is_space x && is_empty (rstrip t)) eqn:H; [done|].
  simpl. by rewrite IH, H.
Qed.

Lemma lstrip_head (s : string) :
  match lstrip s with
  | String x _ => is_space x = false
  | EmptyString => True
  end.
Proof.
  induction s as [|x t IH]; simpl; [done|].
  destruct (is_space x) eqn:H; [done|]. simpl. done.
Qed.

Lemma rstrip_keeps_head (s : string) :
  match s with String x _ => is_space x = false | EmptyString => True end ->
  match rstrip s with
  | String x _ => is_space x = false
  | EmptyString => True
  end.
Proof.
  destruct s as [|x t]; simpl; [done|]. intros H. rewrite H. simpl. done.
Qed.

Lemma lstrip_clean (s : string) :
  match s with String x _ => is_space x = false | EmptyString => True end ->
  lstrip s = s.
Proof. destruct s as [|x t]; simpl; [done|]. by intros ->. Qed.

Lemma strip_idem (s : string) : strip (strip s) = strip s.
Proof.
  unfold strip.
  rewrite (lstrip_clean (rstrip (lstrip s)))
    by apply rstrip_keeps_head, lstrip_head.
  apply rstrip_idem.
Qed.

(** X19. Every address that [parse_recipients] returns is non-empty, has no
    leading or trailing whitespace (stripping it changes nothing) and contains
    no comma. *)
Theorem parse_recipients_clean (s : option string) (p : string) :
  p ∈ parse_recipients s -> clean_address p.
Proof.
  unfold parse_recipients. rewrite list_elem_of_In, in_flat_map.
  intros (piece & Hin%list_elem_of_In & Hp).
  destruct (is_empty (strip piece)) eqn:He; [done|].
  destruct Hp as [<-|[]].
  split; [|split].
  - intros H. by rewrite H in He.
  - apply strip_idem.
  - apply occurs_strip_false. by eapply split_pieces_have_no_sep.
Qed.

Lemma split_plain (sep : ascii) (x : string) :
  occurs sep x = false -> split sep x = [x].
Proof.
  induction x as [|c t IH]; simpl; [done|].
  intros [Hc Ht]%orb_false_iff. rewrite Hc, (IH Ht). done.
Qed.

Lemma split_at_sep (sep : ascii) (x y : string) :
  occurs sep x = false ->
  split sep (x +:+ String sep y) = x :: split sep y.
Proof.
  induction x as [|c t IH]; simpl.
  - intros _. rewrite ?string_app_nil. simpl. by rewrite Ascii.eqb_refl.
  - intros [Hc Ht]%orb_false_iff. rewrite ?string_app_cons. simpl.
    rewrite Hc, (IH Ht). done.
Qed.

Lemma split_join (x : string) (l : list string) :
  occurs "," x = false -> Forall (fun p => occurs "," p = false) l ->
  split "," (join ", " (x :: l)) = x :: (String " " <$> l).
Proof.
  intros Hx Hl. revert x Hx. induction Hl as [|y l Hy Hl IH]; intros x Hx.
  - simpl. by apply split_plain.
  - change (join ", " (x :: y :: l))
      with (x +:+ String "," (String " " (join ", " (y :: l)))).
    rewrite split_at_sep by done.
    change (split "," (String " " (join ", " (y :: l))))
      with (match split "," (join ", " (y :: l)) with
            | piece :: pieces => String " " piece :: pieces
            | [] => [String " " EmptyString]
            end).
    by rewrite (IH y Hy).
Qed.

Lemma keep_clean (p : string) :
  clean_address p ->
  (if is_empty (strip p) then [] else [strip p]) = [p]
  /\ (if is_empty (strip (String " " p)) then []
      else [strip (String " " p)]) = [p].
Proof.
  intros (Hne & Hs & _).
  assert (strip (String " " p) = p) as -> by (by rewrite <- Hs at 2).
  rewrite Hs. by destruct p.
Qed.

Lemma keep_spaced (l : list string) :
  Forall clean_address l ->
  flat_map (fun p => if is_empty (strip p) then [] else [strip p])
           (String " " <$> l) = l.
Proof.
  induction 1 as [|y l Hy Hl IH]; [done|].
  rewrite fmap_cons. cbn [flat_map].
  rewrite (proj2 (keep_clean y Hy)), IH. done.
Qed.

(** X20. The header [To] that [send_gmail] writes, the addresses joined by a
    comma and a space, is read back by [parse_recipients] as the same list,
    for addresses that are non-empty, stripped and free of commas. *)
Theorem recipients_round_trip (addrs : list string) :
  Forall clean_address addrs ->
  parse_recipients (Some (to_header addrs)) = addrs.
Proof.
  intros Hclean. unfold parse_recipients, to_header.
  destruct addrs as [|x l]; [reflexivity|].
  apply Forall_cons in Hclean as [Hx Hl].
  rewrite split_join; [|by destruct Hx as (_ & _ & ?)|]; cycle 1.
  { eapply Forall_impl; [exact Hl|]. by intros p (_ & _ & ?). }
  cbn [flat_map].
  rewrite (proj1 (keep_clean x Hx)), (keep_spaced l Hl). done.
Qed.

End Recipients.

(** ** Escaping *)

Section Escaping.
Import Helpers.

Lemma string_app_assoc' (a b c : string) : (a +:+ b) +:+ c = a +:+ (b +:+ c).
Proof.
  induction a as [|x a IH]; rewrite ?string_app_nil, ?string_app_cons;
    [done|]. by rewrite IH.
Qed.

Lemma replace_char_app (a : ascii) (b x y : string) :
  replace_char a b (x +:+ y) = replace_char a b x +:+ replace_char a b y.
Proof.
  induction x as [|c t IH]; rewrite ?string_app_nil, ?string_app_cons;
    simpl; [done|].
  destruct (Ascii.eqb c a).
  - by rewrite IH, string_app_assoc'.
  - by rewrite IH, ?string_app_cons.
Qed.

(** [html_escape] works character by character. *)
Lemma html_escape_cons (c : ascii) (t : string) :
  html_escape (Some (String c t)) = escape_char c +:+ html_escape (Some t).
Proof.
  unfold html_escape, escape_char.
  change (String c t) with (String c EmptyString +:+ t).
  rewrite !replace_char_app.
  destruct (Ascii.eqb_spec c "&") as [->|Hamp]; [reflexivity|].
  destruct (Ascii.eqb_spec c "<") as [->|Hlt]; [reflexivity|].
  destruct (Ascii.eqb_spec c ">") as [->|Hgt]; [reflexivity|].
  simpl.
  rewrite !(proj2 (Ascii.eqb_neq _ _)) by done. simpl.
  rewrite !(proj2 (Ascii.eqb_neq _ _)) by done. simpl.
  rewrite !(proj2 (Ascii.eqb_neq _ _)) by done. done.
Qed.

Lemma occurs_app (c : ascii) (x y : string) :
  occurs c (x +:+ y) = occurs c x || occurs c y.
Proof.
  induction x as [|a x IH]; rewrite ?string_app_nil, ?string_app_cons;
    simpl; [done|]. by rewrite IH, orb_assoc.
Qed.

(** X21. The text that [html_escape] returns contains neither the character
    [<] nor the character [>]. *)
Theorem html_escape_no_angle_bracket (s : option string) :
  occurs "<" (html_escape s) = false /\ occurs ">" (html_escape s) = false.
Proof.
  destruct s as [s|]; [|done].
  induction s as [|c t [IH1 IH2]]; [done|].
  rewrite html_escape_cons, !occurs_app, IH1, IH2, !orb_false_r.
  unfold escape_char.
  destruct (Ascii.eqb_spec c "&") as [->|Hamp]; [done|].
  destruct (Ascii.eqb_spec c "<") as [->|Hlt]; [done|].
  destruct (Ascii.eqb_spec c ">") as [->|Hgt]; [done|].
  simpl. rewrite !orb_false_r. split; by apply Ascii.eqb_neq.
Qed.

(** X22. [html_escape] of a concatenation is the concatenation of the escaped
    parts, and a text without ampersand and angle brackets is returned
    unchanged. *)
Theorem html_escape_piecewise (a b : string) :
  html_escape (Some (a +:+ b))
  = html_escape (Some a) +:+ html_escape (Some b)
  /\ (occurs "&" a = false -> occurs "<" a = false -> occurs ">" a = false ->
      html_escape (Some a) = a).
Proof.
  split.
  - induction a as [|c t IH]; rewrite ?string_app_nil, ?string_app_cons;
      [done|].
    by rewrite !html_escape_cons, IH, string_app_assoc'.
  - induction a as [|c t IH]; [done|]. simpl.
    intros [H1 H1']%orb_false_iff [H2 H2']%orb_false_iff
           [H3 H3']%orb_false_iff.
    rewrite html_escape_cons, (IH H1' H2' H3').
    unfold escape_char. by rewrite H1, H2, H3.
Qed.

(** X23. [html_escape] is injective: two texts with the same escaped form are
    the same text, because the ampersand is escaped first and keeps the three
    entities apart. *)
Theorem html_escape_injective (a b : string) :
  html_escape (Some a) = html_escape (Some b) -> a = b.
Proof.
  revert b. induction a as [|c t IH]; intros [|c' t'].
  - done.
  - rewrite html_escape_cons. unfold escape_char.
    destruct (Ascii.eqb c' "&"); [done|].
    destruct (Ascii.eqb c' "<"); [done|].
    destruct (Ascii.eqb c' ">"); done.
  - rewrite html_escape_cons. unfold escape_char.
    destruct (Ascii.eqb c "&"); [done|].
    destruct (Ascii.eqb c "<"); [done|].
    destruct (Ascii.eqb c ">"); done.
  - rewrite !html_escape_cons. unfold escape_char.
    destruct (Ascii.eqb_spec c "&") as [->|Hamp];
      destruct (Ascii.eqb_spec c' "&") as [->|Hamp'];
      [intros [= H]; f_equal; by apply IH| | |].
    + destruct (Ascii.eqb_spec c' "<") as [->|Hlt']; [done|].
      destruct (Ascii.eqb_spec c' ">") as [->|Hgt']; [done|].
      intros [= H _]. by destruct Hamp'.
    + destruct (Ascii.eqb_spec c "<") as [->|Hlt]; [done|].
      destruct (Ascii.eqb_spec c ">") as [->|Hgt]; [done|].
      intros [= H _]. by destruct Hamp.
    + destruct (Ascii.eqb_spec c "<") as [->|Hlt];
        destruct (Ascii.eqb_spec c' "<") as [->|Hlt'];
        [intros [= H]; f_equal; by apply IH| | |].
      * destruct (Ascii.eqb_spec c' ">") as [->|Hgt']; [done|].
        intros [= H _]. by destruct Hamp'.
      * destruct (Ascii.eqb_spec c ">") as [->|Hgt]; [done|].
        intros [= H _]. by destruct Hamp.
      * destruct (Ascii.eqb_spec c ">") as [->|Hgt];
          destruct (Ascii.eqb_spec c' ">") as [->|Hgt'];
          [intros [= H]; f_equal; by apply IH| | |].
        -- intros [= H _]. by destruct Hamp'.
        -- intros [= H _]. by destruct Hamp.
        -- intros [= -> H]. f_equal. by apply IH.
Qed.

End Escaping.

(** ** The properties at work on the scenarios *)

Example scenario_messages :
  Run.outbox world_after_now = [now_message]
  /\ Run.outbox
       (Run.main scenario_cfg (forecast_feeds (Ok tt)) 1704100000
          fresh_world).2 = [forecast_message].
Proof. split; reflexivity. Qed.

(** A send that succeeds before a save that fails: the message is out, the
    run raises, the ledger file is not written and the temporary file
    stays; on the empty path the replace fails whatever the disk answers. *)
Example scenario_save_fails :
  let out := Run.main scenario_cfg
               (with_disk (scenario_feeds (Ok tt)) (Ok tt) (Ok tt)
                  (Raise OSError)) 1704146400 fresh_world in
  out.1 = Raise OSError
  /\ Run.outbox out.2 = [now_message]
  /\ Run.files out.2 !! "alert_state.json" = None
  /\ Run.files out.2 !! "alert_state.json.tmp"
     = Some (Run.Ledger_file
               (Ledger.mark_sent Ledger.empty_state "NOW" 1704146400)).
Proof. vm_compute. repeat apply conj; reflexivity. Qed.

Example scenario_empty_path :
  let out := Run.save_state (scenario_feeds (Ok tt)) "" fresh_world in
  out.1 = Raise OSError
  /\ Run.files out.2 !! ".tmp" = Some (Run.Ledger_file Ledger.empty_state)
  /\ Run.files out.2 !! "" = None.
Proof. vm_compute. repeat apply conj; reflexivity. Qed.

(** A conversion to local time that raises ends the run before the send. *)
Example scenario_render_fails :
  Run.main (with_nowcast_enabled scenario_cfg true)
    (with_nowcast (forecast_feeds (Ok tt)) (Ok nowcast_answer)) 1704100000
    fresh_world
  = (Raise OSError,
     {| Run.files := ∅; Run.outbox := [];
        Run.ledger := Some Ledger.empty_state |}).
Proof. vm_compute. reflexivity. Qed.


Lemma nowcast_changes_no_decision_witness :
  let out := Run.main scenario_cfg (scenario_feeds (Ok tt)) 1704146400
               fresh_world in
  let out' := Run.main (with_nowcast_enabled scenario_cfg true)
                (with_nowcast (scenario_feeds (Ok tt)) (Ok nowcast_answer))
                1704146400 fresh_world in
  without_nowcast nowcast_message = without_nowcast now_message
  /\ out'.1 = out.1
  /\ Run.files out'.2 = Run.files out.2
  /\ Run.ledger out'.2 = Run.ledger out.2.
Proof.
  apply (proj2 (nowcast_changes_no_decision scenario_cfg
                  (scenario_feeds (Ok tt)) 1704146400 fresh_world
                  (Ok nowcast_answer) true) now_message nowcast_message);
    reflexivity.
Defined.

Lemma save_then_load_witness :
  let out := Run.save_state (scenario_feeds (Ok tt)) "alert_state.json"
               world_after_now in
  Run.ledger (Run.load_state "alert_state.json" out.2).2
  = Some (default Ledger.empty_state (Run.ledger world_after_now))
  /\ Run.files out.2 !! ("alert_state.json" +:+ ".tmp") = None.
Proof.
  apply (proj1 (save_then_load (scenario_feeds (Ok tt)) "alert_state.json"
                  world_after_now)).
  reflexivity.
Defined.

Lemma now_alert_sound_witness :
  exists cloud mt kpt,
    Run.gate_now (scenario_feeds (Ok tt)) = Ok (true, cloud, mt)
    /\ cloud <= Run.max_cloud scenario_cfg
    /\ Run.kp_now (scenario_feeds (Ok tt))
       = Ok (Run.e_kp_current now_message, kpt)
    /\ PyFloat.ge (Run.e_kp_current now_message)
         (Run.now_min_kp scenario_cfg) = true
    /\ Ledger.can_send_now (loaded_state scenario_cfg fresh_world) "NOW"
         (Run.now_cd scenario_cfg) 1704146400 = true.
Proof.
  apply (now_alert_sound scenario_cfg (scenario_feeds (Ok tt)) 1704146400
           fresh_world now_message); reflexivity.
Defined.

Lemma forecast_alert_sound_witness :
  exists peak_ts data i c t,
    Run.kp_forecast (forecast_feeds (Ok tt))
    = Ok (Run.e_kp_fc_max forecast_message,
          Run.e_kp_fc_time forecast_message, Some peak_ts)
    /\ PyFloat.ge (Run.e_kp_fc_max forecast_message)
         (Run.forecast_min_kp scenario_cfg) = true
    /\ Run.hourly_feed (forecast_feeds (Ok tt)) = Ok data
    /\ Run.e_best_cloud forecast_message = Some c
    /\ Run.e_best_time_local forecast_message = Some t
    /\ qualifies data peak_ts (Run.peak_window_h scenario_cfg)
         (Run.max_cloud scenario_cfg) i c t
    /\ Ledger.can_send_now (loaded_state scenario_cfg fresh_world)
         "FORECAST" (Run.forecast_cd scenario_cfg) 1704100000 = true.
Proof.
  apply (forecast_alert_sound scenario_cfg (forecast_feeds (Ok tt))
           1704100000 fresh_world forecast_message); reflexivity.
Defined.

Lemma successful_run_records_fired_classes_witness :
  exists st',
    Run.ledger world_after_now = Some st'
    /\ Run.files world_after_now !! Run.state_file scenario_cfg
       = Some (Run.Ledger_file st')
    /\ Run.files world_after_now !! (Run.state_file scenario_cfg +:+ ".tmp")
       = None
    /\ (forall p, p <> Run.state_file scenario_cfg ->
          p <> Run.state_file scenario_cfg +:+ ".tmp" ->
          Run.files world_after_now !! p = Run.files fresh_world !! p)
    /\ last_sent_of st' "NOW"
       = (if Run.e_send_now now_message then 1704146400
          else last_sent_of (loaded_state scenario_cfg fresh_world) "NOW")
    /\ last_sent_of st' "FORECAST"
       = (if Run.e_send_forecast now_message then 1704146400
          else last_sent_of (loaded_state scenario_cfg fresh_world)
                 "FORECAST")
    /\ stored_peak st'
       = (if Run.e_send_forecast now_message
          then Some (Run.e_kp_fc_time now_message)
          else stored_peak (loaded_state scenario_cfg fresh_world)).
Proof.
  apply (successful_run_records_fired_classes scenario_cfg
           (scenario_feeds (Ok tt)) 1704146400 fresh_world now_message);
    reflexivity.
Defined.

Lemma fired_class_waits_for_cooldown_witness :
  (Run.e_send_now now_message = true -> Run.e_send_now now_message = true ->
   1704153600 - 1704146400 >= Run.now_cd scenario_cfg)
  /\ (Run.e_send_forecast now_message = true ->
      Run.e_send_forecast now_message = true ->
      1704153600 - 1704146400 >= Run.forecast_cd scenario_cfg).
Proof.
  apply (fired_class_waits_for_cooldown scenario_cfg (scenario_feeds (Ok tt))
           (scenario_feeds (Ok tt)) 1704146400 1704153600 fresh_world
           now_message now_message); reflexivity.
Defined.

Lemma sent_message_is_never_low_witness :
  (Run.e_send_now forecast_message = true ->
   Helpers.email_priority (Run.max_cloud scenario_cfg)
     (Run.e_send_now forecast_message) (Run.e_send_forecast forecast_message)
     false 90 (Run.e_best_cloud forecast_message)
     (Run.e_best_time_local forecast_message)
     (Run.e_nowcast_kp forecast_message) = HIGH)
  /\ (Helpers.email_priority (Run.max_cloud scenario_cfg)
        (Run.e_send_now forecast_message)
        (Run.e_send_forecast forecast_message)
        false 90 (Run.e_best_cloud forecast_message)
        (Run.e_best_time_local forecast_message)
        (Run.e_nowcast_kp forecast_message) = HIGH
      \/ Helpers.email_priority (Run.max_cloud scenario_cfg)
           (Run.e_send_now forecast_message)
           (Run.e_send_forecast forecast_message)
           false 90 (Run.e_best_cloud forecast_message)
           (Run.e_best_time_local forecast_message)
           (Run.e_nowcast_kp forecast_message) = MEDIUM).
Proof.
  apply (sent_message_is_never_low scenario_cfg (forecast_feeds (Ok tt))
           1704100000 fresh_world forecast_message false 90
           (Some "2024-01-01T12:00")); reflexivity.
Defined.

Lemma timers_are_independent_witness :
  Ledger.can_send_now (Ledger.mark_sent Ledger.empty_state "NOW" 100)
    "FORECAST" 21600 30000
  = Ledger.can_send_now Ledger.empty_state "FORECAST" 21600 30000.
Proof.
  apply (proj1 (timers_are_independent Ledger.empty_state "NOW" "FORECAST"
                  100 21600 30000 "")).
  discriminate.
Defined.

Lemma mark_sent_last_wins_witness :
  Ledger.mark_sent (Ledger.mark_sent Ledger.empty_state "NOW" 1) "FORECAST" 2
  = Ledger.mark_sent (Ledger.mark_sent Ledger.empty_state "FORECAST" 2)
      "NOW" 1.
Proof.
  apply (proj2 (mark_sent_last_wins Ledger.empty_state "NOW" "FORECAST" 1 2)).
  discriminate.
Defined.

Lemma missing_ledger_lets_fire_witness :
  Run.ledger (Run.load_state "alert_state.json" fresh_world).2
  = Some Ledger.empty_state
  /\ (Ledger.can_send_now Ledger.empty_state "NOW" 7200 1704146400 = true
      <-> 7200 <= 1704146400).
Proof.
  apply (missing_ledger_lets_fire "alert_state.json" "NOW" fresh_world 7200
           1704146400).
  left. reflexivity.
Defined.

Lemma nowcast_value_and_time_together_witness :
  (Some (PyFloat.of_decimal false 533 2) = None
   /\ Some (Text "2024-01-01 00:00:00") = None)
  \/ (exists v s, Some (PyFloat.of_decimal false 533 2) = Some v
                  /\ Some (Text "2024-01-01 00:00:00") = Some s).
Proof.
  apply (nowcast_value_and_time_together
           (Ok (JList [JList [JStr "time_tag"; JStr "kp"];
                       JList [JStr "2024-01-01 00:00:00"; JStr "5.33"]]))).
  reflexivity.
Defined.

Lemma to_kp_float_raises_only_on_overflow_witness :
  OverflowError = OverflowError
  /\ exists z sign, JInt (2 ^ 1024) = JInt z
                    /\ PyFloat.of_Z z = S754_infinity sign.
Proof.
  apply (to_kp_float_raises_only_on_overflow (JInt (2 ^ 1024)) OverflowError).
  reflexivity.
Defined.

Lemma wrapper_reads_as_record_list_witness :
  Nowcast.kp_nowcast
    (Ok (JDict {[ "data" := JList [JDict {[ "kp" := JInt 4;
                                           "time_tag" := JStr "t" ]}] ]}))
  = Nowcast.kp_nowcast
      (Ok (JList [JDict {[ "kp" := JInt 4; "time_tag" := JStr "t" ]}])).
Proof.
  apply (proj1 (wrapper_reads_as_record_list
                  {[ "data" := JList [JDict {[ "kp" := JInt 4;
                                              "time_tag" := JStr "t" ]}] ]}
                  [JDict {[ "kp" := JInt 4; "time_tag" := JStr "t" ]}])).
  - reflexivity.
  - right. eexists _, _. reflexivity.
Defined.

Lemma record_reads_as_tabular_row_witness :
  Nowcast.kp_nowcast
    (Ok (JList [JDict {[ "kp" := JStr "5.33"; "time_tag" := JStr "t";
                         "source" := JStr "swpc" ]}]))
  = Nowcast.kp_nowcast
      (Ok (JList [JList [JStr "time_tag"; JStr "kp"];
                  JList [JStr "t"; JStr "5.33"]])).
Proof.
  apply (record_reads_as_tabular_row
           {[ "kp" := JStr "5.33"; "time_tag" := JStr "t";
              "source" := JStr "swpc" ]}
           (JStr "5.33") (JStr "t") [JStr "time_tag"; JStr "kp"] []);
    (reflexivity || discriminate).
Defined.

Lemma null_value_falls_through_witness :
  Nowcast.kp_nowcast
    (Ok (JDict {[ "kp" := JNull; "estimated_kp" := JInt 4;
                  "time_tag" := JStr "t" ]}))
  = match Nowcast.to_kp_float (JInt 4) with
    | Ok (Some kp) => Ok (Some kp, Some (py_str (JStr "t")))
    | _ => Ok Nowcast.absent
    end.
Proof.
  apply (null_value_falls_through
           {[ "kp" := JNull; "estimated_kp" := JInt 4;
              "time_tag" := JStr "t" ]} (JInt 4) (JStr "t"));
    (reflexivity || discriminate).
Defined.

Lemma higher_ceiling_same_slot_witness :
  Meteo.meteo_best_slot_around_peak four_dark_samples peak_2024_01_01_21h 2
    100 = Ok (true, Some 20, Some "2024-01-01T22:00").
Proof.
  apply (higher_ceiling_same_slot four_dark_samples peak_2024_01_01_21h 2
           70 100 20 "2024-01-01T22:00"); [lia|reflexivity].
Defined.

Lemma now_needs_complete_weather_witness :
  exists blk c,
    Some {| Helpers.c_is_day := Some 0; Helpers.c_cloud_cover := Some 30;
            Helpers.c_time := Some "2024-01-01T22:00" |} = Some blk
    /\ Helpers.c_is_day blk = Some 0
    /\ Helpers.c_cloud_cover blk = Some c
    /\ c <= Run.max_cloud scenario_cfg.
Proof.
  apply (now_needs_complete_weather scenario_cfg 1704146400
           Ledger.empty_state (PyFloat.of_decimal false 65 1)
           (Some {| Helpers.c_is_day := Some 0;
                    Helpers.c_cloud_cover := Some 30;
                    Helpers.c_time := Some "2024-01-01T22:00" |}));
    [simpl; lia|reflexivity].
Defined.

Lemma parse_recipients_clean_witness : clean_address "b@y.org".
Proof.
  apply (parse_recipients_clean (Some " a@x.org , b@y.org,, ") "b@y.org").
  vm_compute. right. left.
Defined.

Lemma recipients_round_trip_witness :
  Helpers.parse_recipients (Some (Helpers.to_header ["a@x.org"; "b@y.org"]))
  = ["a@x.org"; "b@y.org"].
Proof.
  apply (recipients_round_trip ["a@x.org"; "b@y.org"]).
  repeat (apply Forall_cons; split;
          [split; [discriminate|split; reflexivity]|]).
  apply Forall_nil_2.
Defined.

Lemma html_escape_piecewise_witness :
  Helpers.html_escape (Some "Kp 6.5, noc") = "Kp 6.5, noc".
Proof.
  apply (proj2 (html_escape_piecewise "Kp 6.5, noc" "")); reflexivity.
Defined.

Lemma html_escape_injective_witness : "a<b" = "a<b".
Proof.
  apply (html_escape_injective "a<b" "a<b"). reflexivity.
Defined.

Lemma to_kp_float_string_witness :
  Nowcast.to_kp_float (JStr "no reading yet") = Ok None.
Proof.
  apply (proj1 (to_kp_float_string "no reading yet")). reflexivity.
Defined.

(** ** The order of the floats *)

Section FloatOrder.
Import PyFloat.

Ltac order_cases :=
  repeat match goal with
         | |- context [Pos.compare_cont Eq ?x ?y] =>
             change (Pos.compare_cont Eq x y) with (Pos.compare x y)
         | H : context [Pos.compare_cont Eq ?x ?y] |- _ =>
             change (Pos.compare_cont Eq x y) with (Pos.compare x y) in H
         end;
  repeat match goal with
         | H : context [(?x ?= ?y)%Z] |- _ =>
             destruct (Z.compare_spec x y); simpl in H; try discriminate H
         | H : context [(?x ?= ?y)%positive] |- _ =>
             destruct (Pos.compare_spec x y); simpl in H; try discriminate H
         end;
  repeat match goal with
         | |- context [(?x ?= ?y)%Z] =>
             destruct (Z.compare_spec x y); simpl
         | |- context [(?x ?= ?y)%positive] =>
             destruct (Pos.compare_spec x y); simpl
         end;
  subst; try reflexivity; try discriminate; try lia.

Lemma float_lt_trans (a b c : float) :
  lt a b = true -> lt b c = true -> lt a c = true.
Proof.
  unfold lt, SFltb, SFcompare.
  destruct a as [[]|[]| |[] ma ea], b as [[]|[]| |[] mb eb],
    c as [[]|[]| |[] mc ec]; try discriminate; try reflexivity;
    intros H1 H2; order_cases.
Qed.

Lemma float_lt_le_trans (a b c : float) :
  lt a b = true -> SFleb b c = true -> lt a c = true.
Proof.
  unfold lt, SFltb, SFleb, SFcompare.
  destruct a as [[]|[]| |[] ma ea], b as [[]|[]| |[] mb eb],
    c as [[]|[]| |[] mc ec]; try discriminate; try reflexivity;
    intros H1 H2; order_cases.
Qed.

Lemma float_le_trans (a b c : float) :
  SFleb a b = true -> SFleb b c = true -> SFleb a c = true.
Proof.
  unfold SFleb, SFcompare.
  destruct a as [[]|[]| |[] ma ea], b as [[]|[]| |[] mb eb],
    c as [[]|[]| |[] mc ec]; try discriminate; try reflexivity;
    intros H1 H2; order_cases.
Qed.

Lemma float_lt_irrefl (a : float) : lt a a = false.
Proof.
  unfold lt, SFltb, SFcompare.
  destruct a as [[]|[]| |[] ma ea]; try reflexivity;
    rewrite Z.compare_refl;
    change (Pos.compare_cont Eq ma ma) with (Pos.compare ma ma);
    by rewrite Pos.compare_refl.
Qed.

End FloatOrder.

(** ** The forecast search *)

Lemma forecast_step_candidate hours now b row :
  Noaa.forecast_step hours now b row =
  match row_candidate hours now row with
  | Raise e => Raise e
  | Ok None => Ok b
  | Ok (Some (kp, t, dt)) =>
      Ok (if PyFloat.lt b.1.1 kp then (kp, t, Some dt) else b)
  end.
Proof.
  unfold Noaa.forecast_step, row_candidate.
  destruct (negb (truthy row)); [reflexivity|].
  destruct (py_len row) as [n|e]; [|reflexivity]. cbn.
  destruct (_ <=? _)%nat; [reflexivity|].
  destruct (py_getitem row 0) as [v0|e]; [|reflexivity]. cbn.
  destruct (Noaa.parse_time_text (py_str v0)) as [dt|]; [|reflexivity].
  destruct (_ || _); [reflexivity|].
  destruct (py_getitem row 1) as [v1|e]; [|reflexivity]. cbn.
  destruct (Noaa.py_float v1) as [kp|e]; [|reflexivity].
  by destruct (PyFloat.lt b.1.1 kp).
Qed.

Lemma forecast_loop_cons hours now row rows b b' :
  Noaa.forecast_loop hours now (row :: rows) b = Ok b' ->
  exists b1, Noaa.forecast_step hours now b row = Ok b1 /\
             Noaa.forecast_loop hours now rows b1 = Ok b'.
Proof.
  cbn. destruct (Noaa.forecast_step hours now b row) as [b1|e]; [|done].
  intros H. by exists b1.
Qed.

(** The best Kp only grows along the loop. *)
Lemma forecast_loop_grows hours now rows : forall b b' x,
  Noaa.forecast_loop hours now rows b = Ok b' ->
  PyFloat.lt b'.1.1 x = true -> PyFloat.lt b.1.1 x = true.
Proof.
  induction rows as [|row rows IH]; intros b b' x H Hx.
  - cbn in H. by injection H as <-.
  - apply forecast_loop_cons in H as (b1 & H1 & H2).
    specialize (IH _ _ _ H2 Hx).
    rewrite forecast_step_candidate in H1.
    destruct (row_candidate hours now row) as [[[[kp t] dt]|]|e];
      [| by injection H1 as <- | done].
    destruct (PyFloat.lt b.1.1 kp) eqn:Hlt; injection H1 as <-; [|done].
    cbn in IH. by apply float_lt_trans with kp.
Qed.

Lemma forecast_loop_above hours now rows : forall b b' row c,
  Noaa.forecast_loop hours now rows b = Ok b' ->
  row ∈ rows -> row_candidate hours now row = Ok (Some c) ->
  PyFloat.lt b'.1.1 c.1.1 = false.
Proof.
  induction rows as [|r rows IH]; intros b b' row c H Hin Hc.
  - by apply elem_of_nil in Hin.
  - apply forecast_loop_cons in H as (b1 & H1 & H2).
    apply elem_of_cons in Hin as [->|Hin]; [|by eapply IH].
    destruct (PyFloat.lt b'.1.1 c.1.1) eqn:Hlt; [|done].
    pose proof (forecast_loop_grows _ _ _ _ _ _ H2 Hlt) as Hb1.
    rewrite forecast_step_candidate, Hc in H1.
    destruct c as [[kp t] dt]. cbn in *.
    destruct (PyFloat.lt b.1.1 kp) eqn:Hb; injection H1 as <-; cbn in Hb1.
    + by rewrite float_lt_irrefl in Hb1.
    + congruence.
Qed.

Lemma forecast_loop_first hours now rows : forall b b',
  Noaa.forecast_loop hours now rows b = Ok b' ->
  b' = b \/
  exists i row d,
    rows !! i = Some row /\
    row_candidate hours now row = Ok (Some (b'.1.1, b'.1.2, d)) /\
    b'.2 = Some d /\
    PyFloat.lt b.1.1 b'.1.1 = true /\
    forall j row' c, (j < i)%nat -> rows !! j = Some row' ->
      row_candidate hours now row' = Ok (Some c) ->
      PyFloat.ge c.1.1 b'.1.1 = false.
Proof.
  induction rows as [|r rows IH]; intros b b' H.
  - cbn in H. left. by injection H as <-.
  - apply forecast_loop_cons in H as (b1 & H1 & H2).
    rewrite forecast_step_candidate in H1.
    destruct (IH _ _ H2) as [->|(i & row & d & Hi & Hrow & Hd & Hlt & Hearlier)].
    + destruct (row_candidate hours now r) as [[[[kp t] dt]|]|e] eqn:Hr;
        [| left; by injection H1 as <- | done].
      destruct (PyFloat.lt b.1.1 kp) eqn:Hb; injection H1 as <-; [|by left].
      right. exists 0%nat, r, dt. cbn.
      repeat apply conj; try done. intros; lia.
    + right. exists (S i), row, d. cbn.
      assert (Hbb' : PyFloat.lt b.1.1 b'.1.1 = true).
      { destruct (row_candidate hours now r) as [[[[kp t] dt]|]|e];
          [| by injection H1 as <- | done].
        destruct (PyFloat.lt b.1.1 kp) eqn:Hb; injection H1 as <-; [|done].
        cbn in Hlt. by apply float_lt_trans with kp. }
      repeat apply conj; try done.
      intros [|j] row' c Hj Hrow' Hc; cbn in Hrow'.
      * injection Hrow' as <-.
        destruct (PyFloat.ge c.1.1 b'.1.1) eqn:Hge; [|done].
        assert (Hb1c : PyFloat.lt b1.1.1 c.1.1 = true)
          by (by apply float_lt_le_trans with b'.1.1).
        rewrite Hc in H1. destruct c as [[kp t] dt]. cbn in *.
        destruct (PyFloat.lt b.1.1 kp) eqn:Hb; injection H1 as <-;
          cbn in Hb1c.
        -- by rewrite float_lt_irrefl in Hb1c.
        -- congruence.
      * apply (Hearlier j row' c); [lia|done..].
Qed.

Lemma array_row_candidate hours now row :
  is_array row -> exists c, row_candidate hours now row = Ok c.
Proof.
  destruct row as [| | | | |l|]; try done. intros _.
  unfold row_candidate. destruct (negb (truthy (JList l))); [by eexists|].
  cbn. destruct (_ <=? _)%nat eqn:Hlen; [by eexists|].
  apply Nat.leb_gt in Hlen.
  destruct l as [|v0 l]; [cbn in Hlen; lia|]. cbn.
  destruct (Noaa.parse_time_text (py_str v0)); [|by eexists].
  destruct (_ || _); [by eexists|].
  destruct (_ ≫= _); by eexists.
Qed.

Lemma forecast_loop_arrays hours now rows : forall b,
  Forall is_array rows ->
  exists b', Noaa.forecast_loop hours now rows b = Ok b'.
Proof.
  induction rows as [|row rows IH]; intros b Hall.
  - by eexists.
  - apply Forall_cons in Hall as [Hrow Hall]. cbn.
    rewrite forecast_step_candidate.
    destruct (array_row_candidate hours now row Hrow) as [[[[kp t] dt]|] ->];
      cbn; apply IH, Hall.
Qed.

(** X25. When [kp_forecast_max_next_hours] returns, no row of the feed that
    reaches the comparison [kp > best_kp] (a row of two entries or more,
    with a time tag that parses to an instant from now to [hours] ahead and
    a Kp that [float] accepts) has a Kp above the one returned. *)
Theorem forecast_peak_is_greatest hours data now rows kp t dt i row c :
  Noaa.forecast_rows data = Ok rows ->
  Noaa.kp_forecast_max_next_hours hours data now = Ok (kp, t, dt) ->
  rows !! i = Some row ->
  row_candidate hours now row = Ok (Some c) ->
  PyFloat.lt kp c.1.1 = false.
Proof.
  unfold Noaa.kp_forecast_max_next_hours. intros -> H Hi Hc. cbn in H.
  apply list_elem_of_lookup_2 in Hi.
  exact (forecast_loop_above _ _ _ _ _ _ _ H Hi Hc).
Qed.

(** X26. The triple that [kp_forecast_max_next_hours] returns is the initial
    [(-1.0, "unknown", None)], or the Kp, the time tag and the instant of
    one row that reaches the comparison; no earlier such row has a Kp
    greater than or equal to it, so among equal maxima the first one is
    reported, and [best_dt] is [None] only with the initial triple. *)
Theorem forecast_peak_is_first hours data now rows kp t dt :
  Noaa.forecast_rows data = Ok rows ->
  Noaa.kp_forecast_max_next_hours hours data now = Ok (kp, t, dt) ->
  (kp, t, dt) = Noaa.initial_best \/
  exists i row d,
    rows !! i = Some row /\
    row_candidate hours now row = Ok (Some (kp, t, d)) /\
    dt = Some d /\
    forall j row' c, (j < i)%nat -> rows !! j = Some row' ->
      row_candidate hours now row' = Ok (Some c) ->
      PyFloat.ge c.1.1 kp = false.
Proof.
  unfold Noaa.kp_forecast_max_next_hours. intros -> H. cbn in H.
  destruct (forecast_loop_first _ _ _ _ _ H)
    as [->|(i & row & d & Hi & Hrow & Hd & _ & Hearlier)]; [by left|].
  right. exists i, row, d. cbn in *. by repeat apply conj.
Qed.

(** X27. On a feed that is a header array followed by arrays, whatever they
    hold, [kp_forecast_max_next_hours] returns and raises nothing: bad
    time tags, instants outside the window and bad Kp values are skipped. *)
Theorem forecast_total_on_tables hours header rows now :
  Forall is_array rows ->
  exists b,
    Noaa.kp_forecast_max_next_hours hours (JList (JList header :: rows)) now
    = Ok b.
Proof.
  intros Hall. unfold Noaa.kp_forecast_max_next_hours. cbn.
  by apply forecast_loop_arrays.
Qed.



(** ** The current Kp *)

(** X29. [kp_now] reads the last row of the feed and nothing before it: the Kp
    is [float] of its second entry, the time is [str] of its first, and
    what [float] raises is raised. *)
Theorem kp_now_reads_last_row rows t v rest :
  Noaa.kp_now (JList (rows ++ [JList (t :: v :: rest)])) =
  match Noaa.py_float v with
  | Ok kp => Ok (kp, py_str t)
  | Raise e => Raise e
  end.
Proof.
  unfold Noaa.kp_now, Noaa.py_getitem_last. rewrite last_snoc. cbn.
  by destruct (Noaa.py_float v).
Qed.

(** ** The tiers *)

(** X30. [kp_label] is monotone: a Kp that is greater than or equal to another
    never gets a lower tier. *)
Theorem kp_label_monotone x y :
  PyFloat.ge y x = true ->
  (tier_rank (kp_label x) <= tier_rank (kp_label y))%nat.
Proof.
  unfold PyFloat.ge. intros Hxy.
  assert (Hup : forall k, PyFloat.ge x k = true -> PyFloat.ge y k = true).
  { unfold PyFloat.ge. intros k Hk. by apply float_le_trans with x. }
  unfold kp_label.
  pose proof (Hup (PyFloat.of_Z 8)) as H8.
  pose proof (Hup (PyFloat.of_Z 7)) as H7.
  pose proof (Hup (PyFloat.of_Z 6)) as H6.
  pose proof (Hup (PyFloat.of_Z 5)) as H5.
  destruct (PyFloat.ge x (PyFloat.of_Z 8)), (PyFloat.ge y (PyFloat.of_Z 8));
    try (specialize (H8 eq_refl); discriminate);
  destruct (PyFloat.ge x (PyFloat.of_Z 7)), (PyFloat.ge y (PyFloat.of_Z 7));
    try (specialize (H7 eq_refl); discriminate);
  destruct (PyFloat.ge x (PyFloat.of_Z 6)), (PyFloat.ge y (PyFloat.of_Z 6));
    try (specialize (H6 eq_refl); discriminate);
  destruct (PyFloat.ge x (PyFloat.of_Z 5)), (PyFloat.ge y (PyFloat.of_Z 5));
    try (specialize (H5 eq_refl); discriminate);
  vm_compute; lia.
Qed.

(** ** The forecast properties on the table *)

Example forecast_table_peak :
  Noaa.kp_forecast_max_next_hours 24 forecast_table forecast_read_at
  = Ok (PyFloat.of_decimal false 567 2, Text "2024-01-01 15:00:00",
        Some 1704121200000000).
Proof. vm_compute. reflexivity. Qed.

Lemma forecast_peak_is_greatest_witness :
  PyFloat.lt (PyFloat.of_decimal false 567 2) (PyFloat.of_Z 3) = false.
Proof.
  apply (forecast_peak_is_greatest 24 forecast_table forecast_read_at
           forecast_table_rows
           (PyFloat.of_decimal false 567 2) (Text "2024-01-01 15:00:00")
           (Some 1704121200000000) 0
           (forecast_row "2024-01-01 12:00:00" "3.00")
           (PyFloat.of_Z 3, Text "2024-01-01 12:00:00", 1704110400000000));
    vm_compute; reflexivity.
Defined.

Lemma forecast_peak_is_first_witness :
  (PyFloat.of_decimal false 567 2, Text "2024-01-01 15:00:00",
   Some 1704121200000000) = Noaa.initial_best \/
  exists i row d,
    forecast_table_rows !! i = Some row /\
    row_candidate 24 forecast_read_at row
    = Ok (Some (PyFloat.of_decimal false 567 2,
                Text "2024-01-01 15:00:00", d)) /\
    Some 1704121200000000 = Some d /\
    forall j row' c, (j < i)%nat -> forecast_table_rows !! j = Some row' ->
      row_candidate 24 forecast_read_at row' = Ok (Some c) ->
      PyFloat.ge c.1.1 (PyFloat.of_decimal false 567 2) = false.
Proof.
  apply (forecast_peak_is_first 24 forecast_table forecast_read_at
           forecast_table_rows); vm_compute; reflexivity.
Defined.

Lemma forecast_total_on_tables_witness :
  exists b,
    Noaa.kp_forecast_max_next_hours 24 forecast_table forecast_read_at
    = Ok b.
Proof.
  apply (forecast_total_on_tables 24 forecast_header forecast_table_rows
           forecast_read_at).
  repeat constructor.
Defined.


(** A number before the record raises first, at [len(row)]; after an array
    the record raises its [KeyError]. *)
Example forecast_record_after_number :
  Noaa.kp_forecast_max_next_hours 24
    (JList [JList forecast_header; JInt 5; JDict forecast_record])
    forecast_read_at = Raise TypeError
  /\ Noaa.kp_forecast_max_next_hours 24
       (JList [JList forecast_header;
               forecast_row "2024-01-01 12:00:00" "3.00";
               JDict forecast_record])
       forecast_read_at = Raise KeyError.
Proof. split; vm_compute; reflexivity. Qed.

Lemma kp_label_monotone_witness :
  (tier_rank (kp_label (PyFloat.of_Z 5))
   <= tier_rank (kp_label (PyFloat.of_decimal false 75 1)))%nat.
Proof.
  apply (kp_label_monotone (PyFloat.of_Z 5) (PyFloat.of_decimal false 75 1)).
  vm_compute. reflexivity.
Defined.
